(** * Friday Bazar payments bot

    A shallow embedding of the order store ([src/services/db.py]), the
    commission helper ([src/utils/helpers.py]), the admin and payment handlers
    ([src/handlers/admin.py], [src/handlers/payment.py]), the referral entry
    point ([src/handlers/user.py]) and the settings manager
    ([src/services/settings.py]), followed by the properties of the order life
    cycle, the referral ledger, the flush policy and the price update.

    Python dictionaries are finite maps from strings to Python values, floats
    are binary64 floats, exceptions are explicit results, and the mutable
    singletons ([db], [settings_manager]) are threaded as explicit state. *)

From Stdlib Require Import ZArith String List Bool Lia Floats SpecFloat.
From Stdlib Require Import Ascii Decimal DecimalString DecimalNat.
From stdpp Require Import base tactics option list gmap strings sorting.

Set Warnings "-register-all,-inexact-float".
Set Default Proof Using "Type".

Local Open Scope string_scope.
Local Open Scope Z_scope.

(** ** Python values *)

Module py.

(** The values that occur in the JSON-backed records of the bot. *)
Inductive pyval : Type :=
| VNone
| VBool (b : bool)
| VInt (z : Z)
| VFloat (f : float)
| VStr (s : string)
| VList (l : list pyval)
| VDict (d : gmap string pyval).

Abbreviation pydict := (gmap string pyval).

Inductive exn : Type :=
| KeyError (k : string)
| TypeError
| ValueError
| OverflowError
| AttributeError
| NameError (name : string).

(** The outcome of an expression: a value or a raised exception. *)
Inductive result (A : Type) : Type :=
| Ok (a : A)
| Raise (e : exn).
Arguments Ok {A} a.
Arguments Raise {A} e.

Definition rbind {A B} (r : result A) (k : A -> result B) : result B :=
  match r with
  | Ok a => k a
  | Raise e => Raise e
  end.

(** [d[k]]: a missing key raises [KeyError]. *)
Definition getitem (d : pydict) (k : string) : result pyval :=
  match d !! k with
  | Some v => Ok v
  | None => Raise (KeyError k)
  end.

(** [d.get(k)] and [d.get(k, default)]. *)
Definition get (d : pydict) (k : string) : pyval := default VNone (d !! k).
Definition get_default (d : pydict) (k : string) (dflt : pyval) : pyval :=
  default dflt (d !! k).

(** [d.update(updates)]: the keys of [updates] win. *)
Definition update (d updates : pydict) : pydict := updates ∪ d.

(** [v == s] for a string [s]: only a string equals a string. *)
Definition eq_str (v : pyval) (s : string) : bool :=
  match v with
  | VStr t => String.eqb t s
  | _ => false
  end.

Definition float_is_zero (f : float) : bool :=
  match Prim2SF f with
  | S754_zero _ => true
  | _ => false
  end.

(** Truth value of an object, as [if v:] and [not v] test it. *)
Definition truthy (v : pyval) : bool :=
  match v with
  | VNone => false
  | VBool b => b
  | VInt z => negb (z =? 0)
  | VFloat f => negb (float_is_zero f)
  | VStr s => negb (String.eqb s "")
  | VList l => match l with [] => false | _ => true end
  | VDict d => negb (bool_decide (d = ∅))
  end.

(** *** Numbers *)

(** [float(z)] for an int: the nearest binary64 value (ties to even), and
    [OverflowError] when the int is too large for a float. *)
Definition float_of_int (z : Z) : result float :=
  match binary_normalize prec emax z 0 false with
  | S754_infinity _ => Raise OverflowError
  | sf => Ok (SF2Prim sf)
  end.

(** [int(f)] for a float: truncation toward zero; [ValueError] on a NaN and
    [OverflowError] on an infinity. *)
Definition int_of_float (f : float) : result Z :=
  match Prim2SF f with
  | S754_nan => Raise ValueError
  | S754_infinity _ => Raise OverflowError
  | S754_zero _ => Ok 0
  | S754_finite s m e =>
      let a := if 0 <=? e then Z.pos m * 2 ^ e else Z.pos m / 2 ^ (- e) in
      Ok (if s then - a else a)
  end.

(** The float that a number stands for in mixed arithmetic. *)
Definition as_float (v : pyval) : result float :=
  match v with
  | VFloat f => Ok f
  | VInt z => float_of_int z
  | VBool b => Ok (if b then 1%float else 0%float)
  | _ => Raise TypeError
  end.

(** [v * f], [v + f] for a float [f]. *)
Definition mul_float (v : pyval) (f : float) : result float :=
  rbind (as_float v) (fun x => Ok (x * f)%float).
Definition add_float (v : pyval) (f : float) : result pyval :=
  rbind (as_float v) (fun x => Ok (VFloat (x + f)%float)).

(** [v + n] for an int [n]. *)
Definition add_int (v : pyval) (n : Z) : result pyval :=
  match v with
  | VInt z => Ok (VInt (z + n))
  | VBool b => Ok (VInt ((if b then 1 else 0) + n))
  | VFloat f => rbind (float_of_int n) (fun y => Ok (VFloat (f + y)%float))
  | _ => Raise TypeError
  end.

(** Nearest integer to [a / b] for [b > 0], ties to even. *)
Definition div_half_even (a b : Z) : Z :=
  let q := a / b in
  let r := a mod b in
  match 2 * r ?= b with
  | Lt => q
  | Gt => q + 1
  | Eq => if Z.even q then q else q + 1
  end.

(** [round(x, ndigits)] for a float and [ndigits >= 0]: the exact binary
    value of [x] is rounded to [ndigits] decimals (ties to even) and the
    decimal result is converted back to the nearest float; NaN, the
    infinities and the zeros are returned as they are. *)
Definition round (x : float) (ndigits : N) : float :=
  match Prim2SF x with
  | S754_finite s m e =>
      let p := 10 ^ Z.of_N ndigits in
      let n := if 0 <=? e then Z.pos m * 2 ^ e * p
               else div_half_even (Z.pos m * p) (2 ^ (- e)) in
      match n with
      | Z.pos n' =>
          SF2Prim (SFdiv prec emax (S754_finite s n' 0)
                                   (S754_finite false (Z.to_pos p) 0))
      | _ => SF2Prim (S754_zero s)
      end
  | _ => x
  end.

(** [str(user_id)] is the key of a user. Telegram ids are ints and only
    those are modelled; [str] of another value is reported as a
    [TypeError]. *)
Definition int_key (v : pyval) : result Z :=
  match v with
  | VInt z => Ok z
  | _ => Raise TypeError
  end.

(** An order id read back from an order that was found by its id. *)
Definition str_key (v : pyval) : result string :=
  match v with
  | VStr s => Ok s
  | _ => Raise TypeError
  end.

(** Only hashable values can be keys of a dict. *)
Definition hashable (v : pyval) : bool :=
  match v with
  | VList _ | VDict _ => false
  | _ => true
  end.

(** The elements a [for] loop or a generator visits. *)
Definition iter_values (v : pyval) : result (list pyval) :=
  match v with
  | VList l => Ok l
  | VDict d => Ok (VStr <$> (map_to_list d).*1)
  | VStr s => Ok ((fun c => VStr (String c "")) <$> list_ascii_of_string s)
  | _ => Raise TypeError
  end.

(** [f"{n:06d}"]. *)
Definition zfill6 (n : nat) : string :=
  let s := NilEmpty.string_of_uint (Nat.to_uint n) in
  String.concat "" (replicate (6 - String.length s)%nat "0") +:+ s.

End py.
Import py.

(** ** A state monad in which exceptions keep the mutations made so far *)

Definition M (S A : Type) : Type := S -> result A * S.

Definition ret {S A} (a : A) : M S A := fun s => (Ok a, s).
Definition raise {S A} (e : exn) : M S A := fun s => (Raise e, s).
Definition bind {S A B} (m : M S A) (k : A -> M S B) : M S B :=
  fun s => match m s with
           | (Ok a, s') => k a s'
           | (Raise e, s') => (Raise e, s')
           end.
Definition lift {S A} (r : result A) : M S A := fun s => (r, s).
Definition gets {S A} (f : S -> A) : M S A := fun s => (Ok (f s), s).
Definition modify {S} (f : S -> S) : M S unit := fun s => (Ok tt, f s).

Notation "'let*' x ':=' m 'in' k" := (bind m (fun x => k))
  (at level 10, x pattern, m at level 100, k at level 200).
Notation "m ';;' k" := (bind m (fun _ => k))
  (at level 100, k at level 200, right associativity).

(** Run a computation on a component of the state. *)
Definition zoom {S T A} (proj : S -> T) (inj : T -> S -> S) (m : M T A) : M S A :=
  fun s => let '(r, t) := m (proj s) in (r, inj t s).

(** [for x in xs: body], where the body may mutate the element it visits: the
    loop stops at the first exception and keeps the mutations made so far. *)
Fixpoint for_each {A} (body : M A unit) (xs : list A) : result unit * list A :=
  match xs with
  | [] => (Ok tt, [])
  | x :: rest =>
      match body x with
      | (Ok _, x') => let '(r, rest') := for_each body rest in (r, x' :: rest')
      | (Raise e, x') => (Raise e, x' :: rest)
      end
  end.

(** ** Files *)

(** What a JSON file of the data directory holds. *)
Inductive file (A : Type) : Type :=
| Absent
| Stored (a : A)
| Unreadable.
Arguments Absent {A}.
Arguments Stored {A} a.
Arguments Unreadable {A}.

(** What happens to one attempt to write a file: it succeeds, it fails before
    the file is opened (serialisation, open), or it fails after the file was
    opened for writing and truncated. *)
Inductive io : Type :=
| IoOk
| IoErrorBeforeOpen
| IoErrorAfterOpen.

Inductive log : Type :=
| LogReadError
| LogWriteError
| LogSettingsMissing
| LogServicesMissing.

(** ** The order store: src/services/db.py *)

Module db.

(** The in-memory tables. [_users] is keyed by [str(user_id)]; [str] is
    injective on ints, so the int itself is the key. An order is referred
    to by its position in [_orders], which never changes: orders are only
    appended. *)
Record Database : Type := mkDatabase {
  _users : gmap Z pydict;
  _orders : list pydict;
  _users_dirty : bool;
  _orders_dirty : bool;
}.

Record Disk : Type := mkDisk {
  users_file : file (gmap Z pydict);
  orders_file : file (list pydict);
  written_log : list log;
}.

Definition with_users (f : gmap Z pydict -> gmap Z pydict) (d : Database) : Database :=
  mkDatabase (f (_users d)) (_orders d) (_users_dirty d) (_orders_dirty d).
Definition with_orders (f : list pydict -> list pydict) (d : Database) : Database :=
  mkDatabase (_users d) (f (_orders d)) (_users_dirty d) (_orders_dirty d).
Definition set_users_dirty (b : bool) (d : Database) : Database :=
  mkDatabase (_users d) (_orders d) b (_orders_dirty d).
Definition set_orders_dirty (b : bool) (d : Database) : Database :=
  mkDatabase (_users d) (_orders d) (_users_dirty d) b.

(** [_write_file]: every exception is caught and logged, so the caller
    cannot tell a failed write from a successful one. *)
Definition _write_file {A} (outcome : io) (old : file A) (data : A)
  : file A * list log :=
  match outcome with
  | IoOk => (Stored data, [])
  | IoErrorBeforeOpen => (old, [LogWriteError])
  | IoErrorAfterOpen => (Unreadable, [LogWriteError])
  end.

(** [_read_file]: an empty or unreadable file reads as the empty table. *)
Definition _read_file {A} (empty : A) (f : file A) : A * list log :=
  match f with
  | Stored a => (a, [])
  | _ => (empty, [LogReadError])
  end.

(** [_save_dirty_data]: the two outcomes are those of the write of the users
    file and of the orders file, should they be attempted. *)
Definition _save_dirty_data (io_users io_orders : io) (st : Database * Disk)
  : Database * Disk :=
  let '(d, k) := st in
  let '(d, k) :=
    if _users_dirty d then
      let '(f, l) := _write_file io_users (users_file k) (_users d) in
      (set_users_dirty false d, mkDisk f (orders_file k) (written_log k ++ l)%list)
    else (d, k) in
  if _orders_dirty d then
    let '(f, l) := _write_file io_orders (orders_file k) (_orders d) in
    (set_orders_dirty false d, mkDisk (users_file k) f (written_log k ++ l)%list)
  else (d, k).

(** The record [get_user] creates for an unknown user. *)
Definition new_user (user_id : Z) (now : string) : pydict :=
  list_to_map
    [ ("user_id", VInt user_id); ("coins", VFloat 0%float);
      ("total_referrals", VInt 0); ("total_earned", VFloat 0%float);
      ("referred_by", VNone); ("joined_at", VStr now);
      ("purchases", VList []); ("language", VStr "en"); ("email", VNone);
      ("subscription_plan", VNone); ("subscription_service", VNone);
      ("subscription_expiry", VNone); ("subscription_status", VStr "none") ].

Definition get_user (user_id : Z) (now : string) : M Database pydict :=
  let* users := gets _users in
  match users !! user_id with
  | Some u => ret u
  | None =>
      let new_user := new_user user_id now in
      modify (with_users <[user_id := new_user]>);;
      modify (set_users_dirty true);;
      ret new_user
  end.

(** [update_user]; the invalidation of the external user cache that follows
    the update is not part of the store. *)
Definition update_user (user_id : Z) (updates : pydict) : M Database bool :=
  let* users := gets _users in
  match users !! user_id with
  | Some u =>
      modify (with_users <[user_id := update u updates]>);;
      modify (set_users_dirty true);;
      ret true
  | None => ret false
  end.

(** [self._users[user_key][field] = f(self._users[user_key][field])]. *)
Definition update_field (user_id : Z) (field : string)
    (f : pyval -> result pyval) : M Database unit :=
  let* users := gets _users in
  match users !! user_id with
  | Some u =>
      let* old := lift (getitem u field) in
      let* new := lift (f old) in
      modify (with_users <[user_id := <[field := new]> u]>)
  | None => raise (KeyError "user_key")
  end.

Definition set_referrer (user_id referrer_id : Z) : M Database bool :=
  let* users := gets _users in
  match users !! user_id with
  | Some u =>
      let* referred_by := lift (getitem u "referred_by") in
      if negb (truthy referred_by) then
        modify (with_users <[user_id := <["referred_by" := VInt referrer_id]> u]>);;
        modify (set_users_dirty true);;
        ret true
      else ret false
  | None => ret false
  end.

(** [add_coins]; its third argument, [reason], is not used. *)
Definition add_coins (user_id : Z) (amount : float) : M Database bool :=
  let* users := gets _users in
  match users !! user_id with
  | Some _ =>
      update_field user_id "coins" (fun c => add_float c amount);;
      update_field user_id "total_earned" (fun c => add_float c amount);;
      modify (set_users_dirty true);;
      ret true
  | None => ret false
  end.

Definition increment_referral_count (user_id : Z) : M Database bool :=
  let* users := gets _users in
  match users !! user_id with
  | Some _ =>
      update_field user_id "total_referrals" (fun c => add_int c 1);;
      modify (set_users_dirty true);;
      ret true
  | None => ret false
  end.

Definition create_order (order_data : pydict) (now : string) : M Database string :=
  let* orders := gets _orders in
  let order_id := "FBP" +:+ zfill6 (length orders + 1) in
  let order :=
    update (list_to_map [ ("order_id", VStr order_id); ("created_at", VStr now);
                          ("status", VStr "pending") ])
           order_data in
  modify (with_orders (fun os => (os ++ [order])%list));;
  modify (set_orders_dirty true);;
  ret order_id.

(** The loop of [get_order] and [update_order]: the position of the first
    order whose ["order_id"] equals [order_id]. *)
Fixpoint find_order (orders : list pydict) (order_id : string) (i : nat)
  : result (option nat) :=
  match orders with
  | [] => Ok None
  | order :: rest =>
      rbind (getitem order "order_id") (fun v =>
        if eq_str v order_id then Ok (Some i)
        else find_order rest order_id (S i))
  end.

(** [get_order] returns the stored dict itself, here its position. *)
Definition get_order (order_id : string) : M Database (option nat) :=
  let* orders := gets _orders in
  lift (find_order orders order_id 0).

Definition update_order (order_id : string) (updates : pydict) : M Database bool :=
  let* orders := gets _orders in
  let* found := lift (find_order orders order_id 0) in
  match found with
  | Some i =>
      modify (with_orders (alter (fun order => update order updates) i));;
      modify (set_orders_dirty true);;
      ret true
  | None => ret false
  end.

(** [order[key]] through the reference [get_order] returned. *)
Definition order_item (i : nat) (key : string) : M Database pyval :=
  let* orders := gets _orders in
  match orders !! i with
  | Some order => lift (getitem order key)
  | None => raise (KeyError key)
  end.

Definition add_purchase_to_user (user_id : Z) (order_id : string) (amount : pyval)
    (now : string) : M Database bool :=
  let* users := gets _users in
  match users !! user_id with
  | Some _ =>
      update_field user_id "purchases" (fun ps =>
        match ps with
        | VList l =>
            Ok (VList (l ++ [VDict (list_to_map [ ("order_id", VStr order_id);
                                                  ("amount", amount);
                                                  ("date", VStr now) ])])%list)
        | _ => Raise AttributeError
        end);;
      modify (set_users_dirty true);;
      ret true
  | None => ret false
  end.

(** *** The life of the store *)

(** [Database()]: empty tables, nothing to save. *)
Definition __init__ : Database := mkDatabase ∅ [] false false.

Definition exists_ {A} (f : file A) : bool :=
  match f with
  | Absent => false
  | _ => true
  end.

(** [initialize]: a file that does not exist is created with the empty
    table, a file that exists is read. [io_users] and [io_orders] are the
    outcomes of the two writes, should they be attempted. The data directory
    is there: src/config.py creates it when it is imported. *)
Definition initialize (io_users io_orders : io) (st : Database * Disk)
  : Database * Disk :=
  let '(d, k) := st in
  let '(users, k) :=
    if negb (exists_ (users_file k)) then
      let '(f, l) := _write_file io_users (users_file k) ∅ in
      (∅, mkDisk f (orders_file k) (written_log k ++ l)%list)
    else
      let '(users, l) := _read_file ∅ (users_file k) in
      (users, mkDisk (users_file k) (orders_file k) (written_log k ++ l)%list) in
  let '(orders, k) :=
    if negb (exists_ (orders_file k)) then
      let '(f, l) := _write_file io_orders (orders_file k) [] in
      ([], mkDisk (users_file k) f (written_log k ++ l)%list)
    else
      let '(orders, l) := _read_file [] (orders_file k) in
      (orders, mkDisk (users_file k) (orders_file k) (written_log k ++ l)%list) in
  (mkDatabase users orders (_users_dirty d) (_orders_dirty d), k).

(** [_persistence_loop]: one flush every five seconds while the store runs;
    each pair of outcomes is that of the writes of one tick. *)
Fixpoint _persistence_loop (ticks : list (io * io)) (st : Database * Disk)
  : Database * Disk :=
  match ticks with
  | [] => st
  | (io_users, io_orders) :: rest =>
      _persistence_loop rest (_save_dirty_data io_users io_orders st)
  end.

(** [shutdown]: the loop is cancelled and a last flush is made. *)
Definition shutdown (io_users io_orders : io) (st : Database * Disk)
  : Database * Disk :=
  _save_dirty_data io_users io_orders st.

End db.

(** ** The commission helper: src/utils/helpers.py *)

Module helpers.

(** [round((amount * percent) / 100, 2)]. *)
Definition calculate_commission (amount : pyval) (percent : float) : result float :=
  rbind (mul_float amount percent) (fun x => Ok (round (x / 100)%float 2)).

(** [format_currency] formats with [:,.2f], which needs a number. *)
Definition format_currency (amount : pyval) : result unit :=
  match amount with
  | VStr _ => Raise ValueError
  | _ => rbind (as_float amount) (fun _ => Ok tt)
  end.

End helpers.

(** ** The settings manager: src/services/settings.py *)

Module settings.

(** [_settings] is the JSON object of settings.json; [_services] is the
    JSON object of services.json, in the order of its keys. *)
Record SettingsManager : Type := mkSettingsManager {
  _settings : pydict;
  _services : list (string * pydict);
  _initialized : bool;
}.

Record Disk : Type := mkDisk {
  settings_file : file pydict;
  services_file : file (list (string * pydict));
  written_log : list log;
}.

Definition _get_default_settings : pydict :=
  list_to_map
    [ ("qr_settings", VDict (list_to_map
         [ ("use_default_qr", VBool false); ("default_qr_file_id", VNone);
           ("default_qr_url", VNone); ("upi_id", VStr "yourupi@paytm");
           ("upi_name", VStr "Friday Bazar"); ("updated_by", VNone);
           ("updated_at", VNone) ]));
      ("payment_system", VDict (list_to_map
         [ ("enabled", VBool true);
           ("disabled_message",
            VStr "Payment system is temporarily under maintenance. Please try again later or contact support.");
           ("disabled_at", VNone); ("disabled_by", VNone);
           ("disabled_reason", VNone) ]));
      ("pricing", VDict (list_to_map
         [ ("allow_dynamic_pricing", VBool true); ("last_bulk_update", VNone);
           ("price_history_enabled", VBool true) ]));
      ("notifications", VDict (list_to_map
         [ ("notify_on_price_change", VBool true);
           ("notify_on_system_toggle", VBool true) ])) ].

(** [_load_json]: any error while opening, reading or parsing is logged and
    the empty mapping is returned. *)
Definition _load_json {A} (empty : A) (f : file A) : A * list log :=
  match f with
  | Stored a => (a, [])
  | _ => (empty, [LogReadError])
  end.

(** [_save_json]: any error is logged and swallowed. *)
Definition _save_json {A} (outcome : io) (old : file A) (data : A)
  : file A * list log :=
  match outcome with
  | IoOk => (Stored data, [])
  | IoErrorBeforeOpen => (old, [LogWriteError])
  | IoErrorAfterOpen => (Unreadable, [LogWriteError])
  end.

Definition exists_ {A} (f : file A) : bool :=
  match f with
  | Absent => false
  | _ => true
  end.

(** [initialize]; [io_settings] is the outcome of the write of the default
    settings, should it be attempted. *)
Definition initialize (io_settings : io) (st : SettingsManager * Disk)
  : SettingsManager * Disk :=
  let '(m, k) := st in
  if _initialized m then (m, k)
  else
    let '(s, k) :=
      if negb (exists_ (settings_file k)) then
        let s := _get_default_settings in
        let '(f, l) := _save_json io_settings (settings_file k) s in
        (s, mkDisk f (services_file k)
                   (written_log k ++ LogSettingsMissing :: l)%list)
      else
        let '(s, l) := _load_json ∅ (settings_file k) in
        (s, mkDisk (settings_file k) (services_file k) (written_log k ++ l)%list) in
    let '(v, k) :=
      if negb (exists_ (services_file k)) then
        ([], mkDisk (settings_file k) (services_file k)
                    (written_log k ++ [LogServicesMissing])%list)
      else
        let '(v, l) := _load_json [] (services_file k) in
        (v, mkDisk (settings_file k) (services_file k) (written_log k ++ l)%list) in
    (mkSettingsManager s v true, k).

Definition get_settings (m : SettingsManager) : pydict := _settings m.

(** [self._services.get(service_id)]. *)
Fixpoint assoc {A} (k : string) (l : list (string * A)) : option A :=
  match l with
  | [] => None
  | (k', a) :: rest => if String.eqb k' k then Some a else assoc k rest
  end.

Definition get_all_services (m : SettingsManager) : list (string * pydict) :=
  _services m.
Definition get_service (m : SettingsManager) (service_id : string) : option pydict :=
  assoc service_id (_services m).

(** [.get('payment_system', {})] followed by a second [.get], which only a
    dict has. *)
Definition section_get (s : pydict) (section key : string) (dflt : pyval)
  : result pyval :=
  match get_default s section (VDict ∅) with
  | VDict d => Ok (get_default d key dflt)
  | _ => Raise AttributeError
  end.

Definition is_payment_enabled (m : SettingsManager) : result pyval :=
  section_get (_settings m) "payment_system" "enabled" (VBool true).

Definition get_disabled_message (m : SettingsManager) : result pyval :=
  section_get (_settings m) "payment_system" "disabled_message"
              (VStr "System Maintenance").

Definition get_qr_settings (m : SettingsManager) : pyval :=
  get_default (_settings m) "qr_settings" (VDict ∅).

(** *** bulk_update_prices *)

(** [1 + (percentage / 100) if increase else 1 - (percentage / 100)]. *)
Definition price_factor (percentage : float) (increase : bool) : float :=
  if increase then (1 + percentage / 100)%float else (1 - percentage / 100)%float.

(** [int(old_price * factor)], raised to 1 when below. *)
Definition new_price (factor : float) (old_price : pyval) : result Z :=
  rbind (mul_float old_price factor) (fun x =>
  rbind (int_of_float x) (fun new_price =>
  Ok (if new_price <? 1 then 1 else new_price))).

(** The body of [for plan in service['plans']]. *)
Definition update_plan (factor : float) : M pyval unit := fun plan =>
  match plan with
  | VDict p =>
      match rbind (getitem p "price") (new_price factor) with
      | Ok n => (Ok tt, VDict (<["price" := VInt n]> p))
      | Raise e => (Raise e, plan)
      end
  | _ => (Raise TypeError, plan)
  end.

(** The loop over [service['plans']]: a list is visited in order; a dict or
    a string yields its keys or characters, which cannot be indexed by
    ['price']; nothing else can be iterated. *)
Definition update_plans (factor : float) : M pyval unit := fun plans =>
  match plans with
  | VList l => let '(r, l') := for_each (update_plan factor) l in (r, VList l')
  | VDict d => (if bool_decide (d = ∅) then Ok tt else Raise TypeError, plans)
  | VStr s => (if String.eqb s "" then Ok tt else Raise TypeError, plans)
  | _ => (Raise TypeError, plans)
  end.

(** The loop over [self._services.items()], with its counter. *)
Fixpoint update_services (factor : float) (services : list (string * pydict))
    (count : Z) : result Z * list (string * pydict) :=
  match services with
  | [] => (Ok count, [])
  | (service_id, service) :: rest =>
      match service !! "plans" with
      | Some plans =>
          match update_plans factor plans with
          | (Ok _, plans') =>
              let '(r, rest') := update_services factor rest (count + 1) in
              (r, (service_id, <["plans" := plans']> service) :: rest')
          | (Raise e, plans') =>
              (Raise e, (service_id, <["plans" := plans']> service) :: rest)
          end
      | None =>
          let '(r, rest') := update_services factor rest count in
          (r, (service_id, service) :: rest')
      end
  end.

(** [self._settings['pricing']['last_bulk_update'] = now], after the
    section is created when missing. *)
Definition touch_pricing (now : string) (s : pydict) : result unit * pydict :=
  let s := match s !! "pricing" with
           | Some _ => s
           | None => <["pricing" := VDict ∅]> s
           end in
  match s !! "pricing" with
  | Some (VDict d) =>
      (Ok tt, <["pricing" := VDict (<["last_bulk_update" := VStr now]> d)]> s)
  | _ => (Raise TypeError, s)
  end.

Definition bulk_update_prices (percentage : float) (increase : bool)
    (now : string) (io_services io_settings : io)
    (st : SettingsManager * Disk) : result Z * (SettingsManager * Disk) :=
  let '(m, k) := st in
  let factor := price_factor percentage increase in
  match update_services factor (_services m) 0 with
  | (Raise e, services) =>
      (Raise e, (mkSettingsManager (_settings m) services (_initialized m), k))
  | (Ok count, services) =>
      if 0 <? count then
        match touch_pricing now (_settings m) with
        | (Raise e, s) =>
            (Raise e, (mkSettingsManager s services (_initialized m), k))
        | (Ok _, s) =>
            let '(f1, l1) := _save_json io_services (services_file k) services in
            let '(f2, l2) := _save_json io_settings (settings_file k) s in
            (Ok count, (mkSettingsManager s services (_initialized m),
                        mkDisk f2 f1 (written_log k ++ l1 ++ l2)%list))
        end
      else (Ok count, (mkSettingsManager (_settings m) services (_initialized m), k))
  end.

(** *** update_settings and update_service *)

(** The body of the loop of [update_settings] for one item of [updates]: a
    dict is merged into a section that is a dict, anything else replaces what
    the key held. *)
Definition merge_setting (k : string) (v : pyval) (s : pydict) : pydict :=
  match v, s !! k with
  | VDict dv, Some (VDict ds) => <[k := VDict (update ds dv)]> s
  | _, _ => <[k := v]> s
  end.

(** [update_settings]: the loop over [updates.items()], then the save. An
    item only reads and writes its own key, so the order in which the loop
    visits the items does not matter. *)
Definition update_settings (updates : pydict) (io_settings : io)
    (st : SettingsManager * Disk) : SettingsManager * Disk :=
  let '(m, k) := st in
  let s := map_fold merge_setting (_settings m) updates in
  let '(f, l) := _save_json io_settings (settings_file k) s in
  (mkSettingsManager s (_services m) (_initialized m),
   mkDisk f (services_file k) (written_log k ++ l)%list).

(** [self._services[service_id].update(updates)]. *)
Fixpoint update_entry (service_id : string) (updates : pydict)
    (services : list (string * pydict)) : list (string * pydict) :=
  match services with
  | [] => []
  | (k, service) :: rest =>
      if String.eqb k service_id then (k, update service updates) :: rest
      else (k, service) :: update_entry service_id updates rest
  end.

(** [update_service]; the keyboard cache it clears afterwards is that of
    src/keyboards/menus.py. *)
Definition update_service (service_id : string) (updates : pydict) (io_services : io)
    (st : SettingsManager * Disk) : bool * (SettingsManager * Disk) :=
  let '(m, k) := st in
  match get_service m service_id with
  | Some _ =>
      let services := update_entry service_id updates (_services m) in
      let '(f, l) := _save_json io_services (services_file k) services in
      (true, (mkSettingsManager (_settings m) services (_initialized m),
              mkDisk (settings_file k) f (written_log k ++ l)%list))
  | None => (false, st)
  end.

End settings.

(** ** The payment switch: src/handlers/admin_system.py

    What the handlers do to the settings; their replies and the admin log,
    which come after the settings are written, are left to the messaging
    gateway. *)

Module admin_system.

(** [confirm_disable]: whoever presses the button, with the reason the
    button carries. *)
Definition disable_updates (from_user : Z) (reason now : string) : pydict :=
  list_to_map [ ("enabled", VBool false); ("disabled_at", VStr now);
                ("disabled_by", VInt from_user); ("disabled_reason", VStr reason) ].

Definition confirm_disable (from_user : Z) (reason now : string) (io_settings : io)
    (st : settings.SettingsManager * settings.Disk)
  : settings.SettingsManager * settings.Disk :=
  settings.update_settings
    {[ "payment_system" := VDict (disable_updates from_user reason now) ]}
    io_settings st.

Definition enable_updates : pydict :=
  list_to_map [ ("enabled", VBool true); ("disabled_at", VNone) ].

Definition enable_system (io_settings : io)
    (st : settings.SettingsManager * settings.Disk)
  : settings.SettingsManager * settings.Disk :=
  settings.update_settings {[ "payment_system" := VDict enable_updates ]} io_settings st.

(** [set_message]; [msg] is [message.text.strip()], which a message without
    text does not have. *)
Definition set_message (msg : option string) (io_settings : io)
  : M (settings.SettingsManager * settings.Disk) unit :=
  match msg with
  | Some msg =>
      modify (settings.update_settings
                {[ "payment_system" := VDict {[ "disabled_message" := VStr msg ]} ]}
                io_settings)
  | None => raise AttributeError
  end.

End admin_system.

(** ** The default QR code: src/handlers/admin_qr.py *)

Module admin_qr.

(** [await v] for a value of the settings: none of them can be awaited. *)
Definition await (v : pyval) : result pyval := Raise TypeError.

Definition qr_updates (from_user : Z) (file_id now : string) : pydict :=
  list_to_map [ ("use_default_qr", VBool true); ("default_qr_file_id", VStr file_id);
                ("updated_by", VInt from_user); ("updated_at", VStr now) ].

(** [receive_qr]: it starts with
    [if not await settings_manager.is_payment_enabled(): pass], and
    [is_payment_enabled] is no coroutine: it returns the setting itself. *)
Definition receive_qr (from_user : Z) (file_id now : string) (io_settings : io)
  : M (settings.SettingsManager * settings.Disk) unit :=
  let* enabled := fun st => (settings.is_payment_enabled (fst st), st) in
  let* enabled := lift (await enabled) in
  (if negb (truthy enabled) then ret tt else ret tt);;
  modify (settings.update_settings
            {[ "qr_settings" := VDict (qr_updates from_user file_id now) ]}
            io_settings).

End admin_qr.

(** ** The QR code of a payment: src/utils/helpers.py *)

Module qr.

Section Qr.

(** The picture the [qrcode] package draws of a text, and [f"{amount}"] for
    a float. *)
Context {image : Type} (qr_png : string -> image).
Context (format_amount : float -> string).

Definition upi_string (upi_id name : string) (amount : float) (order_id : string)
  : string :=
  "upi://pay?pa=" +:+ upi_id +:+ "&pn=" +:+ name +:+ "&am=" +:+ format_amount amount
  +:+ "&tn=" +:+ order_id +:+ "&cu=INR".

Definition _generate_qr_sync (upi_id name : string) (amount : float)
    (order_id : string) : image :=
  qr_png (upi_string upi_id name amount order_id).

(** [_qr_cache], a dict: its items in the order in which the keys were
    inserted. *)
Definition cache : Type := list (string * image).

(** [_qr_cache[key] = value]: the value of a key that is there is replaced
    where it is, a new key goes to the end. *)
Fixpoint assign (key : string) (value : image) (c : cache) : cache :=
  match c with
  | [] => [(key, value)]
  | (k, v) :: rest =>
      if String.eqb k key then (k, value) :: rest else (k, v) :: assign key value rest
  end.

(** [BufferedInputFile(image_bytes, filename=...)]. *)
Record BufferedInputFile : Type := mkBufferedInputFile {
  data : image;
  filename : string;
}.

Definition generate_upi_qr_async (upi_id name : string) (amount : float)
    (order_id : string) : M cache BufferedInputFile :=
  let cache_key := upi_id +:+ "_" +:+ format_amount amount in
  let* _qr_cache := gets (fun c => c) in
  let* image_bytes :=
    match settings.assoc cache_key _qr_cache with
    | Some image_bytes => ret image_bytes
    | None =>
        let image_bytes := _generate_qr_sync upi_id name amount order_id in
        (* if len(_qr_cache) > 100: _qr_cache.pop(next(iter(_qr_cache))) *)
        modify (fun c => if (100 <? length c)%nat then tail c else c);;
        modify (assign cache_key image_bytes);;
        ret image_bytes
    end in
  ret (mkBufferedInputFile image_bytes ("payment_qr_" +:+ order_id +:+ ".png")).


(** A sequence of calls, one after the other. *)
Fixpoint calls (args : list (string * string * float * string)) (c : cache) : cache :=
  match args with
  | [] => c
  | (upi_id, name, amount, order_id) :: rest =>
      calls rest (snd (generate_upi_qr_async upi_id name amount order_id c))
  end.

End Qr.

End qr.

(** ** The cache: src/services/cache.py *)

Module cache.

(** What an operation of the cache can raise: a key one of its two tables
    lacks, and [StopIteration] on its way out of a coroutine, which Python
    turns into [RuntimeError]. *)
Inductive error : Type :=
| KeyError (key : string)
| RuntimeError.

Inductive outcome (A : Type) : Type :=
| Returned (a : A)
| Raised (e : error).
Arguments Returned {A} a.
Arguments Raised {A} e.

(** [x > n] for a float and an int, which Python compares exactly. *)
Definition float_gt_int (x : float) (n : Z) : bool :=
  match Prim2SF x with
  | S754_nan => false
  | S754_infinity s => negb s
  | S754_zero _ => n <? 0
  | S754_finite s m e =>
      let v := if s then Z.neg m else Z.pos m in
      if 0 <=? e then n <? v * 2 ^ e else n * 2 ^ (- e) <? v
  end.

Section AsyncCache.

Context {V : Type}.

(** [_cache] is an [OrderedDict]: its items, the least recently used
    first. *)
Record AsyncCache : Type := mkAsyncCache {
  _cache : list (string * V);
  _timestamps : gmap string float;
  _ttl : Z;
  _max_size : Z;
  _hits : Z;
  _misses : Z;
}.

(** [AsyncCache(ttl_seconds, max_size)]. *)
Definition __init__ (ttl_seconds max_size : Z) : AsyncCache :=
  mkAsyncCache [] ∅ ttl_seconds max_size 0 0.

(** [self._cache[key]], [del self._cache[key]], [self._cache[key] = value]
    and [self._cache.move_to_end(key)]. *)
Fixpoint item (key : string) (c : list (string * V)) : option V :=
  match c with
  | [] => None
  | (k, v) :: rest => if String.eqb k key then Some v else item key rest
  end.

Fixpoint del (key : string) (c : list (string * V)) : list (string * V) :=
  match c with
  | [] => []
  | (k, v) :: rest => if String.eqb k key then rest else (k, v) :: del key rest
  end.

Fixpoint setitem (key : string) (value : V) (c : list (string * V))
  : list (string * V) :=
  match c with
  | [] => [(key, value)]
  | (k, v) :: rest =>
      if String.eqb k key then (k, value) :: rest else (k, v) :: setitem key value rest
  end.

Definition move_to_end (key : string) (c : list (string * V)) : list (string * V) :=
  match item key c with
  | Some v => (del key c ++ [(key, v)])%list
  | None => c
  end.

Definition with_cache (f : list (string * V) -> list (string * V)) (c : AsyncCache)
  : AsyncCache :=
  mkAsyncCache (f (_cache c)) (_timestamps c) (_ttl c) (_max_size c) (_hits c) (_misses c).
Definition with_timestamps (f : gmap string float -> gmap string float)
    (c : AsyncCache) : AsyncCache :=
  mkAsyncCache (_cache c) (f (_timestamps c)) (_ttl c) (_max_size c) (_hits c) (_misses c).
Definition hit (c : AsyncCache) : AsyncCache :=
  mkAsyncCache (_cache c) (_timestamps c) (_ttl c) (_max_size c) (_hits c + 1) (_misses c).
Definition miss (c : AsyncCache) : AsyncCache :=
  mkAsyncCache (_cache c) (_timestamps c) (_ttl c) (_max_size c) (_hits c) (_misses c + 1).

(** [get]; [now] is [time.time()]. *)
Definition get (key : string) (now : float) (c : AsyncCache)
  : outcome (option V) * AsyncCache :=
  match item key (_cache c) with
  | None => (Returned None, miss c)
  | Some value =>
      match _timestamps c !! key with
      | None => (Raised (KeyError key), c)
      | Some ts =>
          if float_gt_int (now - ts)%float (_ttl c) then
            (Returned None,
             miss (with_timestamps (delete key) (with_cache (del key) c)))
          else
            (Returned (Some value), hit (with_cache (move_to_end key) c))
      end
  end.

(** [set]. *)
Definition set (key : string) (value : V) (now : float) (c : AsyncCache)
  : outcome unit * AsyncCache :=
  let store c :=
    (Returned tt,
     with_cache (move_to_end key)
       (with_timestamps <[key := now]> (with_cache (setitem key value) c))) in
  if (_max_size c <=? Z.of_nat (length (_cache c)))
     && negb (bool_decide (is_Some (item key (_cache c)))) then
    match _cache c with
    | [] => (Raised RuntimeError, c)
    | (oldest_key, _) :: _ =>
        let c := with_cache (del oldest_key) c in
        match _timestamps c !! oldest_key with
        | None => (Raised (KeyError oldest_key), c)
        | Some _ => store (with_timestamps (delete oldest_key) c)
        end
    end
  else store c.

(** [invalidate]. *)
Definition invalidate (key : string) (c : AsyncCache) : outcome unit * AsyncCache :=
  match item key (_cache c) with
  | Some _ =>
      let c := with_cache (del key) c in
      match _timestamps c !! key with
      | None => (Raised (KeyError key), c)
      | Some _ => (Returned tt, with_timestamps (delete key) c)
      end
  | None => (Returned tt, c)
  end.

(** [clear]. *)
Definition clear (c : AsyncCache) : AsyncCache :=
  mkAsyncCache [] ∅ (_ttl c) (_max_size c) 0 0.

(** [warm_up]: the items of [data], each set at its own time; the first
    exception ends the loop. *)
Fixpoint warm_up (data : list (string * V * float)) (c : AsyncCache)
  : outcome unit * AsyncCache :=
  match data with
  | [] => (Returned tt, c)
  | (key, value, now) :: rest =>
      match set key value now c with
      | (Returned _, c') => warm_up rest c'
      | (Raised e, c') => (Raised e, c')
      end
  end.

(** A request to the cache. *)
Inductive request : Type :=
| do_get (key : string) (now : float)
| do_set (key : string) (value : V) (now : float)
| do_invalidate (key : string)
| do_clear.

Definition serve (r : request) (c : AsyncCache) : outcome (option V) * AsyncCache :=
  match r with
  | do_get key now => get key now c
  | do_set key value now =>
      match set key value now c with
      | (Returned _, c') => (Returned None, c')
      | (Raised e, c') => (Raised e, c')
      end
  | do_invalidate key =>
      match invalidate key c with
      | (Returned _, c') => (Returned None, c')
      | (Raised e, c') => (Raised e, c')
      end
  | do_clear => (Returned None, clear c)
  end.

(** The two tables have the same keys, each once, and the cache holds no
    more than its size, which is at least one. *)
Definition well_formed (c : AsyncCache) : Prop :=
  NoDup (_cache c).*1 /\
  (forall key, is_Some (_timestamps c !! key) <-> key ∈ (_cache c).*1) /\
  0 < _max_size c /\
  Z.of_nat (length (_cache c)) <= _max_size c.

End AsyncCache.

Arguments AsyncCache V : clear implicits.

(** The caches of the program. *)
Definition user_cache {V : Type} : AsyncCache V := __init__ 60 500.
Definition service_cache {V : Type} : AsyncCache V := __init__ 300 100.
Definition order_cache {V : Type} : AsyncCache V := __init__ 120 300.

End cache.

(** ** The handlers: src/handlers/admin.py, payment.py and user.py *)

Module handlers.

(** src/config.py. *)
Record Config : Type := mkConfig {
  ADMIN_IDS : list Z;
  REFERRAL_COMMISSION_PERCENT : float;
  PAYMENT_TIMEOUT_MINUTES : Z;
}.

(** The values of src/config.py when the environment sets none. *)
Definition default_config (admins : list Z) : Config :=
  mkConfig admins 10%float 10.

(** The texts the bot sends, by what they say. *)
Inductive text : Type :=
| Approving | Unauthorized | OrderNotFound | OrderAlreadyProcessed
| ApprovedBy | PaymentApproved | DetailsReceived | UserDetailsReceived
| RejectedBy | PaymentRejected | PaymentVerificationFailed
| CommissionEarned
| ReferredBy | Welcome
| ServiceNotFound | PreparingPayment | PaymentDetails | QrGenerated
| MinutesRemaining5 | MinutesLeft3 | FinalReminder1 | PaymentTimeExpired
| PleaseUpload | OrderExpired | UploadScreenshot | OrderIdNotFound
| ScreenshotReceived | VerificationRequest
| OrderCancelled | OrderCancelledAnswer
| ActivatingFree | FreeActivated | NewFreeSubscription.

(** The calls to the messaging gateway. *)
Inductive event : Type :=
| answer (t : text)
| edit_caption (t : text)
| edit_text (t : text)
| send_message (chat_id : pyval) (t : text)
| send_photo (chat_id : Z) (photo : string) (t : text).

Inductive fsm_state : Type :=
| waiting_for_screenshot
| waiting_for_details
| waiting_for_email.

(** The FSM context of a user: the state and the data stored with it. *)
Record FSM : Type := mkFSM {
  state : option fsm_state;
  data : gmap string string;
}.

(** One step of the body of [start_payment_timer]. *)
Inductive timer_step : Type :=
| sleep (seconds : Z)
| warn_if_pending (warning_msg : text)
| expire_if_pending.

Record World : Type := mkWorld {
  store : db.Database;
  manager : settings.SettingsManager;
  outbox : list event;
  fsm : gmap Z FSM;
  fulfillment_context : list (pyval * string);
  timers : list (string * Z);
}.

Definition with_store (d : db.Database) (w : World) : World :=
  mkWorld d (manager w) (outbox w) (fsm w) (fulfillment_context w) (timers w).
Definition with_outbox (f : list event -> list event) (w : World) : World :=
  mkWorld (store w) (manager w) (f (outbox w)) (fsm w) (fulfillment_context w) (timers w).
Definition with_fsm (f : gmap Z FSM -> gmap Z FSM) (w : World) : World :=
  mkWorld (store w) (manager w) (outbox w) (f (fsm w)) (fulfillment_context w) (timers w).
Definition with_context (f : list (pyval * string) -> list (pyval * string))
    (w : World) : World :=
  mkWorld (store w) (manager w) (outbox w) (fsm w) (f (fulfillment_context w)) (timers w).
Definition with_timers (f : list (string * Z) -> list (string * Z)) (w : World) : World :=
  mkWorld (store w) (manager w) (outbox w) (fsm w) (fulfillment_context w) (f (timers w)).

Definition on_db {A} (m : M db.Database A) : M World A := zoom store with_store m.
Definition emit (e : event) : M World unit :=
  modify (with_outbox (fun o => (o ++ [e])%list)).

(** [try: ... except: pass]: the exception is dropped, the mutations made
    before it stay. *)
Definition try_ {S A} (m : M S A) : M S unit :=
  fun s => let '(_, s') := m s in (Ok tt, s').

Definition get_fsm (user : Z) (w : World) : FSM :=
  default (mkFSM None ∅) (fsm w !! user).
Definition set_state (user : Z) (st : fsm_state) : M World unit :=
  modify (fun w => with_fsm <[user := mkFSM (Some st) (data (get_fsm user w))]> w).
Definition update_data (user : Z) (key value : string) : M World unit :=
  modify (fun w =>
    with_fsm <[user := mkFSM (state (get_fsm user w))
                             (<[key := value]> (data (get_fsm user w)))]> w).
Definition get_data (user : Z) : M World (gmap string string) :=
  gets (fun w => data (get_fsm user w)).
Definition clear (user : Z) : M World unit :=
  modify (with_fsm <[user := mkFSM None ∅]>).

(** [for admin_id in ADMIN_IDS: try: send(...) except: pass]. *)
Definition notify_admins (admins : list Z) (send : Z -> event) : M World unit :=
  modify (with_outbox (fun o => (o ++ (send <$> admins))%list)).

Section Handlers.

Context (cfg : Config).
(** [SubscriptionService.calculate_expiry_date(plan_duration).isoformat()]
    at a given time: it rests on the calendar arithmetic of [datetime]
    and raises on a duration it cannot parse. *)
Context (calculate_expiry_date : pyval -> string -> result string).

Definition is_admin (from_user : Z) : bool :=
  bool_decide (from_user ∈ ADMIN_IDS cfg).

(** *** admin.py *)

Definition admin_approve (from_user : Z) (order_id : string) : M World unit :=
  emit (answer Approving);;
  if negb (is_admin from_user) then emit (edit_caption Unauthorized)
  else
    let* order := on_db (db.get_order order_id) in
    match order with
    | None => emit (edit_caption OrderNotFound)
    | Some order =>
        let* status := on_db (db.order_item order "status") in
        if negb (eq_str status "verification") then
          emit (edit_caption OrderAlreadyProcessed)
        else
          on_db (db.update_order order_id {[ "status" := VStr "approved" ]});;
          emit (edit_caption ApprovedBy);;
          let* user_id := on_db (db.order_item order "user_id") in
          (if hashable user_id
           then modify (with_context (fun c => (user_id, order_id) :: c))
           else raise TypeError);;
          let* _ := on_db (db.order_item order "service_name") in
          let* _ := on_db (db.order_item order "plan_duration") in
          let* amount := on_db (db.order_item order "amount") in
          lift (helpers.format_currency amount);;
          emit (send_message user_id PaymentApproved);;
          set_state from_user waiting_for_details;;
          update_data from_user "order_id" order_id;;
          (* asyncio.create_task(process_referral_commission(order)):
             admin.py does not import asyncio, so the name lookup fails
             before the coroutine is even created. *)
          raise (NameError "asyncio")
    end.

(** [message_text] is [message.text], absent when the message is a photo;
    [email_matches] is what [re.findall] finds in it. *)
Definition receive_user_details (from_user : Z) (message_text : option string)
    (email_matches : list string) (now : string) : M World unit :=
  let* data := get_data from_user in
  match data !! "order_id" with
  | None | Some "" => clear from_user
  | Some order_id =>
      let* message_text :=
        match message_text with
        | Some t => ret t
        | None => raise TypeError
        end in
      let user_email := match email_matches with
                        | e :: _ => VStr e
                        | [] => VNone
                        end in
      (match email_matches with
       | _ :: _ => on_db (db.update_user from_user {[ "email" := user_email ]});; ret tt
       | [] => ret tt
       end);;
      let* order := on_db (db.get_order order_id) in
      match order with
      | None => raise TypeError
      | Some order =>
          let* service_name := on_db (db.order_item order "service_name") in
          let* plan_duration := on_db (db.order_item order "plan_duration") in
          (* subscription_service.activate_subscription *)
          let* expiry := lift (calculate_expiry_date plan_duration now) in
          on_db (db.update_user from_user
                   (list_to_map [ ("subscription_plan", plan_duration);
                                  ("subscription_service", service_name);
                                  ("subscription_expiry", VStr expiry);
                                  ("subscription_status", VStr "active") ]));;
          on_db (db.get_user from_user now);;
          on_db (db.update_order order_id
                   (list_to_map [ ("user_details", VStr message_text);
                                  ("user_email", user_email);
                                  ("status", VStr "fulfillment");
                                  ("activated_at", VStr now) ]));;
          let* amount := on_db (db.order_item order "amount") in
          on_db (db.add_purchase_to_user from_user order_id amount now);;
          let* updated_order := on_db (db.get_order order_id) in
          let* user := on_db (db.get_user from_user now) in
          (* the two fields written straight into the stored order *)
          (match updated_order with
           | Some i =>
               on_db (modify (db.with_orders (alter (fun o =>
                 <["subscription_expiry" := get_default user "subscription_expiry" (VStr "")]>
                   (<["user_email" := if truthy user_email then user_email else VStr ""]> o))
                 i)))
           | None => raise TypeError
           end);;
          emit (answer DetailsReceived);;
          notify_admins (ADMIN_IDS cfg)
                        (fun a => send_message (VInt a) UserDetailsReceived);;
          clear from_user
      end
  end.

Definition admin_reject (from_user : Z) (order_id : string) : M World unit :=
  if negb (is_admin from_user) then emit (answer Unauthorized)
  else
    let* order := on_db (db.get_order order_id) in
    match order with
    | None => emit (answer OrderNotFound)
    | Some order =>
        on_db (db.update_order order_id {[ "status" := VStr "rejected" ]});;
        emit (edit_caption RejectedBy);;
        emit (answer PaymentRejected);;
        let* user_id := on_db (db.order_item order "user_id") in
        emit (send_message user_id PaymentVerificationFailed)
    end.

Definition process_referral_commission (order : nat) (now : string) : M World unit :=
  let* user_id := on_db (db.order_item order "user_id") in
  let* amount := on_db (db.order_item order "amount") in
  let* user_key := lift (int_key user_id) in
  let* user := on_db (db.get_user user_key now) in
  let referrer_id := get user "referred_by" in
  if truthy referrer_id then
    let* commission :=
      lift (helpers.calculate_commission amount (REFERRAL_COMMISSION_PERCENT cfg)) in
    let* referrer_key := lift (int_key referrer_id) in
    on_db (db.add_coins referrer_key commission);;
    on_db (db.increment_referral_count referrer_key);;
    let* order_id := on_db (db.order_item order "order_id") in
    let* order_id := lift (str_key order_id) in
    on_db (db.update_order order_id
             (list_to_map [ ("referrer_id", referrer_id);
                            ("commission_paid", VFloat commission) ]));;
    try_ (let* _ := on_db (db.order_item order "service_name") in
          lift (helpers.format_currency amount);;
          let* referrer := on_db (db.get_user referrer_key now) in
          let* coins := lift (getitem referrer "coins") in
          lift (helpers.format_currency coins);;
          emit (send_message referrer_id CommissionEarned))
  else ret tt.

(** *** payment.py *)

(** [next((p for p in service['plans'] if p['duration'] == plan_duration), None)]. *)
Fixpoint find_plan (plans : list pyval) (plan_duration : string)
  : result (option pydict) :=
  match plans with
  | [] => Ok None
  | VDict p :: rest =>
      rbind (getitem p "duration") (fun d =>
        if eq_str d plan_duration then Ok (Some p)
        else find_plan rest plan_duration)
  | _ :: _ => Raise TypeError
  end.

(** Which QR code the order will show; it is decided before the order is
    created and can only fail on a malformed catalog entry. *)
Definition select_qr (service : pydict) (plan_duration : string) : M World unit :=
  let* qr_settings := gets (fun w => settings.get_qr_settings (manager w)) in
  match qr_settings with
  | VDict _ =>
      let* plans := lift (getitem service "plans") in
      let* plans := lift (iter_values plans) in
      let* _ := lift (find_plan plans plan_duration) in
      ret tt
  | _ => raise AttributeError
  end.

(** The steps of the timer of an order, in the order it performs them. *)
Definition warnings : list (Z * text) :=
  [ (300, MinutesRemaining5); (180, MinutesLeft3); (60, FinalReminder1) ].

Definition start_payment_timer : list timer_step :=
  let timeout_seconds := PAYMENT_TIMEOUT_MINUTES cfg * 60 in
  (flat_map (fun '(warning_time, warning_msg) =>
               let wait_time := timeout_seconds - warning_time in
               if 0 <? wait_time
               then [ sleep wait_time; warn_if_pending warning_msg ]
               else [])
            warnings
   ++ [ sleep 60; expire_if_pending ])%list.

(** What the timer of [order_id] does when it resumes after a sleep. *)
Definition timer_step_run (order_id : string) (chat_id : Z) (c : timer_step)
  : M World unit :=
  match c with
  | sleep _ => ret tt
  | warn_if_pending warning_msg =>
      let* order := on_db (db.get_order order_id) in
      match order with
      | Some order =>
          let* status := on_db (db.order_item order "status") in
          if eq_str status "pending"
          then emit (send_message (VInt chat_id) warning_msg)
          else ret tt
      | None => ret tt
      end
  | expire_if_pending =>
      let* order := on_db (db.get_order order_id) in
      match order with
      | Some order =>
          let* status := on_db (db.order_item order "status") in
          if eq_str status "pending" then
            on_db (db.update_order order_id {[ "status" := VStr "expired" ]});;
            emit (send_message (VInt chat_id) PaymentTimeExpired)
          else ret tt
      | None => ret tt
      end
  end.

(** The order a purchase creates. *)
Definition payment_order_data (from_user : Z) (username : pyval)
    (service_id : string) (service_name : pyval) (plan_duration : string)
    (price : float) : pydict :=
  list_to_map [ ("user_id", VInt from_user); ("username", username);
                ("service_id", VStr service_id); ("service_name", service_name);
                ("plan_duration", VStr plan_duration); ("amount", VFloat price);
                ("payment_screenshot", VNone); ("user_details", VNone) ].

Definition _create_payment_order (from_user : Z) (username : pyval)
    (service_id : string) (service : pydict) (plan_duration : string)
    (price : float) (now : string) : M World unit :=
  let* service_name := lift (getitem service "name") in
  emit (edit_text PreparingPayment);;
  let order_data :=
    payment_order_data from_user username service_id service_name plan_duration price in
  select_qr service plan_duration;;
  let* order_id := on_db (db.create_order order_data now) in
  emit (send_photo from_user order_id PaymentDetails);;
  modify (with_timers (fun t => (t ++ [(order_id, from_user)])%list)).

Definition initiate_direct_payment (from_user : Z) (username : pyval)
    (service_id plan_duration : string) (price : float) (now : string)
  : M World unit :=
  let* service := gets (fun w => settings.get_service (manager w) service_id) in
  match service with
  | Some service =>
      if truthy (VDict service) then
        _create_payment_order from_user username service_id service
                              plan_duration price now;;
        emit (answer QrGenerated)
      else emit (answer ServiceNotFound)
  | None => emit (answer ServiceNotFound)
  end.

Definition request_screenshot (from_user : Z) (order_id : string) : M World unit :=
  emit (answer PleaseUpload);;
  let* order := on_db (db.get_order order_id) in
  match order with
  | None => emit (answer OrderNotFound)
  | Some order =>
      let* status := on_db (db.order_item order "status") in
      if eq_str status "expired" then emit (answer OrderExpired)
      else
        let* status := on_db (db.order_item order "status") in
        if negb (eq_str status "pending") then emit (answer OrderAlreadyProcessed)
        else
          set_state from_user waiting_for_screenshot;;
          update_data from_user "order_id" order_id;;
          emit (answer UploadScreenshot)
  end.

Definition handle_screenshot (from_user : Z) (file_id : string) : M World unit :=
  let* data := get_data from_user in
  match data !! "order_id" with
  | None | Some "" => emit (answer OrderIdNotFound);; clear from_user
  | Some order_id =>
      on_db (db.update_order order_id
               (list_to_map [ ("status", VStr "verification");
                              ("payment_screenshot", VStr file_id) ]));;
      emit (answer ScreenshotReceived);;
      let* order := on_db (db.get_order order_id) in
      match order with
      | None => raise TypeError
      | Some order =>
          let* _ := on_db (db.order_item order "service_name") in
          let* _ := on_db (db.order_item order "plan_duration") in
          let* amount := on_db (db.order_item order "amount") in
          lift (helpers.format_currency amount);;
          notify_admins (ADMIN_IDS cfg)
                        (fun a => send_photo a file_id VerificationRequest);;
          clear from_user
      end
  end.

Definition cancel_order (order_id : string) : M World unit :=
  on_db (db.update_order order_id {[ "status" := VStr "cancelled" ]});;
  emit (edit_caption OrderCancelled);;
  emit (answer OrderCancelledAnswer).

Definition confirm_free_subscription (from_user : Z)
    (service_id plan_duration : string) : M World unit :=
  emit (edit_text ActivatingFree);;
  set_state from_user waiting_for_email;;
  update_data from_user "service_id" service_id;;
  update_data from_user "plan_duration" plan_duration;;
  emit (answer ActivatingFree).

(** The order a free subscription creates. *)
Definition free_order_data (from_user : Z) (username : pyval)
    (service_id plan_duration email : string) : pydict :=
  list_to_map [ ("user_id", VInt from_user); ("username", username);
                ("service_id", VStr service_id);
                ("service_name", VStr "YouTube Premium");
                ("plan_duration", VStr plan_duration); ("amount", VInt 0);
                ("status", VStr "approved"); ("user_details", VStr email) ].

(** [email] is [message.text.strip()]. *)
Definition receive_free_email (from_user : Z) (username : pyval)
    (email : option string) (now : string) : M World unit :=
  let* email :=
    match email with
    | Some e => ret e
    | None => raise AttributeError
    end in
  let* data := get_data from_user in
  match data !! "service_id" with
  | None => raise (KeyError "service_id")
  | Some service_id =>
      match data !! "plan_duration" with
      | None => raise (KeyError "plan_duration")
      | Some plan_duration =>
          let order_data :=
            free_order_data from_user username service_id plan_duration email in
          let* order_id := on_db (db.create_order order_data now) in
          emit (answer FreeActivated);;
          notify_admins (ADMIN_IDS cfg)
                        (fun a => send_message (VInt a) NewFreeSubscription);;
          clear from_user
      end
  end.

(** *** user.py *)

(** [/start] with the referrer parsed from a [ref_] argument, if any. *)
Definition cmd_start (from_user : Z) (referrer : option Z) (now : string)
  : M World unit :=
  (match referrer with
   | Some referrer_id =>
       if negb (bool_decide (referrer_id = from_user)) then
         let* success := on_db (db.set_referrer from_user referrer_id) in
         if success then emit (answer ReferredBy) else ret tt
       else ret tt
   | None => ret tt
   end);;
  on_db (db.get_user from_user now);;
  emit (answer Welcome).

(** *** The updates the bot reacts to *)

Inductive input : Type :=
| start (from_user : Z) (referrer : option Z)
| buy_direct (from_user : Z) (username : pyval)
             (service_id plan_duration : string) (price : float)
| upload_proof (from_user : Z) (order_id : string)
| photo (from_user : Z) (username : pyval) (file_id : string)
| message (from_user : Z) (username : pyval) (message_text : string)
          (email_matches : list string)
| cancel (from_user : Z) (order_id : string)
| approve (from_user : Z) (order_id : string)
| reject (from_user : Z) (order_id : string)
| confirm_free (from_user : Z) (service_id plan_duration : string)
| timer_wakes (order_id : string) (chat_id : Z) (c : timer_step)
| commission_runs (order : nat).

(** The handler an update reaches. The routers are tried in the order
    main.py includes them, admin before payment, so a message in state
    [waiting_for_details] goes to [receive_user_details]. Each handler
    runs to its end as one step; the timer of an order and the commission
    task are steps of their own. *)
Definition step (i : input) (now : string) : M World unit :=
  match i with
  | start from_user referrer => cmd_start from_user referrer now
  | buy_direct from_user username service_id plan_duration price =>
      initiate_direct_payment from_user username service_id plan_duration price now
  | upload_proof from_user order_id => request_screenshot from_user order_id
  | photo from_user username file_id =>
      let* st := gets (fun w => state (get_fsm from_user w)) in
      match st with
      | Some waiting_for_details => receive_user_details from_user None [] now
      | Some waiting_for_screenshot => handle_screenshot from_user file_id
      | Some waiting_for_email => receive_free_email from_user username None now
      | None => ret tt
      end
  | message from_user username message_text email_matches =>
      let* st := gets (fun w => state (get_fsm from_user w)) in
      match st with
      | Some waiting_for_details =>
          receive_user_details from_user (Some message_text) email_matches now
      | Some waiting_for_email =>
          receive_free_email from_user username (Some message_text) now
      | _ => ret tt
      end
  | cancel _ order_id => cancel_order order_id
  | approve from_user order_id => admin_approve from_user order_id
  | reject from_user order_id => admin_reject from_user order_id
  | confirm_free from_user service_id plan_duration =>
      confirm_free_subscription from_user service_id plan_duration
  | timer_wakes order_id chat_id c => timer_step_run order_id chat_id c
  | commission_runs order => process_referral_commission order now
  end.

(** A run: the updates are handled one after the other; a handler that
    raises is abandoned and what it had written stays. *)
Fixpoint run (inputs : list (input * string)) (w : World) : World :=
  match inputs with
  | [] => w
  | (i, now) :: rest => run rest (snd (step i now w))
  end.

End Handlers.

(** The times, in seconds after the timer starts, at which it resumes and
    performs each of its checks, every sleep lasting what it asks for. *)
Fixpoint wakeups (steps : list timer_step) (elapsed : Z) : list (Z * timer_step) :=
  match steps with
  | [] => []
  | sleep seconds :: rest => wakeups rest (elapsed + seconds)
  | c :: rest => (elapsed, c) :: wakeups rest elapsed
  end.

End handlers.

(** ** The rate limit: src/middlewares/antispam.py *)

Module antispam.

(** A [datetime] is the number of microseconds since [datetime.min], up to
    the last microsecond of the year 9999. *)
Definition datetime_max : Z := 3652059 * 86400 * 1000000 - 1.

(** [now - timedelta(seconds=seconds)]: out of the range of [datetime] it
    raises [OverflowError], as does the [timedelta] of too many days. *)
Definition minus_seconds (now seconds : Z) : result Z :=
  let t := now - seconds * 1000000 in
  if (0 <=? t) && (t <=? datetime_max) then Ok t else Raise OverflowError.

(** How [__call__] ends: with the call of the handler, or with the answer
    that tells the user to slow down. *)
Inductive action : Type :=
| call_handler
| answer_slow_down.

(** [message_history] is a [defaultdict(list)]. *)
Record AntiSpamMiddleware : Type := mkAntiSpamMiddleware {
  rate_limit : Z;
  time_window : Z;
  message_history : gmap Z (list Z);
}.

Definition __init__ (rate_limit time_window : Z) : AntiSpamMiddleware :=
  mkAntiSpamMiddleware rate_limit time_window ∅.

Definition with_history (f : gmap Z (list Z) -> gmap Z (list Z))
    (self : AntiSpamMiddleware) : AntiSpamMiddleware :=
  mkAntiSpamMiddleware (rate_limit self) (time_window self) (f (message_history self)).

(** [self.message_history[user_id]]. *)
Definition history (user_id : Z) (self : AntiSpamMiddleware) : list Z :=
  default [] (message_history self !! user_id).

(** [__call__] for a message of [user_id]; [now] is [datetime.now()]. *)
Definition __call__ (cfg : handlers.Config) (user_id now : Z)
  : M AntiSpamMiddleware action :=
  fun self =>
  if bool_decide (user_id ∈ handlers.ADMIN_IDS cfg) then (Ok call_handler, self)
  else
    match minus_seconds now (time_window self) with
    | Raise e => (Raise e, self)
    | Ok cutoff_time =>
        let recent := filter (fun ts => cutoff_time < ts) (history user_id self) in
        if rate_limit self <=? Z.of_nat (length recent) then
          (Ok answer_slow_down, with_history <[user_id := recent]> self)
        else
          (Ok call_handler, with_history <[user_id := (recent ++ [now])%list]> self)
    end.

(** The messages of the users, one after the other; a message whose call
    raises is lost, the next one is served. *)
Fixpoint calls (cfg : handlers.Config) (messages : list (Z * Z))
    (self : AntiSpamMiddleware) : list (result action) * AntiSpamMiddleware :=
  match messages with
  | [] => ([], self)
  | (user_id, now) :: rest =>
      let '(r, self) := __call__ cfg user_id now self in
      let '(rs, self) := calls cfg rest self in
      (r :: rs, self)
  end.

End antispam.

(** ** Observations and scenarios used by the properties *)

Import db handlers.

(** Field [field] of the user [user_id], of the order at position [i]. *)
Definition user_field (d : Database) (user_id : Z) (field : string) : option pyval :=
  _users d !! user_id ≫= (.!! field).
Definition order_field (d : Database) (i : nat) (field : string) : option pyval :=
  _orders d !! i ≫= (.!! field).

Definition referrer_of (d : Database) (user_id : Z) : option pyval :=
  user_field d user_id "referred_by".

Definition empty_store : Database := mkDatabase ∅ [] false false.

(** A user known to the store, with no referrer yet: what [get_user]
    creates on the first access. *)
Definition fresh_store (user_id : Z) : Database :=
  snd (get_user user_id "2026-11-03T10:00:00" empty_store).

(** The disk after a first flush of the empty tables. *)
Definition flushed_disk : Disk := mkDisk (Stored ∅) (Stored []) [].

(** One mutation of each table, not yet flushed: user 555 is created and
    places a first order. *)
Definition dirty_store : Database :=
  snd (create_order {[ "user_id" := VInt 555 ]} "2026-11-03T10:00:01"
                    (fresh_store 555)).

(** The settings manager after [initialize] found settings.json present but
    unreadable (and no services.json). *)
Definition manager_after_read_error : settings.SettingsManager :=
  fst (settings.initialize IoOk
         (settings.mkSettingsManager ∅ [] false, settings.mkDisk Unreadable Absent [])).

(** *** Scenario A of the specification

    One admin (id 1), the default configuration, a catalog with one service.
    User 999 refers user 555, who buys the one-month plan for 149.0, uploads
    the payment screenshot, and the admin approves the order. *)

Definition scenario_config : Config := default_config [1].

(** The expiry of the one plan of the scenario, bought on 2026-11-03:
    thirty days later. *)
Definition scenario_expiry (plan_duration : pyval) (now : string) : result string :=
  match plan_duration with
  | VStr "1 Month" => Ok "2026-12-03T10:06:00"
  | _ => Raise ValueError
  end.

Definition youtube : pydict :=
  list_to_map
    [ ("name", VStr "YouTube Premium"); ("emoji", VStr "YT");
      ("available", VBool true);
      ("plans", VList [ VDict (list_to_map [ ("duration", VStr "1 Month");
                                             ("price", VInt 149) ]) ]) ].

Definition scenario_manager : settings.SettingsManager :=
  settings.mkSettingsManager settings._get_default_settings [("youtube", youtube)] true.

Definition world0 : World := mkWorld empty_store scenario_manager [] ∅ [] [].

Definition scenario_step (i : input) (now : string) : M World unit :=
  step scenario_config scenario_expiry i now.
Definition scenario_run (inputs : list (input * string)) (w : World) : World :=
  run scenario_config scenario_expiry inputs w.

(** Users 999 and 555 start the bot, 555 follows the referral link of 999 and
    places the order FBP000001, which is pending. *)
Definition order_placed : World :=
  scenario_run
    [ (start 999 None, "2026-11-03T10:00:00");
      (start 555 None, "2026-11-03T10:01:00");
      (start 555 (Some 999), "2026-11-03T10:02:00");
      (buy_direct 555 (VStr "buyer") "youtube" "1 Month" 149%float, "2026-11-03T10:03:00") ]
    world0.

(** The screenshot is uploaded: the order awaits verification. *)
Definition screenshot_uploaded : World :=
  scenario_run
    [ (upload_proof 555 "FBP000001", "2026-11-03T10:04:00");
      (photo 555 (VStr "buyer") "file-1", "2026-11-03T10:04:30") ]
    order_placed.

(** The admin presses Approve; the handler's outcome and the world it
    leaves. *)
Definition approval : result unit * World :=
  scenario_step (approve 1 "FBP000001") "2026-11-03T10:05:00" screenshot_uploaded.
Definition order_approved : World := snd approval.

(** The commission task, had it been started, and a second run of it. *)
Definition commission_paid_once : World :=
  snd (scenario_step (commission_runs 0) "2026-11-03T10:05:01" order_approved).
Definition commission_paid_twice : World :=
  snd (scenario_step (commission_runs 0) "2026-11-03T10:05:02" commission_paid_once).

(** After the approval the admin presses Reject on the same order. *)
Definition rejected_after_approval : World :=
  snd (scenario_step (reject 1 "FBP000001") "2026-11-03T10:06:00" order_approved).


(** A free subscription: the confirmation, then the e-mail address. *)
Definition free_order_created : World :=
  scenario_run
    [ (confirm_free 777 "youtube" "1 Month", "2026-11-03T11:00:00");
      (message 777 (VStr "guest") "guest@gmail.com" ["guest@gmail.com"],
       "2026-11-03T11:01:00") ]
    world0.

(** The events a step added to the outbox. *)
Definition sent_since (before after : World) : list event :=
  drop (length (outbox before)) (outbox after).

(** ** Weakest preconditions

    [wp m Q E s]: run from [s], [m] either returns a value [a] in a state
    that satisfies [Q a], or raises in a state that satisfies [E]. *)

Definition wp {S A} (m : M S A) (Q : A -> S -> Prop) (E : S -> Prop) (s : S) : Prop :=
  match m s with
  | (Ok a, s') => Q a s'
  | (Raise _, s') => E s'
  end.


(** [preserves P m]: from a state that satisfies [P], [m] ends, normally or
    by an exception, in a state that satisfies [P]. *)
Definition preserves {S A} (P : S -> Prop) (m : M S A) : Prop :=
  forall s, P s -> wp m (fun _ => P) P s.

(** An assertion on the store, as an assertion on the world. *)
Definition on_store (P : Database -> Prop) (w : World) : Prop := P (store w).

(** The order at position [i] has status [status]. *)
Definition has_status (i : nat) (status : string) : World -> Prop :=
  on_store (fun d => order_field d i "status" = Some (VStr status)).

(** [m] never changes the list of orders. *)
Definition orders_untouched {A} (m : M Database A) : Prop :=
  forall d, _orders (snd (m d)) = _orders d.




(** The part of the store the commission is about: the order at position
    [order] is an order of [amount] placed by [user_id], whose referrer is
    [referrer_id], and the referrer has [coins], [earned] and [referrals]. *)
Definition ledger_db (user_id referrer_id : Z) (order : nat) (amount : pyval)
    (coins earned : float) (referrals : Z) (d : Database) : Prop :=
  order_field d order "user_id" = Some (VInt user_id) /\
  order_field d order "amount" = Some amount /\
  user_field d user_id "referred_by" = Some (VInt referrer_id) /\
  user_field d referrer_id "coins" = Some (VFloat coins) /\
  user_field d referrer_id "total_earned" = Some (VFloat earned) /\
  user_field d referrer_id "total_referrals" = Some (VInt referrals).

Definition ledger (user_id referrer_id : Z) (order : nat) (amount : pyval)
    (coins earned : float) (referrals : Z) : World -> Prop :=
  on_store (ledger_db user_id referrer_id order amount coins earned referrals).

(** ** The bulk price update in the words of the specification

    "For every service with plans, recompute each plan's price as
    round_down(old_price * factor) where factor = 1 +/- percent/100; clamp
    result to minimum 1; returns number of services touched." *)

Module spec.

(** [factor = 1 + percent/100] when increasing, [1 - percent/100] when
    decreasing, in floats as the prices are multiplied in floats. *)
Definition factor (percent : float) (is_increase : bool) : float :=
  if is_increase then (1 + percent / 100)%float else (1 - percent / 100)%float.









End spec.

(** A catalog of two services with plans and one without. *)
Definition catalog : list (string * pydict) :=
  [ ("youtube", youtube);
    ("music", list_to_map
       [ ("name", VStr "Music");
         ("plans", VList [ VDict (list_to_map [ ("duration", VStr "1 Month");
                                                ("price", VInt 100) ]);
                           VDict (list_to_map [ ("duration", VStr "3 Months");
                                                ("price", VInt 3) ]) ]) ]);
    ("soon", list_to_map [ ("name", VStr "Coming soon") ]) ].

Definition catalog_manager : settings.SettingsManager :=
  settings.mkSettingsManager settings._get_default_settings catalog true.

Definition catalog_disk : settings.Disk :=
  settings.mkDisk (Stored settings._get_default_settings) (Stored catalog) [].

(** The price of plan [j] of service [service_id]. *)
Definition plan_price (m : settings.SettingsManager) (service_id : string) (j : nat)
  : option pyval :=
  service ← settings.get_service m service_id;
  plans ← service !! "plans";
  match plans with
  | VList l => plan ← l !! j; match plan with VDict p => p !! "price" | _ => None end
  | _ => None
  end.

(** ** The calls of the store and what they keep *)

(** A call of one of the operations of [Database]. *)
Inductive call : Type :=
| call_get_user (user_id : Z)
| call_update_user (user_id : Z) (updates : pydict)
| call_set_referrer (user_id referrer_id : Z)
| call_add_coins (user_id : Z) (amount : float)
| call_increment_referral_count (user_id : Z)
| call_create_order (order_data : pydict)
| call_get_order (order_id : string)
| call_update_order (order_id : string) (updates : pydict)
| call_add_purchase_to_user (user_id : Z) (order_id : string) (amount : pyval).

Definition exec (c : call) (now : string) : M Database unit :=
  match c with
  | call_get_user user_id => get_user user_id now;; ret tt
  | call_update_user user_id updates => update_user user_id updates;; ret tt
  | call_set_referrer user_id referrer_id => set_referrer user_id referrer_id;; ret tt
  | call_add_coins user_id amount => add_coins user_id amount;; ret tt
  | call_increment_referral_count user_id => increment_referral_count user_id;; ret tt
  | call_create_order order_data => create_order order_data now;; ret tt
  | call_get_order order_id => get_order order_id;; ret tt
  | call_update_order order_id updates => update_order order_id updates;; ret tt
  | call_add_purchase_to_user user_id order_id amount =>
      add_purchase_to_user user_id order_id amount now;; ret tt
  end.

(** Every table that is not flagged dirty is the one the disk holds. *)
Definition saved (k : Disk) (d : Database) : Prop :=
  (_users_dirty d = false -> users_file k = Stored (_users d)) /\
  (_orders_dirty d = false -> orders_file k = Stored (_orders d)).

(** The id [create_order] gives to the order it puts at position [i]. *)
Definition order_id_at (i : nat) : string := "FBP" +:+ zfill6 (i + 1).

(** The orders carry the ids [create_order] gave them, in sequence. *)
Definition ids_sequential (orders : list pydict) : Prop :=
  forall i order, orders !! i = Some order ->
    order !! "order_id" = Some (VStr (order_id_at i)).

(** The number an order id stands for: its digits after ["FBP"]. *)
Definition order_number (order_id : string) : option nat :=
  match order_id with
  | String "F"%char (String "B"%char (String "P"%char digits)) =>
      Nat.of_uint <$> NilEmpty.uint_of_string digits
  | _ => None
  end.

(** The fields of a stored order that some handler writes after the order
    was created: the status, the screenshot ([handle_screenshot]), the details
    and the activation ([receive_user_details]) and the commission
    ([process_referral_commission]). *)
Definition written_fields : list string :=
  [ "status"; "payment_screenshot"; "user_details"; "user_email";
    "activated_at"; "subscription_expiry"; "referrer_id"; "commission_paid" ].

(** The time, in seconds after the timer of an order starts, at which it
    makes its last check and expires the order. *)
Definition expiry_time (cfg : Config) : option Z :=
  fst <$> last (wakeups (start_payment_timer cfg) 0).

(** What a call may do to the tables and their flags: a table it changes is
    flagged dirty, and a flag it finds set stays set. *)
Definition flags_follow (d d' : Database) : Prop :=
  (_users_dirty d' = true \/
   (_users d' = _users d /\ _users_dirty d' = _users_dirty d)) /\
  (_orders_dirty d' = true \/
   (_orders d' = _orders d /\ _orders_dirty d' = _orders_dirty d)).

(** A users table as an earlier version of the bot may have left it on disk:
    the record of user 999 has a balance but no lifetime earnings. *)
Definition legacy_user : pydict :=
  list_to_map [ ("user_id", VInt 999); ("coins", VFloat 5%float) ].
Definition legacy_store : Database := mkDatabase {[ 999 := legacy_user ]} [] false false.

(** Field [key] of the order at position [j] is [v]. *)
Definition field_is (j : nat) (key : string) (v : pyval) (d : Database) : Prop :=
  order_field d j key = Some v.


(** User [u] is not recorded as their own referrer. *)
Definition not_own_referrer (u : Z) (d : Database) : Prop :=
  referrer_of d u <> Some (VInt u).

(** The orders of a store carry their ids in sequence. *)
Definition store_ids_sequential (d : Database) : Prop := ids_sequential (_orders d).

(** The world under another settings manager. *)
Definition with_manager (m : settings.SettingsManager) (w : World) : World :=
  mkWorld (store w) m (outbox w) (fsm w) (fulfillment_context w) (timers w).

(** [sim m0 m' m]: in a world whose manager is [m0], the handler [m] does
    under the manager [m'] what it does under [m0], and it leaves the manager
    alone. *)
Definition sim (m0 m' : settings.SettingsManager) {A} (m : M World A) : Prop :=
  forall w, manager w = m0 ->
    m (with_manager m' w) = (fst (m w), with_manager m' (snd (m w))) /\
    manager (snd (m w)) = m0.

(** What an item of the updates of [update_settings] makes of the value a
    key holds. *)
Definition merged (v : pyval) (old : option pyval) : pyval :=
  match v, old with
  | VDict dv, Some (VDict ds) => VDict (update ds dv)
  | _, _ => v
  end.

(** A cache of two items that is full, and the services a start of the bot
    puts into the service cache. *)
Definition full_cache : cache.AsyncCache pyval :=
  snd (cache.set "user_2" (VInt 2) 1%float
         (snd (cache.set "user_1" (VInt 1) 0%float (cache.__init__ 60 2)))).

Definition two_services : list (string * pyval * float) :=
  [("service_1", VStr "YouTube Premium", 0%float);
   ("service_2", VStr "Zee5 Premium", 0%float)].

(** The times of the messages of a user that reached the handler, and the
    messages with what became of them. *)
Definition handled (user_id : Z) (log : list (Z * Z * result antispam.action))
  : list Z :=
  omap (fun '(u, now, r) =>
          match r with
          | Ok antispam.call_handler => if bool_decide (u = user_id) then Some now else None
          | _ => None
          end) log.

Definition served (cfg : handlers.Config) (rate_limit time_window : Z)
    (messages : list (Z * Z)) : list (Z * Z * result antispam.action) :=
  zip messages
      (fst (antispam.calls cfg messages (antispam.__init__ rate_limit time_window))).

(** The clock does not go back, and no message is older than the time
    window allows to subtract. *)
Definition clock_ok (time_window : Z) (messages : list (Z * Z)) : Prop :=
  StronglySorted Z.le messages.*2 /\
  Forall (fun now => 0 <= now - time_window * 1000000 <= antispam.datetime_max)
         messages.*2.

(** Three messages of user 7, a second apart. *)
Definition three_messages : list (Z * Z) :=
  [(7, 63900000000000000); (7, 63900000001000000); (7, 63900000002000000)].

(** What the middleware has of a user is what the log has of them, past
    every cutoff at or after the cutoffs of the messages served. *)
Definition in_step (cfg : handlers.Config) (time_window : Z) (messages : list (Z * Z))
    (log : list (Z * Z * result antispam.action))
    (self : antispam.AntiSpamMiddleware) : Prop :=
  forall user_id c,
    user_id ∉ handlers.ADMIN_IDS cfg ->
    Forall (fun now => now - time_window * 1000000 <= c) messages.*2 ->
    filter (fun ts => c < ts) (handled user_id log)
    = filter (fun ts => c < ts) (antispam.history user_id self).

(** * Properties *)

(** ** The monad *)

Ltac unfold_monad :=
  unfold bind, ret, raise, lift, gets, modify, zoom, on_db, emit, try_ in *.

(** Symbolic execution of a handler: unfold the monad and the store
    operations as far as the known facts allow. *)
Ltac run :=
  repeat (progress (unfold get_order, update_order, order_item, getitem;
                    unfold_monad; cbn)).

(** ** C9: the referrer of a user *)

Section Referrer.

(** For a referrer id other than 0 the first write wins. *)
Lemma set_referrer_first_write_wins (d : Database) (user_id r1 r2 : Z) (d1 : Database) :
  r1 ≠ 0 ->
  set_referrer user_id r1 d = (Ok true, d1) ->
  set_referrer user_id r2 d1 = (Ok false, d1) /\
  referrer_of d1 user_id = Some (VInt r1).
Proof.
  intros Hr1. unfold set_referrer, referrer_of, user_field. unfold_monad.
  destruct (_users d !! user_id) as [u|] eqn:Hu; [|discriminate].
  destruct (getitem u "referred_by") as [v|e] eqn:Hv; [|discriminate].
  destruct (negb (truthy v)) eqn:Ht; [|discriminate].
  intros [= <-]. cbn. rewrite lookup_insert_eq. cbn.
  unfold getitem. rewrite lookup_insert_eq. cbn.
  destruct (r1 =? 0) eqn:E; [apply Z.eqb_eq in E; contradiction|]. cbn.
  split; reflexivity.
Qed.

(** C9, at the input on which the code fails: user 555 is known and has no
    referrer; [set_referrer(555, 0)] succeeds, and then
    [set_referrer(555, 5)] succeeds too and replaces the referrer 0 by 5,
    because the guard [not referred_by] takes the referrer 0 for no
    referrer. The claim wants the second call to return false and the
    referrer to stay 0. *)
Theorem set_referrer_zero_is_overwritten :
  let d0 := fresh_store 555 in
  let '(r1, d1) := set_referrer 555 0 d0 in
  let '(r2, d2) := set_referrer 555 5 d1 in
  referrer_of d0 555 = Some VNone /\
  r1 = Ok true /\ referrer_of d1 555 = Some (VInt 0) /\
  r2 = Ok true /\ referrer_of d2 555 = Some (VInt 5).
Proof. vm_compute. repeat split. Qed.

End Referrer.

(** ** C2: the dirty flags and a failed write *)

Section Flush.

(** Whatever happens to the writes, a flush leaves both tables marked
    clean. *)
Lemma _save_dirty_data_clears_flags (io_users io_orders : io) (d : Database) (k : Disk) :
  let '(d', _) := _save_dirty_data io_users io_orders (d, k) in
  _users_dirty d' = false /\ _orders_dirty d' = false.
Proof.
  unfold _save_dirty_data.
  destruct (_users_dirty d) eqn:Hu; destruct (_orders_dirty d) eqn:Ho;
    destruct io_users, io_orders; cbn; rewrite ?Hu, ?Ho; cbn; auto.
Qed.

(** A flush of clean tables writes nothing. *)
Lemma _save_dirty_data_clean (io_users io_orders : io) (d : Database) (k : Disk) :
  _users_dirty d = false -> _orders_dirty d = false ->
  _save_dirty_data io_users io_orders (d, k) = (d, k).
Proof. intros Hu Ho. unfold _save_dirty_data. now rewrite Hu, Ho. Qed.

(** C2, at the input on which the code fails: both tables hold an unsaved
    mutation and both writes of the flush fail with an I/O error. The flush
    returns with both dirty flags cleared and the files as they were, and
    the next flush, whose writes would succeed, writes nothing: the
    mutations are not retried. The claim wants both tables still marked
    dirty after the failed flush. *)
Theorem failed_flush_clears_dirty_flags :
  let '(d1, k1) := _save_dirty_data IoErrorBeforeOpen IoErrorBeforeOpen
                                    (dirty_store, flushed_disk) in
  let '(d2, k2) := _save_dirty_data IoOk IoOk (d1, k1) in
  (_users_dirty dirty_store = true /\ _orders_dirty dirty_store = true) /\
  (_users_dirty d1 = false /\ _orders_dirty d1 = false) /\
  (users_file k1 = Stored ∅ /\ orders_file k1 = Stored []) /\
  (user_field d1 555 "user_id" = Some (VInt 555) /\
   order_field d1 0 "order_id" = Some (VStr "FBP000001")) /\
  (users_file k2 = Stored ∅ /\ orders_file k2 = Stored []).
Proof. vm_compute. repeat split. Qed.

End Flush.

(** ** C6: the timer of an order *)

Section Timer.

(** A wake-up that finds the order in another status than pending changes
    nothing and sends nothing. *)
Lemma timer_wakeup_inert (order_id : string) (chat_id : Z) (c : timer_step)
    (w : World) (i : nat) (status : pyval) :
  find_order (_orders (store w)) order_id 0 = Ok (Some i) ->
  order_field (store w) i "status" = Some status ->
  eq_str status "pending" = false ->
  timer_step_run order_id chat_id c w = (Ok tt, w).
Proof.
  intros Hfind Hst Hne. unfold order_field in Hst.
  destruct (_orders (store w) !! i) as [o|] eqn:Ho; [|discriminate]. cbn in Hst.
  destruct w as [d mg ob fs fc tm]. cbn in *.
  destruct c; cbn; [reflexivity | |];
    run; rewrite Hfind; run; rewrite Ho, Hst; run; rewrite Hne; reflexivity.
Qed.

(** A wake-up for an order that is still pending: a warning is sent and the
    store is untouched; the last check marks the order expired. *)
Lemma timer_expires_pending (order_id : string) (chat_id : Z) (w : World) (i : nat) :
  find_order (_orders (store w)) order_id 0 = Ok (Some i) ->
  order_field (store w) i "status" = Some (VStr "pending") ->
  order_field (store (snd (timer_step_run order_id chat_id expire_if_pending w)))
              i "status" = Some (VStr "expired").
Proof.
  intros Hfind Hst. unfold order_field in *.
  destruct (_orders (store w) !! i) as [o|] eqn:Ho; [|discriminate]. cbn in Hst.
  destruct w as [d mg ob fs fc tm]. cbn in *.
  run. rewrite Hfind; run. rewrite Ho, Hst; run. rewrite Hfind; run.
  rewrite list_lookup_alter_eq, Ho. cbn. unfold update.
  apply lookup_union_Some_l, lookup_singleton_eq.
Qed.

(** With a timeout of 1, 2 or 3 minutes the only warning is the last one,
    one minute before the deadline, and the final check is at the
    deadline. *)
Lemma payment_timer_schedule_3_minutes admins :
  wakeups (start_payment_timer (mkConfig admins 10%float 3)) 0 =
    [ (120, warn_if_pending FinalReminder1); (180, expire_if_pending) ].
Proof. vm_compute. reflexivity. Qed.

End Timer.

(** C6, at the input on which the code fails: the default timeout of 10
    minutes. Each sleep of [start_payment_timer] lasts [timeout - warning]
    seconds counted from the previous wake-up, not from the start, so the
    timer resumes 300 s, 720 s and 1260 s after it starts for its three
    warnings and performs the final expiry check after 1320 s. The claim
    wants the warnings at 300 s, 420 s and 540 s (5, 3 and 1 minutes before
    the deadline) and the final check at 600 s. *)
Theorem payment_timer_schedule_default :
  wakeups (start_payment_timer (default_config [])) 0 =
    [ (300, warn_if_pending MinutesRemaining5);
      (720, warn_if_pending MinutesLeft3);
      (1260, warn_if_pending FinalReminder1);
      (1320, expire_if_pending) ].
Proof. vm_compute. reflexivity. Qed.

(** ** C10: the payment switch without its settings *)

Section PaymentSwitch.

Import settings.

(** A settings file that is present but cannot be read or parsed loads as
    the empty mapping. *)
Lemma initialize_unreadable_settings (io_settings : io) (m : SettingsManager) (k : Disk) :
  _initialized m = false ->
  settings_file k = Unreadable ->
  _settings (fst (initialize io_settings (m, k))) = ∅.
Proof.
  intros Hi Hf. unfold initialize. rewrite Hi, Hf. cbn.
  destruct (exists_ (services_file k)); cbn.
  - destruct (_load_json [] (services_file k)); reflexivity.
  - reflexivity.
Qed.

(** C10: when the loaded settings have no ['payment_system'] section,
    [is_payment_enabled()] returns [True] and [get_disabled_message()]
    returns ["System Maintenance"]. *)
Theorem payment_enabled_without_section (m : SettingsManager) :
  _settings m !! "payment_system" = None ->
  is_payment_enabled m = Ok (VBool true) /\
  get_disabled_message m = Ok (VStr "System Maintenance").
Proof.
  intros H. unfold is_payment_enabled, get_disabled_message, section_get, get_default.
  rewrite H. cbn. rewrite lookup_empty. split; reflexivity.
Qed.

(** The case of the claim: the settings file could not be read. *)
Lemma payment_enabled_after_read_error :
  _settings manager_after_read_error = ∅ /\
  is_payment_enabled manager_after_read_error = Ok (VBool true) /\
  get_disabled_message manager_after_read_error = Ok (VStr "System Maintenance").
Proof.
  split; [reflexivity|].
  apply (payment_enabled_without_section manager_after_read_error).
  reflexivity.
Defined.

End PaymentSwitch.

(** ** The scenario, step by step *)

Lemma scenario_order_placed :
  order_field (store order_placed) 0 "order_id" = Some (VStr "FBP000001") /\
  order_field (store order_placed) 0 "status" = Some (VStr "pending") /\
  order_field (store order_placed) 0 "amount" = Some (VFloat 149%float) /\
  referrer_of (store order_placed) 555 = Some (VInt 999) /\
  user_field (store order_placed) 999 "coins" = Some (VFloat 0%float) /\
  timers order_placed = [("FBP000001", 555)].
Proof. vm_compute. repeat split. Qed.

Lemma scenario_screenshot_uploaded :
  order_field (store screenshot_uploaded) 0 "status" = Some (VStr "verification").
Proof. vm_compute. reflexivity. Qed.

(** ** C7: what an approval credits *)

(** The commission on 149.0 at 10 percent. *)
Lemma commission_on_149 :
  helpers.calculate_commission (VFloat 149%float) 10%float = Ok 14.9%float.
Proof. vm_compute. reflexivity. Qed.

(** C7, at the input on which the code fails: the order FBP000001 of amount
    149.0, placed by user 555 whose referrer is 999, awaits verification and
    the admin approves it. [admin_approve] marks the order approved and then
    fails on its last line, [asyncio.create_task(...)], with a [NameError]:
    admin.py never imports [asyncio]. The commission task is not started, and
    the coin balance, the lifetime earnings and the referral count of 999 are
    what they were, 0.0, 0.0 and 0. The claim wants 14.90, 14.90 and 1. *)
Theorem approval_never_starts_commission :
  fst approval = Raise (NameError "asyncio") /\
  order_field (store order_approved) 0 "status" = Some (VStr "approved") /\
  order_field (store order_approved) 0 "amount" = Some (VFloat 149%float) /\
  referrer_of (store order_approved) 555 = Some (VInt 999) /\
  user_field (store order_approved) 999 "coins" = Some (VFloat 0%float) /\
  user_field (store order_approved) 999 "total_earned" = Some (VFloat 0%float) /\
  user_field (store order_approved) 999 "total_referrals" = Some (VInt 0) /\
  order_field (store order_approved) 0 "commission_paid" = None.
Proof. vm_compute. repeat split. Qed.

(** ** C3: rejecting an order that is not under verification *)

(** C3, at the input on which the code fails: the order FBP000001 is already
    approved and the admin presses Reject. [admin_reject] does not look at
    the status: the order becomes rejected, the admin is told "rejected" and
    the buyer that the verification failed. The claim wants the status left
    at approved and the answer "already processed". *)
Theorem admin_reject_overwrites_approved :
  order_field (store order_approved) 0 "status" = Some (VStr "approved") /\
  order_field (store rejected_after_approval) 0 "status" = Some (VStr "rejected") /\
  sent_since order_approved rejected_after_approval =
    [ edit_caption RejectedBy; answer PaymentRejected;
      send_message (VInt 555) PaymentVerificationFailed ].
Proof. vm_compute. repeat split. Qed.

(** ** Rules of the weakest precondition *)

Section WP.

Context {S : Type}.
Implicit Types (s : S) (E : S -> Prop).

Lemma wp_run {A} (m : M S A) (Q : A -> S -> Prop) E s r s' :
  m s = (r, s') ->
  match r with Ok a => Q a s' | Raise _ => E s' end ->
  wp m Q E s.
Proof. intros Hm H. unfold wp. now rewrite Hm. Qed.

Lemma wp_final {A} (m : M S A) (P : S -> Prop) s :
  wp m (fun _ => P) P s <-> P (snd (m s)).
Proof. unfold wp. destruct (m s) as [[a|e] s']; reflexivity. Qed.

Lemma wp_mono {A} (m : M S A) (Q Q' : A -> S -> Prop) E E' s :
  (forall a s', Q a s' -> Q' a s') -> (forall s', E s' -> E' s') ->
  wp m Q E s -> wp m Q' E' s.
Proof. unfold wp. destruct (m s) as [[a|e] s']; auto. Qed.

Lemma wp_ret {A} (a : A) (Q : A -> S -> Prop) E s : Q a s -> wp (ret a) Q E s.
Proof. exact (fun H => H). Qed.

Lemma wp_raise {A} e (Q : A -> S -> Prop) E s : E s -> wp (raise e) Q E s.
Proof. exact (fun H => H). Qed.

Lemma wp_bind {A B} (m : M S A) (k : A -> M S B) (Q : B -> S -> Prop) E s :
  wp m (fun a s' => wp (k a) Q E s') E s -> wp (bind m k) Q E s.
Proof. unfold wp, bind. destruct (m s) as [[a|e] s']; auto. Qed.

Lemma wp_lift {A} (r : result A) (Q : A -> S -> Prop) E s :
  match r with Ok a => Q a s | Raise _ => E s end -> wp (lift r) Q E s.
Proof. exact (fun H => H). Qed.


Lemma wp_modify (f : S -> S) (Q : unit -> S -> Prop) E s : Q tt (f s) -> wp (modify f) Q E s.
Proof. exact (fun H => H). Qed.

Lemma wp_try {A} (m : M S A) (Q : unit -> S -> Prop) E s :
  wp m (fun _ => Q tt) (Q tt) s -> wp (try_ m) Q E s.
Proof. unfold wp, try_. destruct (m s) as [[a|e] s']; auto. Qed.

Lemma wp_zoom {T A} (proj : S -> T) (inj : T -> S -> S) (m : M T A)
    (Q : A -> S -> Prop) E s :
  wp m (fun a t => Q a (inj t s)) (fun t => E (inj t s)) (proj s) ->
  wp (zoom proj inj m) Q E s.
Proof. unfold wp, zoom. destruct (m (proj s)) as [[a|e] t]; auto. Qed.

End WP.

Lemma wp_on_db {A} (m : M Database A) (Q : A -> World -> Prop) (E : World -> Prop) w :
  wp m (fun a d => Q a (with_store d w)) (fun d => E (with_store d w)) (store w) ->
  wp (on_db m) Q E w.
Proof. apply wp_zoom. Qed.


(** ** What a computation preserves *)

Section Preserves.

Context {S : Type} (P : S -> Prop).

Lemma preserves_final {A} (m : M S A) s : preserves P m -> P s -> P (snd (m s)).
Proof. intros H Hs. apply wp_final, H, Hs. Qed.

Lemma preserves_ret {A} (a : A) : preserves P (ret a).
Proof. intros s Hs. exact Hs. Qed.

Lemma preserves_raise {A} e : preserves P (@raise S A e).
Proof. intros s Hs. exact Hs. Qed.

Lemma preserves_lift {A} (r : result A) : preserves P (lift r).
Proof. intros s Hs. unfold wp, lift. destruct r; exact Hs. Qed.

Lemma preserves_gets {A} (f : S -> A) : preserves P (gets f).
Proof. intros s Hs. exact Hs. Qed.

Lemma preserves_modify (f : S -> S) : (forall s, P s -> P (f s)) -> preserves P (modify f).
Proof. intros H s Hs. apply wp_modify, H, Hs. Qed.

Lemma preserves_bind {A B} (m : M S A) (k : A -> M S B) :
  preserves P m -> (forall a, preserves P (k a)) -> preserves P (bind m k).
Proof.
  intros Hm Hk s Hs. apply wp_bind.
  eapply wp_mono; [ | | apply Hm, Hs ]; cbn; [ intros a s' Hs'; apply Hk, Hs' | auto ].
Qed.

Lemma preserves_try {A} (m : M S A) : preserves P m -> preserves P (try_ m).
Proof. intros Hm s Hs. apply wp_try, Hm, Hs. Qed.

(** What follows a [raise] is not run. *)
Lemma preserves_raise_bind {A B} e (k : A -> M S B) : preserves P (bind (raise e) k).
Proof. intros s Hs. exact Hs. Qed.

End Preserves.

(** *** The store operations that leave every order as it is *)

Section OrdersUntouched.

Lemma get_order_untouched order_id : orders_untouched (get_order order_id).
Proof. intros d. reflexivity. Qed.

Lemma order_item_untouched i key : orders_untouched (order_item i key).
Proof. intros d. unfold order_item. run. destruct (_orders d !! i); reflexivity. Qed.

Lemma get_user_untouched user_id now : orders_untouched (get_user user_id now).
Proof. intros d. unfold get_user. run. destruct (_users d !! user_id); reflexivity. Qed.

Lemma update_user_untouched user_id updates : orders_untouched (update_user user_id updates).
Proof. intros d. unfold update_user. run. destruct (_users d !! user_id); reflexivity. Qed.

Lemma update_field_untouched user_id field f : orders_untouched (update_field user_id field f).
Proof.
  intros d. unfold update_field. run.
  destruct (_users d !! user_id) as [u|]; [|reflexivity]. cbn.
  destruct (u !! field) as [v|]; [|reflexivity]. cbn.
  destruct (f v); reflexivity.
Qed.

Lemma set_referrer_untouched user_id referrer_id :
  orders_untouched (set_referrer user_id referrer_id).
Proof.
  intros d. unfold set_referrer. run.
  destruct (_users d !! user_id) as [u|]; [|reflexivity]. cbn.
  destruct (u !! "referred_by") as [v|]; [|reflexivity]. cbn.
  destruct (negb (truthy v)); reflexivity.
Qed.

(** Sequencing keeps the property. *)
Lemma bind_untouched {A B} (m : M Database A) (k : A -> M Database B) :
  orders_untouched m -> (forall a, orders_untouched (k a)) ->
  orders_untouched (bind m k).
Proof.
  intros Hm Hk d. unfold bind. specialize (Hm d).
  destruct (m d) as [[a|e] d']; cbn in *; [|exact Hm].
  rewrite Hk. exact Hm.
Qed.

Lemma ret_untouched {A} (a : A) : orders_untouched (@ret Database A a).
Proof. intros d. reflexivity. Qed.

Lemma set_users_dirty_untouched b : orders_untouched (modify (set_users_dirty b)).
Proof. intros d. reflexivity. Qed.

Ltac untouched :=
  repeat first [ apply update_field_untouched
               | apply set_users_dirty_untouched
               | apply ret_untouched
               | apply bind_untouched; [|intros ?] ].

Lemma add_coins_untouched user_id amount : orders_untouched (add_coins user_id amount).
Proof.
  unfold add_coins. apply bind_untouched; [intros d; reflexivity|].
  intros users. destruct (users !! user_id); [|apply ret_untouched].
  untouched.
Qed.

Lemma increment_referral_count_untouched user_id :
  orders_untouched (increment_referral_count user_id).
Proof.
  unfold increment_referral_count. apply bind_untouched; [intros d; reflexivity|].
  intros users. destruct (users !! user_id); [|apply ret_untouched].
  untouched.
Qed.

Lemma add_purchase_to_user_untouched user_id order_id amount now :
  orders_untouched (add_purchase_to_user user_id order_id amount now).
Proof.
  unfold add_purchase_to_user. apply bind_untouched; [intros d; reflexivity|].
  intros users. destruct (users !! user_id); [|apply ret_untouched].
  untouched.
Qed.

End OrdersUntouched.

(** *** The status of an order through the steps of a handler *)

Section OnStore.

Context (P : Database -> Prop).

(** What does not write the store keeps every assertion on it. *)
Lemma preserves_store_modify (f : World -> World) :
  (forall w, store (f w) = store w) -> preserves (on_store P) (modify f).
Proof.
  intros Hf. apply preserves_modify. intros w Hw.
  unfold on_store in *. now rewrite Hf.
Qed.

Lemma preserves_emit e : preserves (on_store P) (emit e).
Proof. now apply preserves_store_modify. Qed.

Lemma preserves_set_state user st : preserves (on_store P) (set_state user st).
Proof. now apply preserves_store_modify. Qed.

Lemma preserves_update_data user key value :
  preserves (on_store P) (update_data user key value).
Proof. now apply preserves_store_modify. Qed.

Lemma preserves_clear user : preserves (on_store P) (clear user).
Proof. now apply preserves_store_modify. Qed.

Lemma preserves_notify_admins admins send :
  preserves (on_store P) (notify_admins admins send).
Proof. now apply preserves_store_modify. Qed.

Lemma preserves_get_data user : preserves (on_store P) (get_data user).
Proof. apply preserves_gets. Qed.

(** A store operation that leaves the store as it is. *)
Lemma preserves_on_db_read {A} (m : M Database A) :
  (forall d, snd (m d) = d) -> preserves (on_store P) (on_db m).
Proof.
  intros Hm w Hw. apply wp_final. unfold on_db, zoom.
  specialize (Hm (store w)). destruct (m (store w)) as [r d'].
  unfold on_store in *. cbn in *. now subst d'.
Qed.

End OnStore.

Section Status.

Context (i : nat) (status : string).

Lemma preserves_on_db_untouched {A} (m : M Database A) :
  orders_untouched m -> preserves (has_status i status) (on_db m).
Proof.
  intros Hm w Hw. apply wp_final. unfold on_db, zoom.
  specialize (Hm (store w)). destruct (m (store w)) as [r d'].
  unfold has_status, on_store, order_field in *. cbn in *. now rewrite Hm.
Qed.

(** The orders after [update_order]. *)
Lemma update_order_orders order_id updates d :
  _orders (snd (update_order order_id updates d)) =
    match find_order (_orders d) order_id 0 with
    | Ok (Some j) => alter (fun order => update order updates) j (_orders d)
    | _ => _orders d
    end.
Proof.
  unfold update_order. run.
  destruct (find_order (_orders d) order_id 0) as [[j|]|]; reflexivity.
Qed.

(** An update that does not mention the status leaves every status. *)
Lemma preserves_update_order_other_fields order_id updates :
  updates !! "status" = None ->
  preserves (has_status i status) (on_db (update_order order_id updates)).
Proof.
  intros Hu w Hw. apply wp_final. unfold on_db, zoom.
  pose proof (update_order_orders order_id updates (store w)) as Ho.
  destruct (update_order order_id updates (store w)) as [r d'].
  unfold has_status, on_store, order_field in *. cbn in *. rewrite Ho.
  destruct (find_order (_orders (store w)) order_id 0) as [[j|]|]; try exact Hw.
  destruct (decide (j = i)) as [->|Hne].
  - rewrite list_lookup_alter_eq.
    destruct (_orders (store w) !! i) as [o|]; [|discriminate]. cbn in *.
    unfold update. rewrite lookup_union_r; assumption.
  - now rewrite list_lookup_alter_ne.
Qed.

(** A new order goes to the end of the list. *)
Lemma preserves_create_order order_data now :
  preserves (has_status i status) (on_db (create_order order_data now)).
Proof.
  intros w Hw. apply wp_final. unfold has_status, on_store, order_field in *. cbn.
  destruct (_orders (store w) !! i) as [o|] eqn:Ho; [|discriminate].
  now rewrite (lookup_app_l_Some _ _ _ _ Ho).
Qed.

End Status.

Create HintDb untouched.
#[local] Hint Resolve get_order_untouched order_item_untouched get_user_untouched
  update_user_untouched update_field_untouched set_referrer_untouched
  add_coins_untouched increment_referral_count_untouched
  add_purchase_to_user_untouched : untouched.

(** What is known of the store operations, for the assertion at hand. *)
Ltac pres_on_db :=
  lazymatch goal with
  | |- preserves (has_status _ _) (on_db (create_order _ _)) =>
      apply preserves_create_order
  | |- preserves (has_status _ _) (on_db (update_order _ _)) =>
      apply preserves_update_order_other_fields; vm_compute; reflexivity
  | |- preserves (has_status _ _) (on_db _) =>
      apply preserves_on_db_untouched; solve [ auto with untouched ]
  end.

(** The structural part of a proof that a handler keeps an assertion. *)
Ltac pres_step :=
  lazymatch goal with
  | |- preserves _ (bind (raise _) _) => apply preserves_raise_bind
  | |- preserves _ (bind _ _) => apply preserves_bind; [|intros ?]
  | |- preserves _ (ret _) => apply preserves_ret
  | |- preserves _ (raise _) => apply preserves_raise
  | |- preserves _ (lift _) => apply preserves_lift
  | |- preserves _ (gets _) => apply preserves_gets
  | |- preserves _ (emit _) => apply preserves_emit
  | |- preserves _ (set_state _ _) => apply preserves_set_state
  | |- preserves _ (update_data _ _ _) => apply preserves_update_data
  | |- preserves _ (clear _) => apply preserves_clear
  | |- preserves _ (notify_admins _ _) => apply preserves_notify_admins
  | |- preserves _ (get_data _) => apply preserves_get_data
  | |- preserves _ (on_db _) => pres_on_db
  | |- preserves _ (modify _) => apply preserves_store_modify; reflexivity
  | |- preserves _ (try_ _) => apply preserves_try
  | |- preserves _ (match ?x with _ => _ end) => destruct x
  end.
Ltac pres := repeat pres_step.

(** *** The handlers that leave the status of every order *)

Section HandlersKeepStatus.

Context (cfg : Config) (expiry : pyval -> string -> result string).
Context (i : nat) (status : string).









End HandlersKeepStatus.

(** ** The guarded transitions *)

Section Hoare.

Context {S : Type}.




End Hoare.

Section Guards.

Context (R : list pydict -> Prop).



End Guards.



Section GuardedHandlers.

Context (cfg : Config) (i : nat) (status : string).



End GuardedHandlers.

(** ** C4: the terminal statuses *)

Section Terminal.

Context (cfg : Config) (expiry : pyval -> string -> result string).





End Terminal.



(** ** C1: the commission task run twice *)

(** C1 as stated fails: after the approval of FBP000001 the commission task
    runs once, credits 14.9 to the referrer 999 and records the commission on
    the order; run a second time for the same order it credits 14.9 again. *)
Lemma second_commission_run_credits_again :
  (user_field (store commission_paid_once) 999 "coins" = Some (VFloat 14.9%float) /\
   user_field (store commission_paid_once) 999 "total_earned" = Some (VFloat 14.9%float) /\
   user_field (store commission_paid_once) 999 "total_referrals" = Some (VInt 1) /\
   order_field (store commission_paid_once) 0 "commission_paid" = Some (VFloat 14.9%float)) /\
  (user_field (store commission_paid_twice) 999 "coins" = Some (VFloat 29.8%float) /\
   user_field (store commission_paid_twice) 999 "total_earned" = Some (VFloat 29.8%float) /\
   user_field (store commission_paid_twice) 999 "total_referrals" = Some (VInt 2)).
Proof. vm_compute. repeat split. Qed.

(** ** C5: the status of a new order *)

(** C5 as stated fails: the order a free subscription creates is stored with
    the status "approved". *)
Lemma free_order_enters_approved :
  order_field (store free_order_created) 0 "order_id" = Some (VStr "FBP000001") /\
  order_field (store free_order_created) 0 "status" = Some (VStr "approved").
Proof. vm_compute. repeat split. Qed.

(** ** The referral ledger *)

Section Ledger.

Lemma user_field_Some d user_id field v :
  user_field d user_id field = Some v ->
  exists u, _users d !! user_id = Some u /\ u !! field = Some v.
Proof.
  unfold user_field. destruct (_users d !! user_id) as [u|]; [|discriminate].
  cbn. eauto.
Qed.

Lemma order_field_Some d i field v :
  order_field d i field = Some v ->
  exists o, _orders d !! i = Some o /\ o !! field = Some v.
Proof.
  unfold order_field. destruct (_orders d !! i) as [o|]; [|discriminate].
  cbn. eauto.
Qed.

Lemma order_item_run d i key v :
  order_field d i key = Some v -> order_item i key d = (Ok v, d).
Proof.
  intros (o & Ho & Hv)%order_field_Some. unfold order_item. run.
  now rewrite Ho, Hv.
Qed.

Lemma order_item_read i key d : snd (order_item i key d) = d.
Proof.
  unfold order_item. run. destruct (_orders d !! i) as [o|]; [|reflexivity].
  cbn. destruct (o !! key); reflexivity.
Qed.

Lemma get_order_read order_id d : snd (get_order order_id d) = d.
Proof. reflexivity. Qed.

Lemma get_user_known d user_id now u :
  _users d !! user_id = Some u -> get_user user_id now d = (Ok u, d).
Proof. intros Hu. unfold get_user. run. now rewrite Hu. Qed.

(** One field of a known user is recomputed. *)
Lemma update_field_run d user_id field f u v v' :
  _users d !! user_id = Some u -> u !! field = Some v -> f v = Ok v' ->
  update_field user_id field f d
  = (Ok tt, with_users <[user_id := <[field := v']> u]> d).
Proof.
  intros Hu Hv Hf. unfold update_field. run. rewrite Hu. run. rewrite Hv. run.
  now rewrite Hf.
Qed.

(** The fields of a user after one field was written. *)
Lemma user_field_with_users_eq d user_id u field v :
  user_field (with_users <[user_id := <[field := v]> u]> d) user_id field = Some v.
Proof. unfold user_field. cbn. rewrite lookup_insert_eq. cbn. apply lookup_insert_eq. Qed.

Lemma user_field_with_users_ne d user_id u field v user_id' field' :
  _users d !! user_id = Some u ->
  field' <> field ->
  user_field (with_users <[user_id := <[field := v]> u]> d) user_id' field'
  = user_field d user_id' field'.
Proof.
  intros Hu Hne. unfold user_field. cbn.
  destruct (decide (user_id' = user_id)) as [->|Hne'].
  - rewrite lookup_insert_eq, Hu. cbn. now rewrite lookup_insert_ne.
  - now rewrite lookup_insert_ne.
Qed.

End Ledger.

Section Commission.

Context (cfg : Config).
Context (user_id referrer_id : Z) (order : nat) (amount : pyval).

Abbreviation L := (ledger_db user_id referrer_id order amount).

(** [add_coins] adds the amount to the balance and to the lifetime earnings
    of a known user, both in the one call. *)
Lemma add_coins_ledger d coins earned referrals k :
  L coins earned referrals d ->
  exists d', add_coins referrer_id k d = (Ok true, d') /\
             L (coins + k)%float (earned + k)%float referrals d'.
Proof.
  intros (Hu & Ha & Hr & Hc & He & Hn).
  destruct (user_field_Some _ _ _ _ Hc) as (r & Hrr & Hrc).
  destruct (user_field_Some _ _ _ _ He) as (r' & Hrr' & Hre).
  rewrite Hrr in Hrr'. injection Hrr' as <-.
  eexists. split.
  - unfold add_coins, bind, gets. rewrite Hrr.
    erewrite update_field_run; [ | exact Hrr | exact Hrc | reflexivity ].
    erewrite update_field_run;
      [ | cbn; apply lookup_insert_eq | rewrite lookup_insert_ne by discriminate; exact Hre
        | reflexivity ].
    reflexivity.
  - unfold ledger_db.
    assert (forall f v, f <> "coins" -> f <> "total_earned" ->
              forall uid, user_field d uid f = Some v ->
              user_field
                (set_users_dirty true
                   (with_users
                      <[referrer_id := <["total_earned" := VFloat (earned + k)]>
                                         (<["coins" := VFloat (coins + k)]> r)]>
                      (with_users <[referrer_id := <["coins" := VFloat (coins + k)]> r]> d)))
                uid f = Some v) as Hframe.
    { intros f v Hf1 Hf2 uid Hv.
      change (user_field (set_users_dirty true ?x) uid f) with (user_field x uid f).
      rewrite user_field_with_users_ne; [ | cbn; apply lookup_insert_eq | exact Hf2 ].
      rewrite user_field_with_users_ne; [ exact Hv | exact Hrr | exact Hf1 ]. }
    repeat split.
    + exact Hu.
    + exact Ha.
    + apply Hframe; [discriminate | discriminate | exact Hr].
    + change (user_field (set_users_dirty true ?x) ?u ?f) with (user_field x u f).
      rewrite user_field_with_users_ne; [ | cbn; apply lookup_insert_eq | discriminate ].
      apply user_field_with_users_eq.
    + change (user_field (set_users_dirty true ?x) ?u ?f) with (user_field x u f).
      apply user_field_with_users_eq.
    + apply Hframe; [discriminate | discriminate | exact Hn].
Qed.

Lemma increment_referral_count_ledger d coins earned referrals :
  L coins earned referrals d ->
  exists d', increment_referral_count referrer_id d = (Ok true, d') /\
             L coins earned (referrals + 1) d'.
Proof.
  intros (Hu & Ha & Hr & Hc & He & Hn).
  destruct (user_field_Some _ _ _ _ Hn) as (r & Hrr & Hrn).
  eexists. split.
  - unfold increment_referral_count, bind, gets. rewrite Hrr.
    erewrite update_field_run; [ | exact Hrr | exact Hrn | reflexivity ].
    reflexivity.
  - unfold ledger_db.
    repeat split;
      change (user_field (set_users_dirty true ?x) ?u ?f) with (user_field x u f);
      try (rewrite user_field_with_users_ne; [ assumption | exact Hrr | discriminate ]).
    + exact Hu.
    + exact Ha.
    + apply user_field_with_users_eq.
Qed.

(** The rest of the commission task, after the credit, keeps the ledger. *)
Lemma ledger_update_order coins earned referrals order_id updates :
  updates !! "user_id" = None -> updates !! "amount" = None ->
  preserves (ledger user_id referrer_id order amount coins earned referrals)
            (on_db (update_order order_id updates)).
Proof.
  intros Hu1 Hu2 w Hw. apply wp_final. unfold on_db, zoom.
  pose proof (update_order_orders order_id updates (store w)) as Ho.
  assert (_users (snd (update_order order_id updates (store w))) = _users (store w)) as Hus.
  { unfold update_order. run.
    destruct (find_order (_orders (store w)) order_id 0) as [[j|]|]; reflexivity. }
  destruct (update_order order_id updates (store w)) as [r d']. cbn in Ho, Hus.
  unfold ledger, on_store, ledger_db in *. cbn [snd store with_store].
  destruct Hw as (H1 & H2 & H3 & H4 & H5 & H6).
  unfold user_field in *. rewrite Hus.
  assert (forall key v, updates !! key = None ->
            order_field (store w) order key = Some v -> order_field d' order key = Some v)
    as Hframe.
  { intros key v Hk Hv. unfold order_field in *. rewrite Ho.
    destruct (find_order (_orders (store w)) order_id 0) as [[j|]|]; try exact Hv.
    destruct (decide (j = order)) as [->|Hne].
    - rewrite list_lookup_alter_eq.
      destruct (_orders (store w) !! order) as [o|]; [|discriminate]. cbn in *.
      unfold update. rewrite lookup_union_r; assumption.
    - now rewrite list_lookup_alter_ne. }
  repeat split; auto.
Qed.

Lemma ledger_get_user_referrer coins earned referrals now :
  preserves (ledger user_id referrer_id order amount coins earned referrals)
            (on_db (get_user referrer_id now)).
Proof.
  intros w Hw. apply wp_final. unfold on_db, zoom.
  pose proof Hw as (_ & _ & _ & Hc & _).
  destruct (user_field_Some _ _ _ _ Hc) as (r & Hr & _).
  rewrite (get_user_known _ _ _ _ Hr). destruct w; exact Hw.
Qed.

End Commission.

Ltac pres_on_db ::=
  lazymatch goal with
  | |- preserves (has_status _ _) (on_db (create_order _ _)) =>
      apply preserves_create_order
  | |- preserves (has_status _ _) (on_db (update_order _ _)) =>
      apply preserves_update_order_other_fields; vm_compute; reflexivity
  | |- preserves (has_status _ _) (on_db _) =>
      apply preserves_on_db_untouched; solve [ auto with untouched ]
  | |- preserves (ledger _ _ _ _ _ _ _) (on_db (update_order _ _)) =>
      apply ledger_update_order; vm_compute; reflexivity
  | |- preserves (ledger _ ?r _ _ _ _ _) (on_db (get_user ?r _)) =>
      apply ledger_get_user_referrer
  | |- preserves (ledger _ _ _ _ _ _ _) (on_db (order_item _ _)) =>
      apply preserves_on_db_read, order_item_read
  end.

Section CommissionRun.

Context (cfg : Config).
Context (user_id referrer_id : Z) (order : nat) (amount : pyval).

(** One run of the commission task for an order whose buyer has a referrer:
    whatever the order already records, the referrer is credited. *)
Lemma commission_run now w coins earned referrals k :
  referrer_id <> 0 ->
  helpers.calculate_commission amount (REFERRAL_COMMISSION_PERCENT cfg) = Ok k ->
  ledger user_id referrer_id order amount coins earned referrals w ->
  ledger user_id referrer_id order amount
         (coins + k)%float (earned + k)%float (referrals + 1)
         (snd (process_referral_commission cfg order now w)).
Proof.
  intros Hnz Hk HL. apply wp_final. unfold process_referral_commission.
  destruct w as [d mg ob fs fc tm].
  pose proof HL as (Hu & Ha & Hr & Hc & He & Hn). cbn [store] in *.
  destruct (user_field_Some _ _ _ _ Hr) as (u & Huu & Hur).
  apply wp_bind, wp_on_db. eapply wp_run; [apply order_item_run, Hu|]. cbn.
  apply wp_bind, wp_on_db. eapply wp_run; [apply order_item_run, Ha|]. cbn.
  apply wp_bind, wp_lift. cbn.
  apply wp_bind, wp_on_db. eapply wp_run; [apply get_user_known, Huu|]. cbn.
  unfold get. rewrite Hur. cbn.
  destruct (referrer_id =? 0) eqn:E; [apply Z.eqb_eq in E; contradiction|]. cbn.
  apply wp_bind, wp_lift. rewrite Hk. cbn.
  apply wp_bind, wp_lift. cbn.
  destruct (add_coins_ledger user_id referrer_id order amount d coins earned referrals k HL)
    as (d1 & Hd1 & HL1).
  apply wp_bind, wp_on_db. eapply wp_run; [exact Hd1|]. cbn.
  destruct (increment_referral_count_ledger user_id referrer_id order amount d1 _ _ _ HL1)
    as (d2 & Hd2 & HL2).
  apply wp_bind, wp_on_db. eapply wp_run; [exact Hd2|]. cbn.
  match goal with
  | |- wp ?m _ _ ?w =>
      assert (preserves (ledger user_id referrer_id order amount
                                (coins + k)%float (earned + k)%float (referrals + 1)) m)
        as Htail by pres;
      apply Htail
  end.
  exact HL2.
Qed.

End CommissionRun.

(** C1, as amended: [process_referral_commission] does not look at what the
    order already records. For an order whose buyer has a referrer other than
    0 (a user of the store with a numeric balance), a first run adds the
    commission to the referrer's coin balance and lifetime earnings and 1 to
    the referral count, and a second run for the same order adds them once
    more. *)
Theorem commission_credited_on_every_run (cfg : Config) (user_id referrer_id : Z)
    (order : nat) (amount : pyval) (now1 now2 : string) (w : World)
    (coins earned : float) (referrals : Z) (k : float) :
  referrer_id <> 0 ->
  helpers.calculate_commission amount (REFERRAL_COMMISSION_PERCENT cfg) = Ok k ->
  ledger user_id referrer_id order amount coins earned referrals w ->
  let w1 := snd (process_referral_commission cfg order now1 w) in
  let w2 := snd (process_referral_commission cfg order now2 w1) in
  ledger user_id referrer_id order amount
         (coins + k)%float (earned + k)%float (referrals + 1) w1 /\
  ledger user_id referrer_id order amount
         (coins + k + k)%float (earned + k + k)%float (referrals + 1 + 1) w2.
Proof.
  intros Hnz Hk HL w1 w2.
  assert (ledger user_id referrer_id order amount
                 (coins + k)%float (earned + k)%float (referrals + 1) w1) as H1
    by (apply commission_run; assumption).
  split; [exact H1|].
  apply commission_run; assumption.
Qed.

(** The amended claim at the scenario: the approved order FBP000001. *)
Lemma commission_credited_twice_in_scenario :
  ledger 555 999 0 (VFloat 149%float) (0 + 14.9)%float (0 + 14.9)%float (0 + 1)
         commission_paid_once /\
  ledger 555 999 0 (VFloat 149%float) (0 + 14.9 + 14.9)%float (0 + 14.9 + 14.9)%float
         (0 + 1 + 1) commission_paid_twice.
Proof.
  apply (commission_credited_on_every_run scenario_config 555 999 0 (VFloat 149%float)
           "2026-11-03T10:05:01" "2026-11-03T10:05:02" order_approved
           0%float 0%float 0 14.9%float).
  - discriminate.
  - vm_compute. reflexivity.
  - vm_compute. repeat split.
Defined.

(** ** C5, as amended *)

(** C5, as amended: [create_order] stores the order with the status
    "pending" unless the data it is given has a status of its own, which then
    is the one stored. The data of a purchase has none, so a paid order
    enters as "pending"; the data of a free subscription has the status
    "approved", so a free order enters as "approved". *)
Theorem create_order_status (d : Database) (order_data : pydict) (now : string)
    (from_user : Z) (username service_name : pyval)
    (service_id plan_duration email : string) (price : float) :
  order_field (snd (create_order order_data now d)) (length (_orders d)) "status"
  = Some (default (VStr "pending") (order_data !! "status")) /\
  payment_order_data from_user username service_id service_name plan_duration price
    !! "status" = None /\
  free_order_data from_user username service_id plan_duration email
    !! "status" = Some (VStr "approved").
Proof.
  split; [|split; vm_compute; reflexivity].
  unfold order_field, create_order. run.
  rewrite list_lookup_middle by reflexivity. cbn.
  unfold update. rewrite lookup_union.
  destruct (order_data !! "status") as [v|]; reflexivity.
Qed.

(** ** C8: the bulk price update *)

Section BulkPrices.

Import settings.

(** Scenario C of the specification: +50 percent takes 100 to 150 and 3 to
    4; 149 goes to 223. A service without plans is not counted. *)
Lemma bulk_increase_50 :
  let '(r, (m, _)) :=
    bulk_update_prices 50%float true "2026-11-03T12:00:00" IoOk IoOk
                       (catalog_manager, catalog_disk) in
  r = Ok 2 /\
  plan_price m "youtube" 0 = Some (VInt 223) /\
  plan_price m "music" 0 = Some (VInt 150) /\
  plan_price m "music" 1 = Some (VInt 4).
Proof. vm_compute. repeat split. Qed.

(** The product is taken in floats: +15 percent takes 100 to 114, since
    100 * 1.15 is 114.99999999999999 in floats. *)
Lemma bulk_increase_15 :
  let '(r, (m, _)) :=
    bulk_update_prices 15%float true "2026-11-03T12:00:00" IoOk IoOk
                       (catalog_manager, catalog_disk) in
  r = Ok 2 /\ plan_price m "music" 0 = Some (VInt 114).
Proof. vm_compute. repeat split. Qed.

End BulkPrices.

Section BulkPricesProof.

Import settings spec.



Context (percent : float) (is_increase : bool).






End BulkPricesProof.

Section BulkPricesTheorem.

Import settings spec.




End BulkPricesTheorem.


(** The same, by computation: the count and the prices after 100 percent
    off on the larger catalog. *)
Lemma bulk_full_decrease_catalog :
  let '(r, (m, _)) :=
    settings.bulk_update_prices 100%float false "2026-11-03T12:00:00" IoOk IoOk
                                (catalog_manager, catalog_disk) in
  r = Ok 2 /\
  plan_price m "youtube" 0 = Some (VInt 1) /\
  plan_price m "music" 0 = Some (VInt 1) /\
  plan_price m "music" 1 = Some (VInt 1).
Proof. vm_compute. repeat split. Qed.

(** * Further properties of the code *)

(** ** The store: the records of the users *)

Section Store.

(** X1: [get_user] makes the record of a user once. Whatever it returned, a
    second call for the same user returns the same record, with the join
    date of the first call, and leaves the store as the first call left
    it. *)
Theorem get_user_once (user_id : Z) (now1 now2 : string) (d : Database) :
  let '(r1, d1) := get_user user_id now1 d in
  get_user user_id now2 d1 = (r1, d1).
Proof.
  unfold get_user. run.
  destruct (_users d !! user_id) as [u|] eqn:Hu; cbn.
  - now rewrite Hu.
  - now rewrite lookup_insert_eq.
Qed.

(** X2: only [get_user] creates a user. For a user the store does not know,
    [update_user], [set_referrer], [add_coins], [increment_referral_count]
    and [add_purchase_to_user] return [False] and leave the store, its dirty
    flags included, as it was. *)
Theorem unknown_user_is_not_written (user_id referrer_id : Z) (updates : pydict)
    (amount : float) (order_id : string) (price : pyval) (now : string) (d : Database) :
  _users d !! user_id = None ->
  update_user user_id updates d = (Ok false, d) /\
  set_referrer user_id referrer_id d = (Ok false, d) /\
  add_coins user_id amount d = (Ok false, d) /\
  increment_referral_count user_id d = (Ok false, d) /\
  add_purchase_to_user user_id order_id price now d = (Ok false, d).
Proof.
  intros Hu.
  unfold update_user, set_referrer, add_coins, increment_referral_count,
    add_purchase_to_user.
  run. rewrite Hu. repeat split.
Qed.

(** X2 on the empty store, for user 7. *)
Lemma unknown_user_is_not_written_empty :
  _users empty_store !! 7 = None /\
  update_user 7 {[ "email" := VStr "a@b.c" ]} empty_store = (Ok false, empty_store) /\
  set_referrer 7 9 empty_store = (Ok false, empty_store) /\
  add_coins 7 1%float empty_store = (Ok false, empty_store) /\
  increment_referral_count 7 empty_store = (Ok false, empty_store) /\
  add_purchase_to_user 7 "FBP000001" (VInt 25) "2026-11-03T10:00:00" empty_store
  = (Ok false, empty_store).
Proof.
  split; [reflexivity|].
  apply (unknown_user_is_not_written 7 9 {[ "email" := VStr "a@b.c" ]} 1%float
           "FBP000001" (VInt 25) "2026-11-03T10:00:00" empty_store).
  reflexivity.
Defined.

End Store.

(** ** The store: what is flagged is what changed *)

Section Saved.

Context (k : Disk).

Lemma flags_follow_saved d d' : flags_follow d d' -> saved k d -> saved k d'.
Proof.
  intros [Hu Ho] [Su So]. split; intros H.
  - destruct Hu as [Hu|[Hu1 Hu2]]; [congruence|]. rewrite Hu1. apply Su. congruence.
  - destruct Ho as [Ho|[Ho1 Ho2]]; [congruence|]. rewrite Ho1. apply So. congruence.
Qed.

Lemma flags_follow_refl d : flags_follow d d.
Proof. split; right; split; reflexivity. Qed.

(** What [update_field] did when it returns. *)
Lemma update_field_ok user_id field f d d' :
  update_field user_id field f d = (Ok tt, d') ->
  exists u v v', _users d !! user_id = Some u /\ u !! field = Some v /\ f v = Ok v' /\
                 d' = with_users <[user_id := <[field := v']> u]> d.
Proof.
  unfold update_field. run.
  destruct (_users d !! user_id) as [u|] eqn:Hu; [|discriminate]. cbn.
  destruct (u !! field) as [v|] eqn:Hv; [|discriminate]. cbn.
  destruct (f v) as [v'|] eqn:Hf; [|discriminate]. cbn.
  intros [= <-]. exists u, v, v'. repeat split; assumption.
Qed.

Lemma exec_flags_follow c now d d' :
  exec c now d = (Ok tt, d') -> flags_follow d d'.
Proof.
  destruct c; cbn [exec].
  - unfold get_user. run. destruct (_users d !! user_id); cbn; intros [= <-].
    + apply flags_follow_refl.
    + split; [left|right]; auto.
  - unfold update_user. run. destruct (_users d !! user_id); cbn; intros [= <-].
    + split; [left|right]; auto.
    + apply flags_follow_refl.
  - unfold set_referrer. run. destruct (_users d !! user_id) as [u|]; cbn.
    + destruct (u !! "referred_by") as [v|]; cbn; [|discriminate].
      destruct (negb (truthy v)); cbn; intros [= <-].
      * split; [left|right]; auto.
      * apply flags_follow_refl.
    + intros [= <-]. apply flags_follow_refl.
  - unfold add_coins. unfold bind at 1 2. unfold gets.
    destruct (_users d !! user_id) as [u|]; cbn.
    + unfold bind.
      destruct (update_field user_id "coins" _ d) as [[[]|e] d1] eqn:H1; [|discriminate].
      destruct (update_field user_id "total_earned" _ d1) as [[[]|e] d2] eqn:H2;
        [|discriminate].
      cbn. intros [= <-].
      apply update_field_ok in H1 as (? & ? & ? & _ & _ & _ & ->).
      apply update_field_ok in H2 as (? & ? & ? & _ & _ & _ & ->).
      split; [left|right]; auto.
    + intros [= <-]. apply flags_follow_refl.
  - unfold increment_referral_count. unfold bind at 1 2. unfold gets.
    destruct (_users d !! user_id) as [u|]; cbn.
    + unfold bind.
      destruct (update_field user_id "total_referrals" _ d) as [[[]|e] d1] eqn:H1;
        [|discriminate].
      cbn. intros [= <-].
      apply update_field_ok in H1 as (? & ? & ? & _ & _ & _ & ->).
      split; [left|right]; auto.
    + intros [= <-]. apply flags_follow_refl.
  - unfold create_order. run. intros [= <-]. split; [right|left]; auto.
  - unfold get_order. run. destruct (find_order _ _ _); cbn; [|discriminate].
    intros [= <-]. apply flags_follow_refl.
  - unfold update_order. run.
    destruct (find_order _ _ _) as [[j|]|]; cbn; [| |discriminate]; intros [= <-].
    + split; [right|left]; auto.
    + apply flags_follow_refl.
  - unfold add_purchase_to_user. unfold bind at 1 2. unfold gets.
    destruct (_users d !! user_id) as [u|]; cbn.
    + unfold bind.
      destruct (update_field user_id "purchases" _ d) as [[[]|e] d1] eqn:H1;
        [|discriminate].
      cbn. intros [= <-].
      apply update_field_ok in H1 as (? & ? & ? & _ & _ & _ & ->).
      split; [left|right]; auto.
    + intros [= <-]. apply flags_follow_refl.
Qed.

(** X3: a call of the store that returns leaves no change unflagged. If
    every table that is not flagged dirty is the one on disk, the same holds
    after [get_user], [update_user], [set_referrer], [add_coins],
    [increment_referral_count], [create_order], [get_order], [update_order]
    or [add_purchase_to_user] has returned. *)
Theorem exec_keeps_saved (c : call) (now : string) (d d' : Database) :
  saved k d -> exec c now d = (Ok tt, d') -> saved k d'.
Proof.
  intros Hs He. eapply flags_follow_saved; [|exact Hs].
  eapply exec_flags_follow, He.
Qed.

End Saved.

(** X3 for a first order placed in the empty store, the disk holding the
    empty tables. *)
Lemma exec_keeps_saved_first_order :
  saved flushed_disk empty_store /\
  saved flushed_disk
    (snd (exec (call_create_order {[ "user_id" := VInt 555 ]}) "2026-11-03T10:00:01"
               empty_store)).
Proof.
  assert (saved flushed_disk empty_store) as H by (split; reflexivity).
  split; [exact H|].
  apply (exec_keeps_saved flushed_disk (call_create_order {[ "user_id" := VInt 555 ]})
           "2026-11-03T10:00:01" empty_store _ H).
  reflexivity.
Defined.

Section AddCoins.

(** X4: [add_coins] is not atomic. On a record that has a balance but no
    lifetime earnings it raises [KeyError] after it has added the amount to
    the balance, and it has not flagged the users table: the change stays in
    memory and no flush will write it. *)
Theorem add_coins_stops_after_the_balance (user_id : Z) (amount coins : float)
    (u : pydict) (d : Database) :
  _users d !! user_id = Some u ->
  u !! "coins" = Some (VFloat coins) ->
  u !! "total_earned" = None ->
  add_coins user_id amount d
  = (Raise (KeyError "total_earned"),
     with_users <[user_id := <["coins" := VFloat (coins + amount)]> u]> d) /\
  _users_dirty (snd (add_coins user_id amount d)) = _users_dirty d.
Proof.
  intros Hu Hc He.
  assert (add_coins user_id amount d
          = (Raise (KeyError "total_earned"),
             with_users <[user_id := <["coins" := VFloat (coins + amount)]> u]> d)) as H.
  { unfold add_coins, bind, gets. rewrite Hu.
    erewrite update_field_run; [ | exact Hu | exact Hc | reflexivity ].
    unfold update_field. run. rewrite lookup_insert_eq. cbn.
    rewrite lookup_insert_ne by discriminate. now rewrite He. }
  split; [exact H|]. now rewrite H.
Qed.

End AddCoins.

(** X4 on the legacy record of user 999, credited with 1.5. *)
Lemma add_coins_stops_on_legacy_user :
  (_users legacy_store !! 999 = Some legacy_user /\
   legacy_user !! "coins" = Some (VFloat 5%float) /\
   legacy_user !! "total_earned" = None) /\
  add_coins 999 1.5%float legacy_store
  = (Raise (KeyError "total_earned"),
     with_users <[999 := <["coins" := VFloat (5 + 1.5)%float]> legacy_user]> legacy_store) /\
  _users_dirty (snd (add_coins 999 1.5%float legacy_store)) = _users_dirty legacy_store.
Proof.
  split; [repeat split|].
  apply (add_coins_stops_after_the_balance 999 1.5%float 5%float legacy_user legacy_store);
    reflexivity.
Defined.

(** ** The store: stopping and starting *)

Section Restart.

Lemma _save_dirty_data_ok d k :
  saved k d ->
  let '(d', k') := _save_dirty_data IoOk IoOk (d, k) in
  _users d' = _users d /\ _orders d' = _orders d /\
  _users_dirty d' = false /\ _orders_dirty d' = false /\
  users_file k' = Stored (_users d) /\ orders_file k' = Stored (_orders d).
Proof.
  intros [Su So]. unfold _save_dirty_data. destruct d as [us os du do]. cbn in *.
  destruct du, do; cbn; repeat split; auto.
Qed.

(** X5: what is in memory when the bot stops is what it starts with. If
    every table that is not flagged dirty is on disk and the writes of
    [shutdown] succeed, [initialize] on a new [Database] reads back the users
    and the orders the store held, flags nothing and writes nothing. *)
Theorem restart_restores_the_tables (d : Database) (k : Disk) (io_users io_orders : io) :
  saved k d ->
  let '(d1, k1) := shutdown IoOk IoOk (d, k) in
  let '(d2, k2) := initialize io_users io_orders (__init__, k1) in
  _users d2 = _users d /\ _orders d2 = _orders d /\
  _users_dirty d2 = false /\ _orders_dirty d2 = false /\
  users_file k2 = users_file k1 /\ orders_file k2 = orders_file k1.
Proof.
  intros Hs. unfold shutdown. pose proof (_save_dirty_data_ok d k Hs) as H.
  destruct (_save_dirty_data IoOk IoOk (d, k)) as [d1 k1].
  destruct H as (_ & _ & _ & _ & Hu & Ho).
  unfold initialize. destruct k1 as [fu fo lg]. cbn in *. subst fu fo. cbn.
  repeat split; reflexivity.
Qed.

End Restart.

(** X5 for the store in which user 555 has placed a first order, nothing of
    which is on disk yet. *)
Lemma restart_restores_the_dirty_store :
  saved flushed_disk dirty_store /\
  let '(d1, k1) := shutdown IoOk IoOk (dirty_store, flushed_disk) in
  let '(d2, k2) := initialize IoOk IoOk (__init__, k1) in
  _users d2 = _users dirty_store /\ _orders d2 = _orders dirty_store /\
  _users_dirty d2 = false /\ _orders_dirty d2 = false /\
  users_file k2 = users_file k1 /\ orders_file k2 = orders_file k1.
Proof.
  assert (saved flushed_disk dirty_store) as H by (split; intros H; discriminate H).
  split; [exact H|].
  apply (restart_restores_the_tables dirty_store flushed_disk IoOk IoOk H).
Defined.

(** ** The ids of the orders *)

Section OrderIds.

Lemma concat_zeros k :
  String.concat "" (replicate (S k) "0") = String "0" (String.concat "" (replicate k "0")).
Proof. destruct k; reflexivity. Qed.

Lemma uint_of_zeros k s :
  NilEmpty.uint_of_string (String.concat "" (replicate k "0") +:+ s)
  = Nat.iter k D0 <$> NilEmpty.uint_of_string s.
Proof.
  induction k as [|k IH].
  - change (String.concat "" (replicate 0 "0") +:+ s) with s.
    destruct (NilEmpty.uint_of_string s); reflexivity.
  - rewrite concat_zeros.
    change (NilEmpty.uint_of_string
              (String "0" (String.concat "" (replicate k "0")) +:+ s))
      with (uint_of_char "0"
              (NilEmpty.uint_of_string (String.concat "" (replicate k "0") +:+ s))).
    rewrite IH. destruct (NilEmpty.uint_of_string s); reflexivity.
Qed.

Lemma of_uint_zeros k d : Nat.of_uint (Nat.iter k D0 d) = Nat.of_uint d.
Proof. induction k as [|k IH]; [reflexivity|exact IH]. Qed.

(** The digits of an order id are those of its number, however many there
    are. *)
Lemma order_number_order_id_at i : order_number (order_id_at i) = Some (i + 1)%nat.
Proof.
  unfold order_id_at.
  change (order_number ("FBP" +:+ zfill6 (i + 1)))
    with (Nat.of_uint <$> NilEmpty.uint_of_string (zfill6 (i + 1))).
  unfold zfill6. rewrite uint_of_zeros, NilEmpty.usu. cbn.
  now rewrite of_uint_zeros, Unsigned.of_to.
Qed.

Lemma order_id_at_inj i j : order_id_at i = order_id_at j -> i = j.
Proof.
  intros H. apply (f_equal order_number) in H.
  rewrite !order_number_order_id_at in H. injection H. lia.
Qed.

(** Looking up the id of a position finds that position. *)
Lemma find_order_sequential os base :
  (forall i o, os !! i = Some o ->
     o !! "order_id" = Some (VStr (order_id_at (base + i)))) ->
  forall j, (j < length os)%nat ->
    find_order os (order_id_at (base + j)) base = Ok (Some (base + j)%nat).
Proof.
  revert base. induction os as [|o os IH]; intros base Hids j Hj; [cbn in Hj; lia|].
  cbn [find_order]. unfold getitem.
  rewrite (Hids 0%nat o eq_refl). cbn [rbind eq_str].
  destruct j as [|j].
  - rewrite Nat.add_0_r, String.eqb_refl. reflexivity.
  - destruct (String.eqb_spec (order_id_at (base + 0)) (order_id_at (base + S j)))
      as [Heq|_].
    { apply order_id_at_inj in Heq. lia. }
    replace (base + S j)%nat with (S base + j)%nat by lia.
    apply IH; [|cbn in Hj; lia].
    intros i o' Ho'. replace (S base + i)%nat with (base + S i)%nat by lia.
    apply (Hids (S i)). exact Ho'.
Qed.

Lemma find_order_ids os j :
  ids_sequential os -> (j < length os)%nat ->
  find_order os (order_id_at j) 0 = Ok (Some j).
Proof. intros Hids Hj. exact (find_order_sequential os 0%nat Hids j Hj). Qed.

(** An id no order carries is not found. *)
Lemma find_order_unknown os base order_id :
  (forall i o, os !! i = Some o ->
     exists s, o !! "order_id" = Some (VStr s) /\ s <> order_id) ->
  find_order os order_id base = Ok None.
Proof.
  revert base. induction os as [|o os IH]; intros base H; [reflexivity|].
  cbn [find_order]. unfold getitem.
  destruct (H 0%nat o eq_refl) as (s & -> & Hs). cbn [rbind eq_str].
  destruct (String.eqb_spec s order_id); [contradiction|].
  apply IH. intros i o' Ho'. apply (H (S i)). exact Ho'.
Qed.


Lemma get_order_find order_id d :
  fst (get_order order_id d) = find_order (_orders d) order_id 0.
Proof. reflexivity. Qed.

Lemma create_order_run order_data now d :
  create_order order_data now d
  = (Ok (order_id_at (length (_orders d))),
     set_orders_dirty true
       (with_orders (fun os =>
          os ++ [update (list_to_map
                           [("order_id", VStr (order_id_at (length (_orders d))));
                            ("created_at", VStr now); ("status", VStr "pending")])
                        order_data])%list d)).
Proof. reflexivity. Qed.

Lemma ids_sequential_app os o :
  ids_sequential os -> o !! "order_id" = Some (VStr (order_id_at (length os))) ->
  ids_sequential (os ++ [o]).
Proof.
  intros Hids Ho i o' Hi. apply lookup_app_Some in Hi as [Hi|[Hlen Hi]].
  - apply Hids, Hi.
  - apply list_lookup_singleton_Some in Hi as [Hi <-].
    replace i with (length os) by lia. exact Ho.
Qed.

(** X6: [create_order] and [get_order] agree. In a store whose orders carry
    the ids [create_order] gave them, and for order data that has no
    ["order_id"] of its own, the id [create_order] returns was not in use, now
    leads [get_order] to the new order, at the end of the list, and every
    earlier id still leads to its order, which is unchanged. *)
Theorem created_order_is_found (order_data : pydict) (now : string) (d : Database) :
  ids_sequential (_orders d) ->
  order_data !! "order_id" = None ->
  let '(r, d') := create_order order_data now d in
  r = Ok (order_id_at (length (_orders d))) /\
  ids_sequential (_orders d') /\
  fst (get_order (order_id_at (length (_orders d))) d) = Ok None /\
  fst (get_order (order_id_at (length (_orders d))) d') = Ok (Some (length (_orders d))) /\
  forall j, (j < length (_orders d))%nat ->
    fst (get_order (order_id_at j) d') = Ok (Some j) /\
    _orders d' !! j = _orders d !! j.
Proof.
  intros Hids Hdata. rewrite create_order_run.
  cbn [_orders set_orders_dirty with_orders].
  match goal with |- _ /\ ids_sequential ?os' /\ _ =>
    assert (ids_sequential os') as Hids' end.
  { apply ids_sequential_app; [exact Hids|].
    unfold update. rewrite lookup_union_r by exact Hdata. reflexivity. }
  split; [reflexivity|]. split; [exact Hids'|].
  rewrite !get_order_find. cbn [_orders set_orders_dirty with_orders].
  split; [|split].
  - apply find_order_unknown.
    intros i o Ho. exists (order_id_at i). split; [apply Hids, Ho|].
    intros Heq%order_id_at_inj. apply lookup_lt_Some in Ho. lia.
  - apply find_order_ids; [exact Hids'|]. rewrite length_app. cbn. lia.
  - intros j Hj. rewrite get_order_find. cbn [_orders set_orders_dirty with_orders].
    split.
    + apply find_order_ids; [exact Hids'|]. rewrite length_app. cbn. lia.
    + now rewrite lookup_app_l.
Qed.

End OrderIds.

(** X6 for a second order in the store that holds the first order of user
    555. *)
Lemma created_order_is_found_second_order :
  (ids_sequential (_orders dirty_store) /\
   ({[ "user_id" := VInt 556 ]} : pydict) !! "order_id" = None) /\
  let '(r, d') := create_order {[ "user_id" := VInt 556 ]} "2026-11-03T10:00:02"
                               dirty_store in
  r = Ok (order_id_at (length (_orders dirty_store))) /\
  ids_sequential (_orders d') /\
  fst (get_order (order_id_at (length (_orders dirty_store))) dirty_store) = Ok None /\
  fst (get_order (order_id_at (length (_orders dirty_store))) d')
  = Ok (Some (length (_orders dirty_store))) /\
  forall j, (j < length (_orders dirty_store))%nat ->
    fst (get_order (order_id_at j) d') = Ok (Some j) /\
    _orders d' !! j = _orders dirty_store !! j.
Proof.
  assert (ids_sequential (_orders dirty_store)) as H.
  { intros [|i] o Ho; [|discriminate Ho]. injection Ho as <-. vm_compute. reflexivity. }
  split; [split; [exact H|reflexivity]|].
  apply (created_order_is_found {[ "user_id" := VInt 556 ]} "2026-11-03T10:00:02"
           dirty_store H).
  reflexivity.
Defined.

(** ** What every update keeps of the store *)

(** A store operation that keeps an assertion on the store keeps it as an
    operation of a handler. *)
Lemma preserves_on_db_keeps (P : Database -> Prop) {A} (m : M Database A) :
  (forall d, P d -> P (snd (m d))) -> preserves (on_store P) (on_db m).
Proof.
  intros Hm w Hw. apply wp_final. unfold on_db, zoom.
  specialize (Hm (store w) Hw). destruct (m (store w)) as [r d'].
  exact Hm.
Qed.

(** The structural part of a proof that a handler keeps an assertion on the
    store; [side] shows that a store operation keeps it. *)
Ltac keep_step side :=
  lazymatch goal with
  | |- preserves _ (bind (raise _) _) => apply preserves_raise_bind
  | |- preserves _ (bind _ _) => apply preserves_bind; [|intros ?]
  | |- preserves _ (ret _) => apply preserves_ret
  | |- preserves _ (raise _) => apply preserves_raise
  | |- preserves _ (lift _) => apply preserves_lift
  | |- preserves _ (gets _) => apply preserves_gets
  | |- preserves _ (emit _) => apply preserves_emit
  | |- preserves _ (set_state _ _) => apply preserves_set_state
  | |- preserves _ (update_data _ _ _) => apply preserves_update_data
  | |- preserves _ (clear _) => apply preserves_clear
  | |- preserves _ (notify_admins _ _) => apply preserves_notify_admins
  | |- preserves _ (get_data _) => apply preserves_get_data
  | |- preserves _ (on_db _) => apply preserves_on_db_keeps; side
  | |- preserves _ (modify _) => apply preserves_store_modify; reflexivity
  | |- preserves _ (try_ _) => apply preserves_try
  | |- preserves _ (match ?x with _ => _ end) => destruct x
  end.
Ltac keep side := repeat keep_step side.

Ltac unfold_handlers :=
  unfold cmd_start, initiate_direct_payment, _create_payment_order, select_qr,
    request_screenshot, receive_user_details, handle_screenshot,
    receive_free_email, cancel_order, admin_approve, admin_reject,
    confirm_free_subscription, process_referral_commission.

(** A run keeps what each of its steps keeps. *)
Lemma run_keeps (P : World -> Prop) cfg expiry :
  (forall i now, preserves P (step cfg expiry i now)) ->
  forall inputs w, P w -> P (run cfg expiry inputs w).
Proof.
  intros Hstep inputs. induction inputs as [|[i now] rest IH]; intros w Hw; [exact Hw|].
  cbn [run]. apply IH. exact (preserves_final _ _ _ (Hstep i now) Hw).
Qed.

(** *** The sequence of the ids *)

Section SequentialIds.

Abbreviation Seq := store_ids_sequential.

Lemma untouched_keeps_ids {A} (m : M Database A) :
  orders_untouched m -> forall d, Seq d -> Seq (snd (m d)).
Proof. intros Hm d Hd. unfold store_ids_sequential in *. now rewrite Hm. Qed.

Lemma alter_keeps_ids (f : pydict -> pydict) (i : nat) (os : list pydict) :
  (forall o, f o !! "order_id" = o !! "order_id") ->
  ids_sequential os -> ids_sequential (alter f i os).
Proof.
  intros Hf Hids j o Ho.
  destruct (decide (i = j)) as [->|Hne].
  - rewrite list_lookup_alter_eq in Ho.
    destruct (os !! j) as [o'|] eqn:Ho'; [|discriminate]. injection Ho as <-.
    rewrite Hf. apply Hids, Ho'.
  - rewrite list_lookup_alter_ne in Ho by exact Hne. apply Hids, Ho.
Qed.

Lemma update_order_keeps_ids order_id updates :
  updates !! "order_id" = None ->
  forall d, Seq d -> Seq (snd (update_order order_id updates d)).
Proof.
  intros Hu d Hd. unfold store_ids_sequential in *. rewrite update_order_orders.
  destruct (find_order (_orders d) order_id 0) as [[i|]|]; try exact Hd.
  apply alter_keeps_ids; [|exact Hd].
  intros o. unfold update. now rewrite lookup_union_r.
Qed.

Lemma create_order_keeps_ids order_data now :
  order_data !! "order_id" = None ->
  forall d, Seq d -> Seq (snd (create_order order_data now d)).
Proof.
  intros Hdata d Hd. unfold store_ids_sequential in *. rewrite create_order_run. cbn.
  apply ids_sequential_app; [exact Hd|].
  unfold update. rewrite lookup_union_r by exact Hdata. reflexivity.
Qed.

Lemma modify_alter_keeps_ids (f : pydict -> pydict) i :
  (forall o, f o !! "order_id" = o !! "order_id") ->
  forall d, Seq d -> Seq (snd (modify (with_orders (alter f i)) d)).
Proof.
  intros Hf d Hd. unfold store_ids_sequential in *. cbn.
  apply alter_keeps_ids; assumption.
Qed.

Ltac ids_side := idtac;
  lazymatch goal with
  | |- forall d, _ -> _ (snd (create_order _ _ d)) =>
      apply create_order_keeps_ids; vm_compute; reflexivity
  | |- forall d, _ -> _ (snd (update_order _ _ d)) =>
      apply update_order_keeps_ids; vm_compute; reflexivity
  | |- forall d, _ -> _ (snd (modify (with_orders (alter _ _)) d)) =>
      apply modify_alter_keeps_ids; intros ?;
      rewrite !lookup_insert_ne by discriminate; reflexivity
  | |- forall d, _ -> _ (snd (_ d)) =>
      apply untouched_keeps_ids; solve [ auto with untouched ]
  end.

Context (cfg : Config) (expiry : pyval -> string -> result string).

Lemma step_keeps_ids i now : preserves (on_store Seq) (step cfg expiry i now).
Proof.
  destruct i; cbn [step]; unfold_handlers; try (destruct c; cbn [timer_step_run]);
    keep ids_side.
Qed.

(** X7: the ids of the orders stay in sequence. In every run of the bot
    that starts from orders that carry the ids [create_order] gave them (from
    no orders, for one), the order at position [j] carries the id made of
    ["FBP"] and [j + 1], so no two orders share an id, and [get_order] on that
    id finds that order. *)
Theorem order_ids_are_sequential (inputs : list (input * string)) (w : World) :
  ids_sequential (_orders (store w)) ->
  let w' := run cfg expiry inputs w in
  ids_sequential (_orders (store w')) /\
  (forall j1 j2 o1 o2,
     _orders (store w') !! j1 = Some o1 -> _orders (store w') !! j2 = Some o2 ->
     o1 !! "order_id" = o2 !! "order_id" -> j1 = j2) /\
  (forall j, (j < length (_orders (store w')))%nat ->
     fst (get_order (order_id_at j) (store w')) = Ok (Some j)).
Proof.
  intros Hw w'.
  assert (ids_sequential (_orders (store w'))) as Hw'.
  { exact (run_keeps (on_store Seq) cfg expiry step_keeps_ids inputs w Hw). }
  split; [exact Hw'|]. split.
  - intros j1 j2 o1 o2 H1 H2. rewrite (Hw' j1 o1 H1), (Hw' j2 o2 H2).
    intros Heq. apply order_id_at_inj. congruence.
  - intros j Hj. rewrite get_order_find. apply find_order_ids; assumption.
Qed.

End SequentialIds.

(** X7 for the run in which user 555 places the order FBP000001. *)
Lemma order_ids_are_sequential_in_scenario :
  ids_sequential (_orders (store world0)) /\
  let w' := scenario_run
              [ (start 999 None, "2026-11-03T10:00:00");
                (start 555 (Some 999), "2026-11-03T10:02:00");
                (buy_direct 555 (VStr "buyer") "youtube" "1 Month" 149%float,
                 "2026-11-03T10:03:00") ] world0 in
  ids_sequential (_orders (store w')) /\
  (forall j1 j2 o1 o2,
     _orders (store w') !! j1 = Some o1 -> _orders (store w') !! j2 = Some o2 ->
     o1 !! "order_id" = o2 !! "order_id" -> j1 = j2) /\
  (forall j, (j < length (_orders (store w')))%nat ->
     fst (get_order (order_id_at j) (store w')) = Ok (Some j)).
Proof.
  assert (ids_sequential (_orders (store world0))) as H by (intros i o Ho; discriminate Ho).
  split; [exact H|].
  apply (order_ids_are_sequential scenario_config scenario_expiry
           [ (start 999 None, "2026-11-03T10:00:00");
             (start 555 (Some 999), "2026-11-03T10:02:00");
             (buy_direct 555 (VStr "buyer") "youtube" "1 Month" 149%float,
              "2026-11-03T10:03:00") ] world0 H).
Defined.

(** *** The fields of an order that are written once *)

Section OrderFields.

Context (j : nat) (key : string) (v : pyval).

Abbreviation F := (field_is j key v).

Lemma untouched_keeps_field {A} (m : M Database A) :
  orders_untouched m -> forall d, F d -> F (snd (m d)).
Proof. intros Hm d Hd. unfold field_is, order_field in *. now rewrite Hm. Qed.

Lemma update_order_keeps_field order_id updates :
  updates !! key = None -> forall d, F d -> F (snd (update_order order_id updates d)).
Proof.
  intros Hk d Hd. unfold field_is, order_field in *. rewrite update_order_orders.
  destruct (find_order (_orders d) order_id 0) as [[i|]|]; try exact Hd.
  destruct (decide (i = j)) as [->|Hne].
  - rewrite list_lookup_alter_eq.
    destruct (_orders d !! j) as [o|]; [|discriminate]. cbn in *.
    unfold update. rewrite lookup_union_r; assumption.
  - now rewrite list_lookup_alter_ne.
Qed.

Lemma create_order_keeps_field order_data now :
  forall d, F d -> F (snd (create_order order_data now d)).
Proof.
  intros d Hd. unfold field_is, order_field in *. cbn.
  destruct (_orders d !! j) as [o|] eqn:Ho; [|discriminate].
  now rewrite (lookup_app_l_Some _ _ _ _ Ho).
Qed.

Lemma modify_alter_keeps_field (f : pydict -> pydict) i :
  (forall o, f o !! key = o !! key) ->
  forall d, F d -> F (snd (modify (with_orders (alter f i)) d)).
Proof.
  intros Hf d Hd. unfold field_is, order_field in *. cbn.
  destruct (decide (i = j)) as [->|Hne].
  - rewrite list_lookup_alter_eq.
    destruct (_orders d !! j) as [o|]; [|discriminate]. cbn in *. now rewrite Hf.
  - now rewrite list_lookup_alter_ne.
Qed.

Hypothesis Hkey : key ∉ written_fields.

Lemma key_not_written :
  key <> "status" /\ key <> "payment_screenshot" /\ key <> "user_details" /\
  key <> "user_email" /\ key <> "activated_at" /\ key <> "subscription_expiry" /\
  key <> "referrer_id" /\ key <> "commission_paid".
Proof using Hkey.
  unfold written_fields in Hkey. rewrite !not_elem_of_cons in Hkey. tauto.
Qed.

Ltac not_written :=
  let H := fresh in
  pose proof key_not_written as H;
  destruct H as (? & ? & ? & ? & ? & ? & ? & ?);
  cbn; rewrite ?lookup_insert_ne by congruence;
  first [ apply lookup_empty | apply lookup_singleton_ne; congruence | reflexivity ].

Ltac field_side := idtac;
  lazymatch goal with
  | |- forall d, _ -> _ (snd (create_order _ _ d)) => apply create_order_keeps_field
  | |- forall d, _ -> _ (snd (update_order _ _ d)) =>
      apply update_order_keeps_field; not_written
  | |- forall d, _ -> _ (snd (modify (with_orders (alter _ _)) d)) =>
      apply modify_alter_keeps_field; intros ?; not_written
  | |- forall d, _ -> _ (snd (_ d)) =>
      apply untouched_keeps_field; solve [ auto with untouched ]
  end.

Context (cfg : Config) (expiry : pyval -> string -> result string).

Lemma step_keeps_field i now : preserves (on_store F) (step cfg expiry i now).
Proof using Hkey.
  destruct i; cbn [step]; unfold_handlers; try (destruct c; cbn [timer_step_run]);
    keep field_side.
Qed.

End OrderFields.

(** X8: an order is never removed, and what it says of the purchase is
    never rewritten. Through every run of the bot, a field of a stored order
    other than the status, the screenshot, the details, the e-mail address,
    the activation date, the expiry and the two commission fields keeps its
    value: the id, the buyer, the service, the plan, the amount and the
    creation date stay what [create_order] stored. *)
Theorem order_fields_are_kept (cfg : Config) (expiry : pyval -> string -> result string)
    (inputs : list (input * string)) (w : World) (j : nat) (key : string) (v : pyval) :
  key ∉ written_fields ->
  order_field (store w) j key = Some v ->
  order_field (store (run cfg expiry inputs w)) j key = Some v.
Proof.
  intros Hkey Hw.
  exact (run_keeps (on_store (field_is j key v)) cfg expiry
           (step_keeps_field j key v Hkey cfg expiry) inputs w Hw).
Qed.

(** X8 for the amount of the order FBP000001, through the upload of the
    screenshot, a rejection and a cancellation. *)
Lemma order_amount_is_kept_in_scenario :
  (("amount" ∉ written_fields) /\
   order_field (store order_placed) 0 "amount" = Some (VFloat 149%float)) /\
  order_field
    (store (scenario_run
              [ (upload_proof 555 "FBP000001", "2026-11-03T10:04:00");
                (photo 555 (VStr "buyer") "file-1", "2026-11-03T10:04:30");
                (reject 1 "FBP000001", "2026-11-03T10:05:00");
                (cancel 555 "FBP000001", "2026-11-03T10:06:00") ]
              order_placed))
    0 "amount" = Some (VFloat 149%float).
Proof.
  assert ("amount" ∉ written_fields) as Hk.
  { unfold written_fields. rewrite !not_elem_of_cons.
    repeat split; try discriminate. apply not_elem_of_nil. }
  assert (order_field (store order_placed) 0 "amount" = Some (VFloat 149%float)) as Ha
    by (vm_compute; reflexivity).
  split; [split; assumption|].
  apply (order_fields_are_kept scenario_config scenario_expiry
           [ (upload_proof 555 "FBP000001", "2026-11-03T10:04:00");
             (photo 555 (VStr "buyer") "file-1", "2026-11-03T10:04:30");
             (reject 1 "FBP000001", "2026-11-03T10:05:00");
             (cancel 555 "FBP000001", "2026-11-03T10:06:00") ]
           order_placed 0 "amount" (VFloat 149%float) Hk Ha).
Defined.

(** *** Who approves an order *)

Section Approval.

Context (j : nat).







Context (cfg : Config) (expiry : pyval -> string -> result string).









End Approval.



(** *** Nobody refers themselves *)

Section SelfReferral.

Context (u : Z).

Abbreviation N := (not_own_referrer u).

Lemma users_same_keeps {A} (m : M Database A) :
  (forall d, _users (snd (m d)) = _users d) -> forall d, N d -> N (snd (m d)).
Proof.
  intros Hm d Hd. unfold not_own_referrer, referrer_of, user_field in *. now rewrite Hm.
Qed.

Lemma update_order_users order_id updates d :
  _users (snd (update_order order_id updates d)) = _users d.
Proof.
  unfold update_order, bind, gets, lift.
  destruct (find_order (_orders d) order_id 0) as [[i|]|]; reflexivity.
Qed.

Lemma order_item_users i key d : _users (snd (order_item i key d)) = _users d.
Proof. now rewrite order_item_read. Qed.

Lemma get_user_keeps user_id now : forall d, N d -> N (snd (get_user user_id now d)).
Proof.
  intros d Hd. unfold get_user, bind, gets.
  destruct (_users d !! user_id) as [r|] eqn:Hr; [exact Hd|].
  unfold not_own_referrer, referrer_of, user_field in *. cbn.
  destruct (decide (user_id = u)) as [->|Hne].
  - rewrite lookup_insert_eq. cbn. vm_compute. discriminate.
  - now rewrite lookup_insert_ne.
Qed.

Lemma update_user_keeps user_id updates :
  updates !! "referred_by" = None ->
  forall d, N d -> N (snd (update_user user_id updates d)).
Proof.
  intros Hu d Hd. unfold update_user, bind, gets.
  destruct (_users d !! user_id) as [r|] eqn:Hr; [|exact Hd].
  unfold not_own_referrer, referrer_of, user_field in *. cbn.
  destruct (decide (user_id = u)) as [->|Hne].
  - rewrite lookup_insert_eq. cbn. rewrite Hr in Hd. cbn in Hd.
    unfold update. now rewrite lookup_union_r.
  - now rewrite lookup_insert_ne.
Qed.

Lemma update_field_keeps user_id field f :
  field <> "referred_by" -> forall d, N d -> N (snd (update_field user_id field f d)).
Proof.
  intros Hf d Hd. unfold update_field, bind, gets, lift, raise.
  destruct (_users d !! user_id) as [r|] eqn:Hr; [|exact Hd].
  destruct (getitem r field) as [v|]; [|exact Hd].
  destruct (f v) as [v'|]; [|exact Hd].
  unfold not_own_referrer, referrer_of, user_field in *. cbn.
  destruct (decide (user_id = u)) as [->|Hne].
  - rewrite lookup_insert_eq. cbn. rewrite Hr in Hd. cbn in Hd.
    now rewrite lookup_insert_ne by congruence.
  - now rewrite lookup_insert_ne.
Qed.

Lemma set_referrer_keeps user_id referrer_id :
  referrer_id <> user_id ->
  forall d, N d -> N (snd (set_referrer user_id referrer_id d)).
Proof.
  intros Hne d Hd. unfold set_referrer, bind, gets, lift.
  destruct (_users d !! user_id) as [r|] eqn:Hr; [|exact Hd].
  destruct (getitem r "referred_by") as [v|]; [|exact Hd].
  destruct (negb (truthy v)); [|exact Hd].
  unfold not_own_referrer, referrer_of, user_field in *. cbn.
  destruct (decide (user_id = u)) as [->|Hne'].
  - rewrite lookup_insert_eq. cbn. rewrite lookup_insert_eq. congruence.
  - now rewrite lookup_insert_ne.
Qed.

Lemma db_bind_keeps {A B} (m : M Database A) (k : A -> M Database B) :
  (forall d, N d -> N (snd (m d))) -> (forall a d, N d -> N (snd (k a d))) ->
  forall d, N d -> N (snd (bind m k d)).
Proof.
  intros Hm Hk d Hd. unfold bind. specialize (Hm d Hd).
  destruct (m d) as [[a|e] d']; [apply Hk, Hm|exact Hm].
Qed.

Lemma add_coins_keeps user_id amount :
  forall d, N d -> N (snd (add_coins user_id amount d)).
Proof.
  unfold add_coins. apply db_bind_keeps; [auto|]. intros users.
  destruct (users !! user_id); [|auto].
  repeat (apply db_bind_keeps;
          [ first [ apply update_field_keeps; discriminate | intros ? H; exact H ]
          | intros ? ]).
  auto.
Qed.

Lemma increment_referral_count_keeps user_id :
  forall d, N d -> N (snd (increment_referral_count user_id d)).
Proof.
  unfold increment_referral_count. apply db_bind_keeps; [auto|]. intros users.
  destruct (users !! user_id); [|auto].
  repeat (apply db_bind_keeps;
          [ first [ apply update_field_keeps; discriminate | intros ? H; exact H ]
          | intros ? ]).
  auto.
Qed.

Lemma add_purchase_to_user_keeps user_id order_id amount now :
  forall d, N d -> N (snd (add_purchase_to_user user_id order_id amount now d)).
Proof.
  unfold add_purchase_to_user. apply db_bind_keeps; [auto|]. intros users.
  destruct (users !! user_id); [|auto].
  repeat (apply db_bind_keeps;
          [ first [ apply update_field_keeps; discriminate | intros ? H; exact H ]
          | intros ? ]).
  auto.
Qed.

Ltac referral_side := idtac;
  lazymatch goal with
  | |- forall d, _ -> _ (snd (get_user _ _ d)) => apply get_user_keeps
  | |- forall d, _ -> _ (snd (update_user _ _ d)) =>
      apply update_user_keeps; vm_compute; reflexivity
  | |- forall d, _ -> _ (snd (set_referrer _ _ d)) =>
      apply set_referrer_keeps; assumption
  | |- forall d, _ -> _ (snd (add_coins _ _ d)) => apply add_coins_keeps
  | |- forall d, _ -> _ (snd (increment_referral_count _ d)) =>
      apply increment_referral_count_keeps
  | |- forall d, _ -> _ (snd (add_purchase_to_user _ _ _ _ d)) =>
      apply add_purchase_to_user_keeps
  | |- forall d, _ -> _ (snd (update_order _ _ d)) =>
      apply users_same_keeps, update_order_users
  | |- forall d, _ -> _ (snd (order_item _ _ d)) =>
      apply users_same_keeps, order_item_users
  | |- forall d, _ -> _ (snd (_ d)) =>
      apply users_same_keeps; intros ?; reflexivity
  end.

Context (cfg : Config) (expiry : pyval -> string -> result string).

Lemma cmd_start_keeps from_user referrer now :
  preserves (on_store N) (cmd_start from_user referrer now).
Proof.
  unfold cmd_start.
  apply preserves_bind; [|intros ?; keep referral_side].
  destruct referrer as [referrer_id|]; [|apply preserves_ret].
  destruct (bool_decide (referrer_id = from_user)) eqn:Hr; cbn [negb];
    [apply preserves_ret|].
  apply bool_decide_eq_false in Hr.
  keep referral_side.
Qed.

Lemma step_keeps_not_own_referrer i now :
  preserves (on_store N) (step cfg expiry i now).
Proof.
  destruct i; cbn [step]; [apply cmd_start_keeps|..];
    unfold_handlers; try (destruct c; cbn [timer_step_run]);
    keep referral_side.
Qed.

End SelfReferral.

(** X10: no self-referrals. In no run of the bot does a user become their
    own referrer: [/start] with one's own referral link is ignored, and
    nothing else writes the referrer. *)
Theorem nobody_refers_themselves (cfg : Config)
    (expiry : pyval -> string -> result string) (u : Z)
    (inputs : list (input * string)) (w : World) :
  referrer_of (store w) u <> Some (VInt u) ->
  referrer_of (store (run cfg expiry inputs w)) u <> Some (VInt u).
Proof.
  intros Hw.
  exact (run_keeps (on_store (not_own_referrer u)) cfg expiry
           (step_keeps_not_own_referrer u cfg expiry) inputs w Hw).
Qed.

(** X10 for user 555, who starts the bot and then follows their own
    link. *)
Lemma nobody_refers_themselves_by_start :
  referrer_of (store world0) 555 <> Some (VInt 555) /\
  referrer_of
    (store (scenario_run [ (start 555 None, "2026-11-03T10:00:00");
                           (start 555 (Some 555), "2026-11-03T10:01:00") ] world0))
    555 <> Some (VInt 555).
Proof.
  assert (referrer_of (store world0) 555 <> Some (VInt 555)) as H by discriminate.
  split; [exact H|].
  apply (nobody_refers_themselves scenario_config scenario_expiry 555
           [ (start 555 None, "2026-11-03T10:00:00");
             (start 555 (Some 555), "2026-11-03T10:01:00") ] world0 H).
Defined.

(** ** The time at which an order expires *)

Section TimerFormula.

(** X11: when the timer expires an order. With a timeout of [T] minutes the
    last check of [start_payment_timer] comes 60 seconds after the start for
    [T <= 1], [60 T] seconds for [T] of 2 or 3, [120 T - 180] for 4 or 5 and
    [180 T - 480] from 6 on: the order expires at the configured timeout
    exactly when that is 1, 2 or 3 minutes. *)
Theorem expiry_time_formula (cfg : Config) :
  let T := PAYMENT_TIMEOUT_MINUTES cfg in
  expiry_time cfg
  = Some (if T <=? 1 then 60
          else if T <=? 3 then 60 * T
          else if T <=? 5 then 120 * T - 180
          else 180 * T - 480) /\
  (expiry_time cfg = Some (60 * T) <-> 1 <= T <= 3).
Proof.
  intros T.
  assert (expiry_time cfg
          = Some (if T <=? 1 then 60
                  else if T <=? 3 then 60 * T
                  else if T <=? 5 then 120 * T - 180
                  else 180 * T - 480)) as H.
  { unfold expiry_time, start_payment_timer, warnings. fold T. cbn [flat_map].
    destruct (0 <? T * 60 - 300) eqn:H1; destruct (0 <? T * 60 - 180) eqn:H2;
      destruct (0 <? T * 60 - 60) eqn:H3;
      destruct (T <=? 1) eqn:E1; destruct (T <=? 3) eqn:E3; destruct (T <=? 5) eqn:E5;
      try lia; cbn; f_equal; lia. }
  split; [exact H|]. rewrite H.
  destruct (T <=? 1) eqn:E1; destruct (T <=? 3) eqn:E3; destruct (T <=? 5) eqn:E5;
    split; intros H'; try injection H' as H'; try lia; f_equal; lia.
Qed.

End TimerFormula.

(** ** The settings *)

Section Settings.

Import settings.

Lemma merge_setting_lookup k v s k' :
  merge_setting k v s !! k'
  = if decide (k' = k) then Some (merged v (s !! k)) else s !! k'.
Proof.
  unfold merge_setting, merged.
  destruct (decide (k' = k)) as [->|Hne].
  - destruct v; try apply lookup_insert_eq.
    destruct (s !! k) as [[]|]; apply lookup_insert_eq.
  - destruct v; try (apply lookup_insert_ne; congruence).
    destruct (s !! k) as [[]|]; apply lookup_insert_ne; congruence.
Qed.

(** The loop of [update_settings], whatever the order of its items. *)
Lemma map_fold_merge_setting_lookup (updates s : pydict) k :
  map_fold merge_setting s updates !! k
  = match updates !! k with
    | Some v => Some (merged v (s !! k))
    | None => s !! k
    end.
Proof.
  revert k.
  apply (map_fold_weak_ind
           (fun r (u : pydict) => forall k, r !! k = match u !! k with
                                          | Some v => Some (merged v (s !! k))
                                          | None => s !! k
                                          end)).
  - intros k. now rewrite lookup_empty.
  - intros i x u r Hi IH k. rewrite merge_setting_lookup.
    destruct (decide (k = i)) as [->|Hne].
    + rewrite lookup_insert_eq. rewrite IH, Hi. reflexivity.
    + rewrite lookup_insert_ne by congruence. apply IH.
Qed.

(** X12: [update_settings] merges one level deep. A key the updates do not
    name keeps its value; a dict given for a key that holds a dict is merged
    into it, its keys winning and the other keys of the section staying;
    anything else replaces what the key held. The catalog is not touched, and
    the settings file holds the new settings when the write succeeds. *)
Theorem update_settings_merges (updates : pydict) (io_settings : io)
    (m : SettingsManager) (k : Disk) :
  let '(m', k') := update_settings updates io_settings (m, k) in
  (forall key,
     get_settings m' !! key
     = match updates !! key with
       | Some (VDict dv) =>
           match get_settings m !! key with
           | Some (VDict ds) => Some (VDict (dv ∪ ds))
           | _ => Some (VDict dv)
           end
       | Some v => Some v
       | None => get_settings m !! key
       end) /\
  _services m' = _services m /\
  services_file k' = services_file k /\
  settings_file k'
  = match io_settings with
    | IoOk => Stored (get_settings m')
    | IoErrorBeforeOpen => settings_file k
    | IoErrorAfterOpen => Unreadable
    end.
Proof.
  assert (forall key,
            map_fold merge_setting (_settings m) updates !! key
            = match updates !! key with
              | Some (VDict dv) =>
                  match get_settings m !! key with
                  | Some (VDict ds) => Some (VDict (dv ∪ ds))
                  | _ => Some (VDict dv)
                  end
              | Some v => Some v
              | None => get_settings m !! key
              end) as H.
  { intros key. rewrite map_fold_merge_setting_lookup.
    destruct (updates !! key) as [v|]; [|reflexivity].
    unfold merged, update, get_settings. destruct v; try reflexivity.
    destruct (_settings m !! key) as [[]|]; reflexivity. }
  unfold update_settings.
  destruct io_settings; cbn; repeat split; exact H.
Qed.

(** The settings after one section was updated. *)
Lemma update_section_settings section u io_settings m k :
  _settings (fst (update_settings {[ section := VDict u ]} io_settings (m, k)))
  = <[section := VDict match _settings m !! section with
                       | Some (VDict ds) => u ∪ ds
                       | _ => u
                       end]> (_settings m).
Proof.
  unfold update_settings. rewrite map_fold_singleton.
  destruct io_settings; cbn; unfold merge_setting, update;
    destruct (_settings m !! section) as [[]|]; reflexivity.
Qed.

(** A key of an updated section. *)
Lemma section_get_updated section u io_settings m k key dflt :
  section_get
    (_settings (fst (update_settings {[ section := VDict u ]} io_settings (m, k))))
    section key dflt
  = Ok match u !! key with
       | Some v => v
       | None =>
           match section_get (_settings m) section key dflt with
           | Ok v => v
           | Raise _ => dflt
           end
       end.
Proof.
  rewrite update_section_settings. unfold section_get, get_default.
  rewrite lookup_insert_eq. cbn.
  destruct (_settings m !! section) as [[]|]; cbn; try reflexivity.
  rewrite lookup_union. destruct (u !! key), (d !! key); reflexivity.
Qed.

Lemma assoc_update_entry service_id updates services id' :
  assoc id' (update_entry service_id updates services)
  = if String.eqb id' service_id
    then (fun service => update service updates) <$> assoc service_id services
    else assoc id' services.
Proof.
  induction services as [|[k service] rest IH]; cbn.
  - now destruct (String.eqb id' service_id).
  - destruct (String.eqb k service_id) eqn:E1; cbn;
      destruct (String.eqb id' service_id) eqn:E2;
      destruct (String.eqb k id') eqn:E3; cbn;
      rewrite ?String.eqb_eq, ?String.eqb_neq in *; subst;
      rewrite ?String.eqb_refl in *; try congruence; try reflexivity.
Qed.

(** X13: [update_service] updates one service. For an id the catalog does
    not have it returns [False] and touches neither the catalog nor the disk;
    for an id it has it returns [True], merges the updates into that service,
    leaves every other service and the settings as they were, and the
    services file holds the new catalog when the write succeeds. *)
Theorem update_service_updates_one (service_id : string) (updates : pydict)
    (io_services : io) (m : SettingsManager) (k : Disk) :
  let '(r, (m', k')) := update_service service_id updates io_services (m, k) in
  match get_service m service_id with
  | None => r = false /\ m' = m /\ k' = k
  | Some service =>
      r = true /\
      get_service m' service_id = Some (updates ∪ service) /\
      (forall id', id' <> service_id -> get_service m' id' = get_service m id') /\
      _settings m' = _settings m /\
      settings_file k' = settings_file k /\
      services_file k'
      = match io_services with
        | IoOk => Stored (_services m')
        | IoErrorBeforeOpen => services_file k
        | IoErrorAfterOpen => Unreadable
        end
  end.
Proof.
  unfold update_service, get_service.
  destruct (assoc service_id (_services m)) as [service|] eqn:Hs; [|auto].
  destruct io_services; cbn; (repeat split;
    [ rewrite assoc_update_entry, String.eqb_refl, Hs; reflexivity
    | intros id' Hne; rewrite assoc_update_entry;
      destruct (String.eqb_spec id' service_id); [contradiction|reflexivity] ]).
Qed.


End Settings.

(** ** The payment switch *)

Section Switch.

Import settings admin_system.

(** X15: the payment switch, for whoever presses it. After
    [confirm_disable] payments are disabled and after [enable_system] they are
    enabled, whatever the settings held and whoever the user is; after
    [set_message] the maintenance message is the text sent. Switching keeps
    the message and setting the message keeps the switch (the default taking
    the place of a section that could not be read). *)
Theorem payment_switch (from_user : Z) (reason now msg : string) (io_settings : io)
    (m : SettingsManager) (k : Disk) :
  let m_off := fst (confirm_disable from_user reason now io_settings (m, k)) in
  let m_on := fst (enable_system io_settings (m, k)) in
  let m_msg := fst (snd (set_message (Some msg) io_settings (m, k))) in
  let kept (r : result pyval) (dflt : pyval) :=
    Ok match r with Ok v => v | Raise _ => dflt end in
  is_payment_enabled m_off = Ok (VBool false) /\
  is_payment_enabled m_on = Ok (VBool true) /\
  get_disabled_message m_msg = Ok (VStr msg) /\
  get_disabled_message m_off = kept (get_disabled_message m) (VStr "System Maintenance") /\
  get_disabled_message m_on = kept (get_disabled_message m) (VStr "System Maintenance") /\
  is_payment_enabled m_msg = kept (is_payment_enabled m) (VBool true).
Proof.
  cbn zeta. unfold is_payment_enabled, get_disabled_message, confirm_disable,
    enable_system, set_message, modify. cbn [fst snd].
  rewrite !section_get_updated.
  repeat split; reflexivity.
Qed.

(** A handler under another manager. *)
Section Sim.

Context (m0 m' : SettingsManager).
Hypothesis Hs : _services m' = _services m0.
Hypothesis Hq : get_qr_settings m' = get_qr_settings m0.

Lemma sim_ret {A} (a : A) : sim m0 m' (ret a).
Proof. intros w Hw. split; [reflexivity|exact Hw]. Qed.

Lemma sim_raise {A} e : sim m0 m' (@raise World A e).
Proof. intros w Hw. split; [reflexivity|exact Hw]. Qed.

Lemma sim_lift {A} (r : result A) : sim m0 m' (lift r).
Proof. intros w Hw. split; [reflexivity|exact Hw]. Qed.

Lemma sim_bind {A B} (m : M World A) (k : A -> M World B) :
  sim m0 m' m -> (forall a, sim m0 m' (k a)) -> sim m0 m' (bind m k).
Proof.
  intros Hm Hk w Hw. destruct (Hm w Hw) as [H1 H2]. unfold bind. rewrite H1.
  destruct (m w) as [[a|e] w1]; cbn in *; [|split; [reflexivity|exact H2]].
  exact (Hk a w1 H2).
Qed.

Lemma sim_emit e : sim m0 m' (emit e).
Proof. intros w Hw. split; [reflexivity|exact Hw]. Qed.

Lemma sim_modify_timers f : sim m0 m' (modify (with_timers f)).
Proof. intros w Hw. split; [reflexivity|exact Hw]. Qed.

Lemma sim_on_db {A} (m : M Database A) : sim m0 m' (on_db m).
Proof.
  intros w Hw. unfold on_db, zoom. cbn [store with_manager].
  destruct (m (store w)) as [r d']. split; [reflexivity|exact Hw].
Qed.

Lemma sim_gets_service service_id :
  sim m0 m' (gets (fun w => get_service (manager w) service_id)).
Proof using Hs.
  intros w Hw. split; [|exact Hw]. unfold gets, get_service. cbn. now rewrite Hw, Hs.
Qed.

Lemma sim_gets_qr_settings : sim m0 m' (gets (fun w => get_qr_settings (manager w))).
Proof using Hq.
  intros w Hw. split; [|exact Hw]. unfold gets. cbn. now rewrite Hw, Hq.
Qed.

Ltac sim_step :=
  lazymatch goal with
  | |- sim _ _ (bind _ _) => apply sim_bind; [|intros ?]
  | |- sim _ _ (ret _) => apply sim_ret
  | |- sim _ _ (raise _) => apply sim_raise
  | |- sim _ _ (lift _) => apply sim_lift
  | |- sim _ _ (emit _) => apply sim_emit
  | |- sim _ _ (on_db _) => apply sim_on_db
  | |- sim _ _ (modify (with_timers _)) => apply sim_modify_timers
  | |- sim _ _ (gets (fun w => get_service (manager w) _)) => apply sim_gets_service
  | |- sim _ _ (gets (fun w => get_qr_settings (manager w))) =>
      apply sim_gets_qr_settings
  | |- sim _ _ (match ?x with _ => _ end) => destruct x
  end.

(** A direct purchase reads the catalog and the QR settings, nothing else of
    the manager. *)
Lemma initiate_direct_payment_sim from_user username service_id plan_duration
    price now :
  sim m0 m'
    (initiate_direct_payment from_user username service_id plan_duration price now).
Proof using Hs Hq.
  unfold initiate_direct_payment, _create_payment_order, select_qr.
  repeat sim_step.
Qed.

End Sim.

(** X16: a direct purchase bypasses the payment switch. With payments
    disabled by [confirm_disable], [initiate_direct_payment] returns what it
    returns and does to the store, the outbox, the FSM and the timers what it
    does with the settings as they were before: the order is created all the
    same. *)
Theorem direct_purchase_ignores_the_switch (admin : Z) (reason since : string)
    (io_settings : io) (k : Disk)
    (from_user : Z) (username : pyval) (service_id plan_duration : string)
    (price : float) (now : string) (w : World) :
  let m_off := fst (confirm_disable admin reason since io_settings (manager w, k)) in
  is_payment_enabled m_off = Ok (VBool false) /\
  initiate_direct_payment from_user username service_id plan_duration price now
    (with_manager m_off w)
  = let '(r, w') := initiate_direct_payment from_user username service_id
                      plan_duration price now w in
    (r, with_manager m_off w').
Proof.
  cbn zeta. split.
  - unfold is_payment_enabled, confirm_disable. rewrite section_get_updated. reflexivity.
  - match goal with |- initiate_direct_payment _ _ _ _ _ _ (with_manager ?m _) = _ =>
      destruct (initiate_direct_payment_sim (manager w) m) with
        (from_user := from_user) (username := username) (service_id := service_id)
        (plan_duration := plan_duration) (price := price) (now := now) (w := w)
        as [H _]
    end.
    + unfold confirm_disable, update_settings. now destruct io_settings.
    + unfold get_qr_settings, get_default, confirm_disable.
      rewrite update_section_settings. now rewrite lookup_insert_ne.
    + reflexivity.
    + rewrite H. now destruct (initiate_direct_payment _ _ _ _ _ _ w).
Qed.

End Switch.

(** ** The QR codes *)

Section DefaultQr.

Import settings admin_qr.

(** X17: [receive_qr] never saves a QR code. It awaits the value of
    [is_payment_enabled], which is no awaitable, so it raises [TypeError]
    (or the error of [is_payment_enabled] itself) before it reaches
    [update_settings]: the settings and the disk stay as they were. *)
Theorem receive_qr_never_saves (from_user : Z) (file_id now : string) (io_settings : io)
    (st : SettingsManager * Disk) :
  receive_qr from_user file_id now io_settings st
  = (match is_payment_enabled (fst st) with
     | Ok _ => Raise TypeError
     | Raise e => Raise e
     end, st).
Proof.
  unfold receive_qr, bind, lift, await.
  destruct (is_payment_enabled (fst st)); reflexivity.
Qed.

End DefaultQr.

Section QrCache.

Import settings qr.

Context {image : Type} (qr_png : string -> image) (format_amount : float -> string).


Lemma length_assign key value (c : cache (image := image)) :
  length (assign key value c)
  = match assoc key c with Some _ => length c | None => S (length c) end.
Proof.
  induction c as [|[k v] rest IH]; cbn; [reflexivity|].
  destruct (String.eqb k key) eqn:E; cbn; [reflexivity|].
  rewrite IH. now destruct (assoc key rest).
Qed.

Lemma assoc_tail key (c : cache (image := image)) :
  assoc key c = None -> assoc key (tail c) = None.
Proof.
  destruct c as [|[k v] rest]; cbn; [auto|]. now destruct (String.eqb k key).
Qed.

(** A key that is cached: the picture is the cached one. *)
Lemma generate_hit upi_id name amount order_id c img :
  assoc (upi_id +:+ "_" +:+ format_amount amount) c = Some img ->
  generate_upi_qr_async qr_png format_amount upi_id name amount order_id c
  = (Ok (mkBufferedInputFile img ("payment_qr_" +:+ order_id +:+ ".png")), c).
Proof.
  intros H. unfold generate_upi_qr_async, bind, gets, ret. now rewrite H.
Qed.

(** A key that is not cached: the picture is drawn and cached. *)
Lemma generate_miss upi_id name amount order_id c :
  assoc (upi_id +:+ "_" +:+ format_amount amount) c = None ->
  generate_upi_qr_async qr_png format_amount upi_id name amount order_id c
  = (Ok (mkBufferedInputFile
           (_generate_qr_sync qr_png format_amount upi_id name amount order_id)
           ("payment_qr_" +:+ order_id +:+ ".png")),
     assign (upi_id +:+ "_" +:+ format_amount amount)
            (_generate_qr_sync qr_png format_amount upi_id name amount order_id)
            (if (100 <? length c)%nat then tail c else c)).
Proof.
  intros H. unfold generate_upi_qr_async, bind, gets, ret, modify. now rewrite H.
Qed.


Lemma generate_length upi_id name amount order_id (c : cache (image := image)) :
  (length c <= 101)%nat ->
  (length (snd (generate_upi_qr_async qr_png format_amount upi_id name amount order_id c))
   <= 101)%nat.
Proof.
  intros Hc.
  destruct (assoc (upi_id +:+ "_" +:+ format_amount amount) c) as [img|] eqn:Hk.
  - now rewrite (generate_hit _ _ _ _ _ _ Hk).
  - rewrite (generate_miss _ _ _ _ _ Hk). cbn [snd]. rewrite length_assign.
    destruct (100 <? length c)%nat eqn:E.
    + rewrite (assoc_tail _ _ Hk). destruct c; cbn in *; lia.
    + rewrite Hk. apply Nat.ltb_ge in E. lia.
Qed.

(** X19: the QR cache is bounded. Whatever QR codes are asked for, one
    after the other from an empty cache, the cache never holds more than 101
    pictures. *)
Theorem qr_cache_is_bounded (args : list (string * string * float * string)) :
  (length (calls qr_png format_amount args []) <= 101)%nat.
Proof.
  assert (forall c : cache (image := image), (length c <= 101)%nat ->
            (length (calls qr_png format_amount args c) <= 101)%nat) as H.
  { induction args as [|[[[upi_id name] amount] order_id] rest IH]; intros c Hc;
      [exact Hc|].
    cbn [calls]. apply IH, generate_length, Hc. }
  apply H. cbn. lia.
Qed.

End QrCache.

(** ** The cache *)

Section Cache.

Import cache.

Context {V : Type}.
Implicit Types (c : list (string * V)) (k key : string).

Lemma item_None key c : item key c = None <-> key ∉ c.*1.
Proof.
  induction c as [|[k v] rest IH]; cbn.
  - split; [intros _; apply not_elem_of_nil|reflexivity].
  - rewrite not_elem_of_cons. destruct (String.eqb_spec k key) as [->|Hne].
    + split; [discriminate|tauto].
    + rewrite IH. split; [intros H; split; [congruence|exact H]|tauto].
Qed.

Lemma item_Some_elem key c v : item key c = Some v -> key ∈ c.*1.
Proof.
  intros H. destruct (decide (key ∈ c.*1)) as [|Hn]; [assumption|].
  apply item_None in Hn. congruence.
Qed.

Lemma item_is_Some key c : is_Some (item key c) <-> key ∈ c.*1.
Proof.
  split.
  - intros [v Hv]. eapply item_Some_elem, Hv.
  - intros H. destruct (item key c) eqn:E; [eauto|]. apply item_None in E. contradiction.
Qed.

(** Deleting a key takes its item out of the list. *)
Lemma del_Permutation key c v :
  item key c = Some v -> c ≡ₚ (key, v) :: del key c.
Proof.
  induction c as [|[k v'] rest IH]; cbn; [discriminate|].
  destruct (String.eqb_spec k key) as [->|Hne].
  - intros [= ->]. reflexivity.
  - intros H. rewrite (IH H) at 1. apply Permutation_swap.
Qed.

Lemma del_absent key c : item key c = None -> del key c = c.
Proof.
  induction c as [|[k v'] rest IH]; cbn; [reflexivity|].
  destruct (String.eqb k key); [discriminate|]. intros H. now rewrite IH.
Qed.

Lemma item_del_ne key k c : k <> key -> item k (del key c) = item k c.
Proof.
  intros Hne. induction c as [|[k' v'] rest IH]; cbn; [reflexivity|].
  destruct (String.eqb_spec k' key) as [->|Hk'].
  - destruct (String.eqb_spec key k); [congruence|reflexivity].
  - cbn. now rewrite IH.
Qed.

Lemma item_app k c c' :
  item k (c ++ c')%list = match item k c with Some v => Some v | None => item k c' end.
Proof.
  induction c as [|[k' v'] rest IH]; cbn; [reflexivity|].
  now destruct (String.eqb k' k).
Qed.

Lemma item_del_eq key c : NoDup c.*1 -> item key (del key c) = None.
Proof.
  intros Hnd. destruct (item key c) as [v|] eqn:E.
  - pose proof (del_Permutation _ _ _ E) as Hp.
    apply (fmap_Permutation fst) in Hp. rewrite Hp in Hnd. cbn in Hnd.
    apply NoDup_cons in Hnd as [Hn _]. now apply item_None.
  - now rewrite del_absent.
Qed.

Lemma setitem_present key value c :
  is_Some (item key c) -> (setitem key value c).*1 = c.*1.
Proof.
  induction c as [|[k v'] rest IH]; cbn; [intros [? ?]; discriminate|].
  destruct (String.eqb k key); cbn; [reflexivity|]. intros H. now rewrite IH.
Qed.

Lemma setitem_absent key value c :
  item key c = None -> setitem key value c = (c ++ [(key, value)])%list.
Proof.
  induction c as [|[k v'] rest IH]; cbn; [reflexivity|].
  destruct (String.eqb k key); [discriminate|]. intros H. now rewrite IH.
Qed.

Lemma item_setitem key value c k :
  item k (setitem key value c) = if String.eqb k key then Some value else item k c.
Proof.
  induction c as [|[k' v'] rest IH]; cbn.
  - rewrite String.eqb_sym. reflexivity.
  - destruct (String.eqb k' key) eqn:E1; cbn;
      destruct (String.eqb k' k) eqn:E2; destruct (String.eqb k key) eqn:E3;
      rewrite ?String.eqb_eq, ?String.eqb_neq in *; subst;
      rewrite ?String.eqb_refl in *; try congruence; try reflexivity.
Qed.

Lemma move_to_end_Permutation key c : move_to_end key c ≡ₚ c.
Proof.
  unfold move_to_end. destruct (item key c) as [v|] eqn:E; [|reflexivity].
  rewrite (del_Permutation _ _ _ E) at 2. symmetry. apply Permutation_cons_append.
Qed.

Lemma item_move_to_end key c k :
  NoDup c.*1 -> item k (move_to_end key c) = item k c.
Proof.
  intros Hnd. unfold move_to_end. destruct (item key c) as [v|] eqn:E; [|reflexivity].
  rewrite item_app. destruct (decide (k = key)) as [->|Hne].
  - rewrite item_del_eq by exact Hnd. cbn. now rewrite String.eqb_refl.
  - rewrite item_del_ne by exact Hne. destruct (item k c); [reflexivity|].
    cbn. destruct (String.eqb_spec key k); [congruence|reflexivity].
Qed.


Implicit Types (a : AsyncCache V).

(** The keys after [self._cache[key] = value]. *)
Lemma setitem_keys key value c :
  NoDup c.*1 ->
  NoDup (setitem key value c).*1 /\
  (forall k, k ∈ (setitem key value c).*1 <-> k = key \/ k ∈ c.*1) /\
  length (setitem key value c)
  = match item key c with Some _ => length c | None => S (length c) end.
Proof.
  intros Hnd. destruct (item key c) as [v|] eqn:E.
  - assert (is_Some (item key c)) as Hs by eauto.
    rewrite (setitem_present _ value _ Hs). split; [exact Hnd|]. split.
    + intros k. split; [auto|]. intros [->|H]; [eapply item_Some_elem, E|exact H].
    + rewrite <- (length_fmap fst), (setitem_present _ value _ Hs). apply length_fmap.
  - rewrite (setitem_absent _ value _ E). rewrite fmap_app. cbn. split; [|split].
    + apply NoDup_app. split; [exact Hnd|]. split; [|apply NoDup_singleton].
      intros k Hk Hk'. apply list_elem_of_singleton in Hk'. subst k.
      apply item_None in E. contradiction.
    + intros k. rewrite elem_of_app, list_elem_of_singleton. tauto.
    + rewrite length_app. cbn. lia.
Qed.

(** The two tables after the last three statements of [set]. *)
Lemma stored key value now a :
  NoDup (_cache a).*1 ->
  (forall k, is_Some (_timestamps a !! k) <-> k ∈ (_cache a).*1) ->
  let a' := with_cache (move_to_end key)
              (with_timestamps <[key := now]> (with_cache (setitem key value) a)) in
  NoDup (_cache a').*1 /\
  (forall k, is_Some (_timestamps a' !! k) <-> k ∈ (_cache a').*1) /\
  length (_cache a')
  = match item key (_cache a) with
    | Some _ => length (_cache a)
    | None => S (length (_cache a))
    end /\
  item key (_cache a') = Some value /\
  (forall k, k <> key -> item k (_cache a') = item k (_cache a)) /\
  _timestamps a' !! key = Some now.
Proof.
  intros Hnd Hts a'. subst a'. cbn.
  destruct (setitem_keys key value (_cache a) Hnd) as (Hnd' & Hel & Hlen).
  pose proof (move_to_end_Permutation key (setitem key value (_cache a))) as Hp.
  repeat split.
  - rewrite Hp. exact Hnd'.
  - rewrite Hp, Hel. destruct (decide (k = key)) as [->|Hne].
    + auto.
    + rewrite lookup_insert_ne by congruence. intros H. right. now apply Hts.
  - rewrite Hp, Hel. destruct (decide (k = key)) as [->|Hne].
    + rewrite lookup_insert_eq. eauto.
    + rewrite lookup_insert_ne by congruence. intros [?|H]; [contradiction|].
      now apply Hts.
  - rewrite Hp. exact Hlen.
  - rewrite item_move_to_end by exact Hnd'. rewrite item_setitem.
    now rewrite String.eqb_refl.
  - intros k Hne. rewrite item_move_to_end by exact Hnd'. rewrite item_setitem.
    destruct (String.eqb_spec k key); [contradiction|reflexivity].
  - apply lookup_insert_eq.
Qed.

(** The two tables after a key was deleted from both. *)
Lemma deleted key a v :
  NoDup (_cache a).*1 ->
  (forall k, is_Some (_timestamps a !! k) <-> k ∈ (_cache a).*1) ->
  item key (_cache a) = Some v ->
  let a' := with_timestamps (delete key) (with_cache (del key) a) in
  NoDup (_cache a').*1 /\
  (forall k, is_Some (_timestamps a' !! k) <-> k ∈ (_cache a').*1) /\
  S (length (_cache a')) = length (_cache a) /\
  item key (_cache a') = None /\
  (forall k, k <> key -> item k (_cache a') = item k (_cache a)).
Proof.
  intros Hnd Hts Hv a'. subst a'. cbn.
  pose proof (del_Permutation _ _ _ Hv) as Hp.
  pose proof (fmap_Permutation fst _ _ Hp) as Hpk. cbn in Hpk.
  assert (NoDup (key :: (del key (_cache a)).*1)) as Hnd' by (now rewrite <- Hpk).
  apply NoDup_cons in Hnd' as [Hnk Hnd'].
  repeat split.
  - exact Hnd'.
  - destruct (decide (k = key)) as [->|Hne].
    + rewrite lookup_delete_eq. intros [? ?]; discriminate.
    + rewrite lookup_delete_ne by congruence. intros H. apply Hts in H.
      rewrite Hpk in H. apply elem_of_cons in H as [?|H]; [contradiction|exact H].
  - intros H. destruct (decide (k = key)) as [->|Hne]; [contradiction|].
    rewrite lookup_delete_ne by congruence. apply Hts. rewrite Hpk. now right.
  - rewrite (Permutation_length Hp). reflexivity.
  - now apply item_None.
  - intros k Hne. now apply item_del_ne.
Qed.


Lemma get_well_formed key now a :
  well_formed a ->
  exists r a', get key now a = (Returned r, a') /\ well_formed a'.
Proof.
  intros (Hnd & Hts & Hmax & Hlen). unfold get.
  destruct (item key (_cache a)) as [v|] eqn:Hv.
  - assert (is_Some (_timestamps a !! key)) as [ts Hk].
    { apply Hts. eapply item_Some_elem, Hv. }
    rewrite Hk. destruct (float_gt_int (now - ts) (_ttl a)).
    + eexists _, _. split; [reflexivity|].
      destruct (deleted key a v Hnd Hts Hv) as (H1 & H2 & H3 & _).
      repeat split; cbn in *; try assumption; try apply H2. lia.
    + eexists _, _. split; [reflexivity|].
      pose proof (move_to_end_Permutation key (_cache a)) as Hp.
      repeat split; cbn; rewrite ?Hp; try assumption; apply Hts.
  - eexists _, _. split; [reflexivity|]. repeat split; cbn; try assumption; apply Hts.
Qed.

Lemma set_well_formed key value now a :
  well_formed a ->
  exists a', set key value now a = (Returned tt, a') /\ well_formed a' /\
             item key (_cache a') = Some value /\
             _timestamps a' !! key = Some now /\
             _ttl a' = _ttl a /\ _max_size a' = _max_size a.
Proof.
  intros (Hnd & Hts & Hmax & Hlen). unfold set.
  destruct (_max_size a <=? Z.of_nat (length (_cache a))) eqn:Hfull; cbn [andb].
  2:{ eexists. split; [reflexivity|].
      destruct (stored key value now a Hnd Hts) as (H1 & H2 & H3 & H4 & _ & H6).
      apply Z.leb_gt in Hfull.
      repeat split; try assumption; try apply H2.
      cbn [_cache with_cache with_timestamps _max_size] in *. rewrite H3.
      destruct (item key (_cache a)); lia. }
  destruct (bool_decide (is_Some (item key (_cache a)))) eqn:Hin; cbn [negb].
  { eexists. split; [reflexivity|].
    destruct (stored key value now a Hnd Hts) as (H1 & H2 & H3 & H4 & _ & H6).
    apply bool_decide_eq_true in Hin as [v Hv].
    repeat split; try assumption; try apply H2.
    cbn [_cache with_cache with_timestamps _max_size] in *. rewrite H3, Hv. exact Hlen. }
  apply bool_decide_eq_false in Hin. apply Z.leb_le in Hfull.
  destruct (_cache a) as [|[oldest vo] rest] eqn:Hc; [cbn in Hfull; lia|].
  assert (item oldest (_cache a) = Some vo) as Ho.
  { rewrite Hc. cbn. now rewrite String.eqb_refl. }
  rewrite <- Hc in *.
  destruct (deleted oldest a vo Hnd Hts Ho) as (D1 & D2 & D3 & D4 & D5).
  assert (is_Some (_timestamps a !! oldest)) as [ts Hk].
  { apply Hts. eapply item_Some_elem, Ho. }
  cbn [_timestamps with_cache]. rewrite Hk.
  eexists. split; [reflexivity|].
  match goal with
  | |- well_formed (with_cache _ (with_timestamps _ (with_cache _ ?b))) /\ _ =>
      destruct (stored key value now b D1 D2) as (H1 & H2 & H3 & H4 & _ & H6)
  end.
  repeat split; try assumption; try apply H2.
  cbn [_cache with_cache with_timestamps _max_size] in *. rewrite H3.
  assert (key <> oldest) as Hne.
  { intros ->. apply Hin. eauto. }
  rewrite D5 by exact Hne.
  destruct (item key (_cache a)) eqn:E; [exfalso; apply Hin; eauto|]. lia.
Qed.

Lemma invalidate_well_formed key a :
  well_formed a ->
  exists a', invalidate key a = (Returned tt, a') /\ well_formed a' /\
             item key (_cache a') = None.
Proof.
  intros (Hnd & Hts & Hmax & Hlen). unfold invalidate.
  destruct (item key (_cache a)) as [v|] eqn:Hv.
  - assert (is_Some (_timestamps a !! key)) as [ts Hk].
    { apply Hts. eapply item_Some_elem, Hv. }
    cbn [_timestamps with_cache]. rewrite Hk.
    eexists. split; [reflexivity|].
    destruct (deleted key a v Hnd Hts Hv) as (H1 & H2 & H3 & H4 & _).
    repeat split; cbn in *; try assumption; try apply H2. lia.
  - eexists. split; [reflexivity|]. repeat split; try assumption; apply Hts.
Qed.

(** X20: the cache keeps its two tables in step. In a cache whose tables
    [_cache] and [_timestamps] have the same keys, each once, and that holds
    no more items than its size of at least one, [get], [set], [invalidate]
    and [clear] raise nothing and leave such a cache. *)
Theorem cache_stays_well_formed (r : request) (a : AsyncCache V) :
  well_formed a ->
  exists result a', serve r a = (Returned result, a') /\ well_formed a'.
Proof.
  intros Ha. destruct r as [key now|key value now|key|]; cbn [serve].
  - apply get_well_formed, Ha.
  - destruct (set_well_formed key value now a Ha) as (a' & -> & Ha' & _). eauto.
  - destruct (invalidate_well_formed key a Ha) as (a' & -> & Ha' & _). eauto.
  - eexists _, _. split; [reflexivity|]. destruct Ha as (_ & _ & Hmax & _).
    repeat split; cbn; try assumption; try lia.
    + constructor.
    + intros [? H]. rewrite lookup_empty in H. discriminate.
    + intros H. apply elem_of_nil in H. contradiction.
Qed.

(** X21: what was set is what is got, until it is too old. After
    [set key value] at time [now], [get key] at time [later] returns the
    value and keeps it, unless [later - now] is greater than the time to
    live: then it returns [None] and the item is gone. *)
Theorem set_then_get (key : string) (value : V) (now later : float) (a : AsyncCache V) :
  well_formed a ->
  let a1 := snd (set key value now a) in
  let expired := float_gt_int (later - now)%float (_ttl a) in
  fst (get key later a1) = Returned (if expired then None else Some value) /\
  item key (_cache (snd (get key later a1))) = (if expired then None else Some value) /\
  well_formed (snd (get key later a1)).
Proof.
  intros Ha a1 expired. subst a1 expired.
  destruct (set_well_formed key value now a Ha) as (a1 & -> & Ha1 & Hv & Hts & Httl & _).
  cbn [snd]. rewrite <- Httl.
  destruct (get_well_formed key later a1 Ha1) as (r & a2 & Hg & Ha2).
  rewrite Hg. cbn [fst snd]. split; [|split; [|exact Ha2]].
  - unfold get in Hg. rewrite Hv, Hts in Hg.
    destruct (float_gt_int (later - now) (_ttl a1)); now injection Hg as <- _.
  - unfold get in Hg. rewrite Hv, Hts in Hg. destruct Ha1 as (Hnd & Hk & _).
    destruct (float_gt_int (later - now) (_ttl a1)); injection Hg as _ <-; cbn.
    + apply item_del_eq, Hnd.
    + rewrite item_move_to_end by exact Hnd. exact Hv.
Qed.


(** [set] of a new key on a full cache puts the first item out. *)
Lemma set_evicts key value now a oldest vo rest :
  well_formed a ->
  Z.of_nat (length (_cache a)) = _max_size a ->
  item key (_cache a) = None ->
  _cache a = (oldest, vo) :: rest ->
  exists a', set key value now a = (Returned tt, a') /\
             item oldest (_cache a') = None /\
             item key (_cache a') = Some value /\
             (forall k, k <> oldest -> k <> key -> item k (_cache a') = item k (_cache a)) /\
             length (_cache a') = length (_cache a).
Proof.
  intros (Hnd & Hts & Hmax & Hlen) Hfull Hnew Hc. unfold set.
  destruct (Z.leb_spec (_max_size a) (Z.of_nat (length (_cache a)))) as [_|?]; [|lia].
  rewrite bool_decide_eq_false_2 by (rewrite Hnew; intros [? ?]; discriminate).
  cbn [andb negb]. rewrite Hc. rewrite <- Hc.
  assert (item oldest (_cache a) = Some vo) as Ho.
  { rewrite Hc. cbn. now rewrite String.eqb_refl. }
  destruct (deleted oldest a vo Hnd Hts Ho) as (D1 & D2 & D3 & D4 & D5).
  assert (is_Some (_timestamps a !! oldest)) as [ts Hk].
  { apply Hts. eapply item_Some_elem, Ho. }
  cbn [_timestamps with_cache]. rewrite Hk.
  eexists. split; [reflexivity|].
  assert (key <> oldest) as Hne by (intros ->; congruence).
  match goal with
  | |- item _ (_cache (with_cache _ (with_timestamps _ (with_cache _ ?b)))) = _ /\ _ =>
      destruct (stored key value now b D1 D2) as (H1 & H2 & H3 & H4 & H5 & H6)
  end.
  cbn [_cache with_cache with_timestamps] in *.
  repeat split.
  - rewrite H5 by congruence. exact D4.
  - exact H4.
  - intros k Hk1 Hk2. rewrite H5 by exact Hk2. now apply D5.
  - rewrite H3, D5 by exact Hne. rewrite Hnew. lia.
Qed.

(** A hit moves the item to the end. *)
Lemma get_hit k v ts now a :
  item k (_cache a) = Some v -> _timestamps a !! k = Some ts ->
  float_gt_int (now - ts)%float (_ttl a) = false ->
  get k now a = (Returned (Some v), hit (with_cache (move_to_end k) a)).
Proof. intros Hv Hts Hf. unfold get. now rewrite Hv, Hts, Hf. Qed.

(** X22: the item that was read is not the one put out. In a full cache
    of size two or more, after a [get] that finds [k], the [set] of a new key
    keeps [k] with its value, stores the new item, leaves the cache as long
    as it was, and puts out an item other than [k]. *)
Theorem read_item_outlives_eviction (k key : string) (v value : V)
    (ts now later : float) (a : AsyncCache V) :
  well_formed a ->
  Z.of_nat (length (_cache a)) = _max_size a ->
  2 <= _max_size a ->
  item k (_cache a) = Some v ->
  _timestamps a !! k = Some ts ->
  float_gt_int (now - ts)%float (_ttl a) = false ->
  item key (_cache a) = None ->
  let a1 := snd (get k now a) in
  let a2 := snd (set key value later a1) in
  fst (get k now a) = Returned (Some v) /\
  item k (_cache a2) = Some v /\
  item key (_cache a2) = Some value /\
  length (_cache a2) = length (_cache a) /\
  exists evicted, is_Some (item evicted (_cache a)) /\ evicted <> k /\
                  item evicted (_cache a2) = None.
Proof.
  intros Ha Hfull Hmax Hv Hts Hf Hnew a1 a2. subst a1 a2.
  rewrite (get_hit _ _ _ _ _ Hv Hts Hf). cbn [fst snd].
  destruct (get_well_formed k now a Ha) as (r & a1 & Hg & Ha1).
  rewrite (get_hit _ _ _ _ _ Hv Hts Hf) in Hg. injection Hg as _ <-.
  pose proof Ha as (Hnd & _).
  pose proof (move_to_end_Permutation k (_cache a)) as Hp.
  set (a1 := hit (with_cache (move_to_end k) a)) in *.
  assert (forall x, item x (_cache a1) = item x (_cache a)) as Hsame
    by (intros x; apply item_move_to_end, Hnd).
  assert (length (_cache a1) = length (_cache a)) as Hlen1
    by (cbn; now rewrite Hp).
  (* the first item of the cache after the hit is not the one read *)
  assert (exists e ve rest, _cache a1 = (e, ve) :: rest) as (e & ve & rest & Hc1).
  { destruct (_cache a1) as [|[e ve] rest]; [cbn in Hlen1; lia|eauto]. }
  assert (e <> k) as Hek.
  { intros ->. cbn in Hc1. unfold move_to_end in Hc1. rewrite Hv in Hc1.
    destruct (del k (_cache a)) as [|[e' ve'] rest'] eqn:Hd.
    - pose proof (del_Permutation _ _ _ Hv) as Hp'. rewrite Hd in Hp'.
      apply Permutation_length in Hp'. cbn in Hp'. lia.
    - cbn in Hc1. injection Hc1 as -> _ _.
      pose proof (item_del_eq k (_cache a) Hnd) as Hn. rewrite Hd in Hn. cbn in Hn.
      rewrite String.eqb_refl in Hn. discriminate. }
  destruct (set_evicts key value later a1 e ve rest Ha1) as
    (a2 & -> & He & Hk & Hframe & Hlen2).
  - rewrite Hlen1. exact Hfull.
  - rewrite Hsame. exact Hnew.
  - exact Hc1.
  - cbn [snd]. split; [reflexivity|]. split; [|split; [exact Hk|split]].
    + rewrite Hframe; [now rewrite Hsame| congruence |intros ->; congruence].
    + now rewrite Hlen2.
    + exists e. split; [|split; [exact Hek|exact He]].
      rewrite <- Hsame, Hc1. cbn. rewrite String.eqb_refl. eauto.
Qed.


(** [set] where there is room, or the key is in the cache, puts nothing
    out. *)
Lemma set_keeps key value now a :
  well_formed a ->
  Z.of_nat (length (_cache a)) < _max_size a ->
  exists a', set key value now a = (Returned tt, a') /\ well_formed a' /\
             item key (_cache a') = Some value /\
             (forall k, k <> key -> item k (_cache a') = item k (_cache a)) /\
             (length (_cache a') <= S (length (_cache a)))%nat /\
             _max_size a' = _max_size a.
Proof.
  intros Ha Hroom.
  destruct (set_well_formed key value now a Ha) as (a' & Hs & Ha' & Hv & _ & _ & Hm).
  exists a'. split; [exact Hs|]. split; [exact Ha'|]. split; [exact Hv|].
  destruct Ha as (Hnd & Hts & _). unfold set in Hs.
  destruct (Z.leb_spec (_max_size a) (Z.of_nat (length (_cache a)))) as [?|_]; [lia|].
  cbn [andb] in Hs. injection Hs as <-.
  destruct (stored key value now a Hnd Hts) as (_ & _ & H3 & _ & H5 & _).
  split; [exact H5|]. split; [|exact Hm].
  rewrite H3. destruct (item key (_cache a)); lia.
Qed.

(** X23: a warm-up that fits into the cache keeps all it was given. If
    the items of [data], with the ones the cache holds, are no more than the
    size of the cache, [warm_up] raises nothing, every item of [data] is in
    the cache with its value afterwards, and the other keys have what they
    had. *)
Theorem warm_up_keeps_all (data : list (string * V * float)) (a : AsyncCache V) :
  well_formed a ->
  NoDup data.*1.*1 ->
  Z.of_nat (length (_cache a) + length data) <= _max_size a ->
  exists a', warm_up data a = (Returned tt, a') /\ well_formed a' /\
             (forall key value now, (key, value, now) ∈ data ->
                item key (_cache a') = Some value) /\
             (forall key, key ∉ data.*1.*1 -> item key (_cache a') = item key (_cache a)).
Proof.
  revert a. induction data as [|[[k v] t] rest IH]; intros a Ha Hnd Hlen.
  - exists a. split; [reflexivity|]. split; [exact Ha|]. split; [|reflexivity].
    intros key value now H. apply elem_of_nil in H. contradiction.
  - cbn [fmap list_fmap fst] in Hnd. apply NoDup_cons in Hnd as [Hk Hnd].
    cbn [length] in Hlen.
    destruct (set_keeps k v t a Ha) as (a1 & Hs & Ha1 & Hv & Hframe & Hl & Hm); [lia|].
    destruct (IH a1 Ha1 Hnd) as (a2 & Hw & Ha2 & Hall & Hrest); [lia|].
    exists a2. cbn [warm_up]. rewrite Hs. split; [exact Hw|]. split; [exact Ha2|]. split.
    + intros key value now H. apply elem_of_cons in H as [[= -> -> ->]|H].
      * rewrite Hrest by exact Hk. exact Hv.
      * eapply Hall, H.
    + intros key H. cbn [fmap list_fmap fst] in H. apply not_elem_of_cons in H as [Hne H].
      rewrite Hrest by exact H. apply Hframe, Hne.
Qed.

Lemma init_well_formed ttl_seconds max_size :
  0 < max_size -> well_formed (V := V) (__init__ ttl_seconds max_size).
Proof.
  intros H. repeat split; cbn; try lia.
  - constructor.
  - intros [? E]. rewrite lookup_empty in E. discriminate.
  - intros E. apply elem_of_nil in E. contradiction.
Qed.

End Cache.

(** X20 on the empty user cache. *)
Lemma cache_stays_well_formed_user_cache :
  cache.well_formed (V := pyval) cache.user_cache /\
  exists result a',
    cache.serve (V := pyval) (cache.do_invalidate "user_555") cache.user_cache
    = (cache.Returned result, a') /\ cache.well_formed a'.
Proof.
  split; [apply init_well_formed; reflexivity|].
  apply (cache_stays_well_formed (cache.do_invalidate "user_555") cache.user_cache).
  apply init_well_formed. reflexivity.
Defined.

(** X21 on the service cache, read 30 and 301 seconds after the item was
    set. *)
Lemma set_then_get_in_service_cache :
  cache.well_formed (V := pyval) cache.service_cache /\
  fst (cache.get "service_1" 130%float
         (snd (cache.set "service_1" (VInt 7) 100%float cache.service_cache)))
  = cache.Returned (Some (VInt 7)) /\
  fst (cache.get "service_1" 401%float
         (snd (cache.set "service_1" (VInt 7) 100%float cache.service_cache)))
  = cache.Returned None.
Proof.
  assert (cache.well_formed (V := pyval) cache.service_cache) as H
    by (apply init_well_formed; reflexivity).
  split; [exact H|]. split.
  - exact (proj1 (set_then_get "service_1" (VInt 7) 100%float 130%float _ H)).
  - exact (proj1 (set_then_get "service_1" (VInt 7) 100%float 401%float _ H)).
Defined.

Lemma full_cache_well_formed : cache.well_formed full_cache.
Proof.
  unfold full_cache.
  destruct (set_well_formed "user_1" (VInt 1) 0%float (cache.__init__ 60 2)
              (init_well_formed 60 2 eq_refl)) as (a1 & -> & H1 & _).
  cbn [snd].
  destruct (set_well_formed "user_2" (VInt 2) 1%float a1 H1) as (a2 & -> & H2 & _).
  exact H2.
Qed.

(** X22 on the full cache of two items: ["user_1"] is read, then
    ["user_3"] is set. *)
Lemma read_item_outlives_eviction_full_cache :
  let a2 := snd (cache.set "user_3" (VInt 3) 20%float
                   (snd (cache.get "user_1" 10%float full_cache))) in
  fst (cache.get "user_1" 10%float full_cache) = cache.Returned (Some (VInt 1)) /\
  cache.item "user_1" (cache._cache a2) = Some (VInt 1) /\
  cache.item "user_3" (cache._cache a2) = Some (VInt 3) /\
  length (cache._cache a2) = length (cache._cache full_cache) /\
  exists evicted, is_Some (cache.item evicted (cache._cache full_cache)) /\
                  evicted <> "user_1" /\
                  cache.item evicted (cache._cache a2) = None.
Proof.
  apply (read_item_outlives_eviction "user_1" "user_3" (VInt 1) (VInt 3)
           0%float 10%float 20%float full_cache).
  - exact full_cache_well_formed.
  - reflexivity.
  - vm_compute. discriminate.
  - reflexivity.
  - reflexivity.
  - reflexivity.
  - reflexivity.
Defined.

(** X23 for two services and the empty service cache. *)
Lemma warm_up_keeps_all_two_services :
  exists a', cache.warm_up two_services cache.service_cache = (cache.Returned tt, a') /\
             cache.well_formed a' /\
             (forall key value now, (key, value, now) ∈ two_services ->
                cache.item key (cache._cache a') = Some value) /\
             (forall key, key ∉ two_services.*1.*1 ->
                cache.item key (cache._cache a')
                = cache.item key (cache._cache (V := pyval) cache.service_cache)).
Proof.
  apply (warm_up_keeps_all two_services cache.service_cache).
  - apply init_well_formed. reflexivity.
  - apply (bool_decide_unpack _). vm_compute. exact I.
  - vm_compute. discriminate.
Defined.

(** ** The rate limit *)

Section RateLimit.

Import antispam.

Context (cfg : handlers.Config).
Implicit Types (self : AntiSpamMiddleware) (messages : list (Z * Z))
  (log : list (Z * Z * result action)).

Lemma calls_app messages1 messages2 self :
  calls cfg (messages1 ++ messages2) self
  = let '(rs1, self1) := calls cfg messages1 self in
    let '(rs2, self2) := calls cfg messages2 self1 in
    ((rs1 ++ rs2)%list, self2).
Proof.
  revert self. induction messages1 as [|[u t] rest IH]; intros self; cbn.
  - now destruct (calls cfg messages2 self).
  - destruct (__call__ cfg u t self) as [r self1]. rewrite IH.
    destruct (calls cfg rest self1) as [rs1 self2].
    now destruct (calls cfg messages2 self2).
Qed.

Lemma calls_length messages self :
  length (fst (calls cfg messages self)) = length messages.
Proof.
  revert self. induction messages as [|[u t] rest IH]; intros self; cbn; [reflexivity|].
  destruct (__call__ cfg u t self) as [r self1]. specialize (IH self1).
  destruct (calls cfg rest self1). cbn in *. now rewrite IH.
Qed.

Lemma handled_app user_id log1 log2 :
  handled user_id (log1 ++ log2) = (handled user_id log1 ++ handled user_id log2)%list.
Proof. apply omap_app. Qed.

Lemma filter_above_filter (c c0 : Z) (l : list Z) :
  c0 <= c ->
  filter (fun ts => c < ts) (filter (fun ts => c0 < ts) l) = filter (fun ts => c < ts) l.
Proof.
  intros Hc. induction l as [|x l IH]; [reflexivity|].
  rewrite !filter_cons. destruct (decide (c0 < x)).
  - rewrite filter_cons. destruct (decide (c < x)); now rewrite IH.
  - rewrite IH. destruct (decide (c < x)); [lia|reflexivity].
Qed.

Lemma filter_length_le (P Q : Z -> Prop) `{!forall x, Decision (P x)}
    `{!forall x, Decision (Q x)} (l : list Z) :
  (forall x, P x -> Q x) -> (length (filter P l) <= length (filter Q l))%nat.
Proof.
  intros Himp. induction l as [|x l IH]; [reflexivity|].
  rewrite !filter_cons. destruct (decide (P x)) as [HP|HP].
  - destruct (decide (Q x)) as [|HQ]; [cbn; lia|]. exfalso. apply HQ, Himp, HP.
  - destruct (decide (Q x)); cbn; lia.
Qed.

(** The next message. *)
Lemma call_next messages log self user_id now :
  in_step cfg (time_window self) messages log self ->
  Forall (fun t => t <= now) messages.*2 ->
  0 <= now - time_window self * 1000000 <= datetime_max ->
  let a := if bool_decide (user_id ∈ handlers.ADMIN_IDS cfg) then call_handler
           else if rate_limit self
                   <=? Z.of_nat (length (filter (fun ts => now - time_window self * 1000000 < ts)
                                                (handled user_id log)))
                then answer_slow_down else call_handler in
  exists self',
    __call__ cfg user_id now self = (Ok a, self') /\
    rate_limit self' = rate_limit self /\ time_window self' = time_window self /\
    in_step cfg (time_window self) (messages ++ [(user_id, now)])%list
            (log ++ [(user_id, now, Ok a)])%list self' /\
    (user_id ∉ handlers.ADMIN_IDS cfg -> a = call_handler ->
     Z.of_nat (length (filter (fun ts => now - time_window self * 1000000 < ts)
                              (handled user_id log))) < rate_limit self).
Proof.
  intros Hstep Hbefore Hrange a. subst a. unfold __call__.
  destruct (bool_decide (user_id ∈ handlers.ADMIN_IDS cfg)) eqn:Hadmin.
  { apply bool_decide_eq_true in Hadmin. exists self. repeat split; try reflexivity.
    - intros u c Hu Hc. rewrite handled_app. cbn.
      rewrite bool_decide_eq_false_2 by (intros ->; contradiction). cbn.
      rewrite app_nil_r. apply Hstep; [exact Hu|].
      rewrite !fmap_app in Hc. now apply Forall_app in Hc as [Hc _].
    - contradiction. }
  apply bool_decide_eq_false in Hadmin.
  set (c0 := now - time_window self * 1000000) in *.
  unfold minus_seconds. fold c0.
  destruct (Z.leb_spec 0 c0) as [_|?]; [|lia].
  destruct (Z.leb_spec c0 datetime_max) as [_|?]; [|lia]. cbn [andb].
  assert (Forall (fun t => t - time_window self * 1000000 <= c0) messages.*2) as Hc0.
  { eapply Forall_impl; [exact Hbefore|]. cbn. intros t Ht. unfold c0. lia. }
  set (recent := filter (fun ts => c0 < ts) (history user_id self)).
  assert (filter (fun ts => c0 < ts) (handled user_id log) = recent) as Hrecent
    by (apply Hstep; assumption).
  rewrite Hrecent.
  assert (forall u c, u ∉ handlers.ADMIN_IDS cfg ->
            Forall (fun t => t - time_window self * 1000000 <= c)
                   (messages ++ [(user_id, now)])%list.*2 ->
            filter (fun ts => c < ts) (handled u log)
            = filter (fun ts => c < ts)
                     (if bool_decide (u = user_id) then recent else history u self))
    as Hfiltered.
  { intros u c Hu Hc. rewrite fmap_app in Hc. apply Forall_app in Hc as [Hc Hnow].
    cbn in Hnow. apply Forall_cons in Hnow as [Hnow _]. fold c0 in Hnow.
    destruct (bool_decide (u = user_id)) eqn:E.
    - apply bool_decide_eq_true in E. subst u. unfold recent.
      rewrite filter_above_filter by exact Hnow. now apply Hstep.
    - now apply Hstep. }
  destruct (Z.leb_spec (rate_limit self) (Z.of_nat (length recent))) as [Hfull|Hroom].
  - eexists. split; [reflexivity|]. repeat split; try reflexivity.
    + intros u c Hu Hc. rewrite handled_app. cbn. rewrite app_nil_r.
      rewrite (Hfiltered u c Hu Hc). unfold history. cbn.
      destruct (bool_decide (u = user_id)) eqn:E.
      * apply bool_decide_eq_true in E. subst u. now rewrite lookup_insert_eq.
      * apply bool_decide_eq_false in E. now rewrite lookup_insert_ne by congruence.
    + discriminate.
  - eexists. split; [reflexivity|]. repeat split; try reflexivity.
    + intros u c Hu Hc. rewrite handled_app, filter_app. cbn.
      rewrite (Hfiltered u c Hu Hc). unfold history. cbn.
      destruct (bool_decide (u = user_id)) eqn:E.
      * apply bool_decide_eq_true in E. subst u.
        rewrite lookup_insert_eq, bool_decide_eq_true_2 by reflexivity.
        cbn. now rewrite filter_app.
      * apply bool_decide_eq_false in E.
        rewrite lookup_insert_ne, bool_decide_eq_false_2 by congruence.
        cbn. now rewrite app_nil_r.
    + intros _ _. exact Hroom.
Qed.


Lemma clock_ok_snoc time_window messages user_id now :
  clock_ok time_window (messages ++ [(user_id, now)])%list ->
  clock_ok time_window messages /\
  Forall (fun t => t <= now) messages.*2 /\
  0 <= now - time_window * 1000000 <= datetime_max.
Proof.
  unfold clock_ok. rewrite fmap_app. cbn. intros [Hs Hr].
  apply StronglySorted_app in Hs as (Hle & Hs & _).
  apply Forall_app in Hr as [Hr Hnow]. apply Forall_cons in Hnow as [Hnow _].
  repeat split; try assumption; try lia.
  apply Forall_forall. intros t Ht. apply Hle; [exact Ht|]. apply list_elem_of_singleton.
  reflexivity.
Qed.

(** The middleware after the messages, and what it did with them. *)
Lemma calls_spec (rate_limit time_window : Z) messages :
  clock_ok time_window messages ->
  exists rs self,
    calls cfg messages (__init__ rate_limit time_window) = (rs, self) /\
    antispam.rate_limit self = rate_limit /\ antispam.time_window self = time_window /\
    length rs = length messages /\
    Forall (fun r => exists a, r = Ok a) rs /\
    in_step cfg time_window messages (zip messages rs) self /\
    forall user_id t,
      user_id ∉ handlers.ADMIN_IDS cfg ->
      Z.of_nat (length (filter (fun ts => t - time_window * 1000000 < ts /\ ts <= t)
                               (handled user_id (zip messages rs))))
      <= Z.max 0 rate_limit.
Proof.
  induction messages as [|[u now] messages IH] using rev_ind; intros Hclock.
  { eexists _, _. split; [reflexivity|]. repeat split; try constructor.
    - cbn. lia. }
  apply clock_ok_snoc in Hclock as (Hclock & Hbefore & Hrange).
  destruct (IH Hclock) as (rs & self & Hcalls & HR & HW & Hlen & Hok & Hstep & Hwindow).
  rewrite <- HW in Hstep, Hrange.
  destruct (call_next messages (zip messages rs) self u now Hstep Hbefore Hrange)
    as (self' & Hcall & HR' & HW' & Hstep' & Hroom).
  match type of Hcall with _ = (Ok ?x, _) => set (a := x) in * end.
  exists (rs ++ [Ok a])%list, self'. rewrite calls_app, Hcalls. cbn [calls]. rewrite Hcall.
  assert (zip (messages ++ [(u, now)]) (rs ++ [Ok a])
          = (zip messages rs ++ [(u, now, Ok a)])%list) as Hzip
    by (rewrite zip_with_app by (symmetry; exact Hlen); reflexivity).
  rewrite Hzip.
  split; [reflexivity|]. split; [congruence|]. split; [congruence|].
  split; [rewrite !length_app, Hlen; reflexivity|].
  split; [apply Forall_app; split; [exact Hok|repeat constructor; eauto]|].
  split; [rewrite <- HW; exact Hstep'|].
  intros user_id t Huser. rewrite handled_app, filter_app, length_app.
  specialize (Hwindow user_id t Huser).
  cbn [handled omap list_omap]. 
  destruct a eqn:Ha; [|cbn; lia].
  destruct (bool_decide (u = user_id)) eqn:E; [|cbn; lia].
  apply bool_decide_eq_true in E. subst u. cbn [mbind option_bind app].
  rewrite filter_cons, filter_nil.
  destruct (decide (t - time_window * 1000000 < now /\ now <= t)) as [[Hlo Hhi]|_];
    [|cbn; lia].
  cbn [length].
  specialize (Hroom Huser eq_refl). rewrite HW, HR in Hroom.
  assert (length (filter (fun ts => (t - time_window * 1000000 < ts /\ ts <= t)%Z)
                         (handled user_id (zip messages rs)))
          <= length (filter (fun ts => (now - time_window * 1000000 < ts)%Z)
                            (handled user_id (zip messages rs))))%nat as Hle.
  { apply filter_length_le. intros x [Hx _]. lia. }
  lia.
Qed.


(** X24: the rate limit holds in every time window. While the clock does
    not go back and no cutoff leaves the range of [datetime], no call of the
    middleware raises, and of the messages of a user who is no admin at most
    [rate_limit] (none, if that is negative) with times in
    [(t - time_window, t]] reach the handler, whatever [t] is. *)
Theorem rate_limit_holds (rate_limit time_window : Z) (messages : list (Z * Z)) :
  clock_ok time_window messages ->
  length (served cfg rate_limit time_window messages) = length messages /\
  Forall (fun entry => exists a, entry.2 = Ok a)
         (served cfg rate_limit time_window messages) /\
  forall user_id t,
    user_id ∉ handlers.ADMIN_IDS cfg ->
    Z.of_nat (length (filter (fun ts => t - time_window * 1000000 < ts /\ ts <= t)
                             (handled user_id
                                (served cfg rate_limit time_window messages))))
    <= Z.max 0 rate_limit.
Proof.
  intros Hclock. unfold served.
  destruct (calls_spec rate_limit time_window messages Hclock)
    as (rs & self & -> & _ & _ & Hlen & Hok & _ & Hwindow).
  cbn [fst]. split; [|split; [|exact Hwindow]].
  - rewrite length_zip_with. lia.
  - clear Hwindow. revert rs Hlen Hok.
    induction messages as [|m messages IH]; intros [|r rs] Hlen Hok; cbn;
      try constructor.
    + apply Forall_cons in Hok as [Hr _]. exact Hr.
    + apply Forall_cons in Hok as [_ Hok]. apply IH; [|cbn in Hlen; lia|exact Hok].
      destruct Hclock as [Hs Hr]. cbn in Hs, Hr.
      apply StronglySorted_inv in Hs as [Hs _]. apply Forall_cons in Hr as [_ Hr].
      now split.
Qed.

(** X25: a message is held back only at the limit. The middleware lets
    the next message of an admin through; that of another user it answers
    with the request to slow down if [rate_limit] or more of the messages of
    this user that reached the handler are younger than [time_window], and
    lets it through if not. Messages that were held back do not count. *)
Theorem held_back_only_at_the_limit (rate_limit time_window : Z)
    (messages : list (Z * Z)) (user_id now : Z) :
  clock_ok time_window (messages ++ [(user_id, now)])%list ->
  served cfg rate_limit time_window (messages ++ [(user_id, now)])%list
  = (served cfg rate_limit time_window messages
     ++ [(user_id, now,
          Ok (if bool_decide (user_id ∈ handlers.ADMIN_IDS cfg) then call_handler
              else if rate_limit
                      <=? Z.of_nat
                            (length
                               (filter (fun ts => now - time_window * 1000000 < ts)
                                  (handled user_id
                                     (served cfg rate_limit time_window messages))))
                   then answer_slow_down else call_handler))])%list.
Proof.
  intros Hclock. apply clock_ok_snoc in Hclock as (Hclock & Hbefore & Hrange).
  unfold served.
  destruct (calls_spec rate_limit time_window messages Hclock)
    as (rs & self & Hcalls & HR & HW & Hlen & _ & Hstep & _).
  rewrite <- HW in Hstep, Hrange.
  destruct (call_next messages (zip messages rs) self user_id now Hstep Hbefore Hrange)
    as (self' & Hcall & _).
  rewrite calls_app, Hcalls. cbn [calls fst]. rewrite Hcall. cbn [fst].
  rewrite zip_with_app by (symmetry; exact Hlen). cbn. now rewrite HW, HR.
Qed.

End RateLimit.

(** X24 for three messages of user 7: at most two of them reach the
    handler in a minute. *)
Lemma rate_limit_holds_three_messages :
  length (served (handlers.default_config [1]) 2 60 three_messages)
  = length three_messages /\
  Forall (fun entry => exists a, entry.2 = Ok a)
         (served (handlers.default_config [1]) 2 60 three_messages) /\
  forall user_id t,
    user_id ∉ handlers.ADMIN_IDS (handlers.default_config [1]) ->
    Z.of_nat (length (filter (fun ts => t - 60 * 1000000 < ts /\ ts <= t)
                             (handled user_id
                                (served (handlers.default_config [1]) 2 60
                                        three_messages))))
    <= Z.max 0 2.
Proof.
  apply (rate_limit_holds (handlers.default_config [1]) 2 60 three_messages).
  split.
  - repeat constructor; cbn; lia.
  - repeat constructor; unfold antispam.datetime_max; cbn; lia.
Defined.

(** X25 for the third message of user 7 within three seconds, with a limit
    of two a minute. *)
Lemma held_back_only_at_the_limit_third_message :
  served (handlers.default_config [1]) 2 60
         (take 2 three_messages ++ [(7, 63900000002000000)])%list
  = (served (handlers.default_config [1]) 2 60 (take 2 three_messages)
     ++ [(7, 63900000002000000, Ok antispam.answer_slow_down)])%list.
Proof.
  apply (held_back_only_at_the_limit (handlers.default_config [1]) 2 60
           (take 2 three_messages) 7 63900000002000000).
  split.
  - repeat constructor; cbn; lia.
  - repeat constructor; unfold antispam.datetime_max; cbn; lia.
Defined.
